(** * daily-ai-news-brief: the ingestion pipeline and its scheduler

    A shallow embedding of [src/utils_logic.py] ([process_article_content],
    [process_news_data]), of the background loop of [src/app.py]
    ([run_scheduler]) and of what its page script writes
    ([update_stats_visit], the refresh, delete and add-feed actions), with
    the properties of the specification, and further properties of the
    code, stated over it.

    Conventions.
    - A Python [str] is the list of its code points.
    - A Python [dict] used as an insertion-ordered map is an association
      list with unique keys: assigning to a present key replaces the value
      in place, assigning to an absent key appends.
    - Library calls whose result is not fixed by the repository
      ([feedparser.parse], [BeautifulSoup.get_text], [time.mktime],
      [datetime] formatting, [json.loads], the OpenAI client, [uuid4], the
      wall clock) are fields of a record [World].
    - [status_callback] and [progress_callback] only report progress; they
      are left out of the merge engine and appear in the scheduler as the
      messages a run emits. *)

From Stdlib Require Import List Bool Arith ZArith NArith Lia.
From Stdlib Require Import String Ascii.
From Stdlib Require Import QArith.
From Stdlib Require Import Sorted Permutation.
Import ListNotations.

Local Open Scope Z_scope.

(* ================================================================= *)
(** ** Python strings *)

Module PyStr.

(** A code point. *)
Definition char := N.

Definition str := list char.

(** An ASCII literal of the source. *)
Definition py (s : string) : str :=
  List.map N_of_ascii (list_ascii_of_string s).

Definition len (s : str) : Z := Z.of_nat (List.length s).

(** Truth value of a string: [bool(s)]. *)
Definition truthy (s : str) : bool :=
  match s with [] => false | _ :: _ => true end.

Fixpoint eqb (a b : str) : bool :=
  match a, b with
  | [], [] => true
  | x :: a', y :: b' => N.eqb x y && eqb a' b'
  | _, _ => false
  end.

(** [s.startswith(p)] *)
Fixpoint startswith (p s : str) : bool :=
  match p, s with
  | [], _ => true
  | _ :: _, [] => false
  | x :: p', y :: s' => N.eqb x y && startswith p' s'
  end.

(** [needle in s] *)
Fixpoint contains (needle s : str) : bool :=
  startswith needle s ||
  match s with
  | [] => false
  | _ :: s' => contains needle s'
  end.

(** [c.isascii()] for a one-character string. *)
Definition isascii (c : char) : bool := (c <=? 127)%N.

(** The letters A-Z and a-z. *)
Definition is_ascii_letter (c : char) : bool :=
  ((65 <=? c) && (c <=? 90) || (97 <=? c) && (c <=? 122))%N.

(** [c.isspace()]: the code points [str.strip()] removes. *)
Definition isspace (c : char) : bool :=
  ((9 <=? c) && (c <=? 13) || (28 <=? c) && (c <=? 32)
   || (c =? 133) || (c =? 160) || (c =? 5760)
   || (8192 <=? c) && (c <=? 8202)
   || (c =? 8232) || (c =? 8233) || (c =? 8239) || (c =? 8287)
   || (c =? 12288))%N.

Fixpoint lstrip (s : str) : str :=
  match s with
  | [] => []
  | c :: s' => if isspace c then lstrip s' else s
  end.

Definition rstrip (s : str) : str := rev (lstrip (rev s)).

(** [s.strip()] *)
Definition strip (s : str) : str := rstrip (lstrip s).

(** [s[:n]] for [n >= 0]. *)
Definition slice_to (n : nat) (s : str) : str := firstn n s.

(** [s.lower()], exact on the code points whose lower case contains an
    ASCII character (A-Z, U+0130, U+212A); the lower case of any other
    code point is not ASCII, and is kept as it is: the only use is the
    test ["gemini" in model_name.lower()]. *)
Definition lower_char (c : char) : str :=
  if ((65 <=? c) && (c <=? 90))%N then [(c + 32)%N]
  else if (c =? 304)%N then [105; 775]%N
  else if (c =? 8490)%N then [107]%N
  else [c].

Definition lower (s : str) : str := flat_map lower_char s.

(** [a < b]: code points compared lexicographically. *)
Fixpoint ltb (a b : str) : bool :=
  match a, b with
  | _, [] => false
  | [], _ :: _ => true
  | x :: a', y :: b' =>
      if (x <? y)%N then true
      else if (y <? x)%N then false
      else ltb a' b'
  end.

(** [a <= b] *)
Definition leb (a b : str) : bool := negb (ltb b a).

End PyStr.

Import PyStr.

(** A value that is a [str] or [None]. *)
Definition optstr := option str.

(** [bool(v)] for a [str]-or-[None] value. *)
Definition truthy_opt (v : optstr) : bool :=
  match v with None => false | Some s => truthy s end.

(* ================================================================= *)
(** ** The reprocess heuristic (utils_logic.py, lines 199-213) *)

(** [is_english_summary], line 207. *)
Definition is_english_summary (curr_summary : optstr) : bool :=
  match curr_summary with
  | None => false
  | Some s =>
      truthy s && (0 <? len s) &&
      match s with
      | c :: _ => isascii c
      | [] => false
      end &&
      negb (contains (py "Error") s)
  end.

(** The condition of line 209: [should_process] of an existing article. *)
Definition needs_reprocess (curr_summary : optstr) : bool :=
  match curr_summary with
  | None => true
  | Some s =>
      negb (truthy s)
      || negb (truthy (strip s))
      || startswith (py "Error") s
      || contains (py "Error using AI model") s
      || is_english_summary curr_summary
  end.

(* ================================================================= *)
(** ** Data model *)

(** [time.struct_time], as feedparser gives it in [published_parsed]. *)
Record struct_time := {
  tm_year : Z; tm_mon : Z; tm_mday : Z;
  tm_hour : Z; tm_min : Z; tm_sec : Z;
  tm_wday : Z; tm_yday : Z; tm_isdst : Z
}.

(** A feed entry: the keys of the feedparser entry the pipeline reads.
    [None] is an absent key.  [e_content] is the list under ['content'],
    each item given by its optional ['value']. *)
Record Entry := {
  e_link : optstr;
  e_title : optstr;
  e_published_parsed : option struct_time;
  e_updated_parsed : option struct_time;
  e_summary : optstr;
  e_description : optstr;
  e_content : option (list optstr);
  e_source_url : optstr
}.

(** An article: the dict built at lines 249-257.  [a_title] and
    [a_summary] hold what the Oracle returned, a [str] or [None]. *)
Record Article := {
  a_id : str;
  a_date : str;
  a_timestamp : str;
  a_title : optstr;
  a_source : optstr;
  a_summary : optstr;
  a_link : str
}.

(** What one call of [client.chat.completions.create] does: it raises, or
    returns a response whose first choice has the given [content]. *)
Inductive completion :=
| APIError (msg : str)
| Completion (content : optstr).

(** A decoded JSON object, seen through the three keys the code reads.
    [j_is_relevant] is [Some b] when the key holds the JSON boolean [b];
    [j_title] and [j_summary] are [None] when the key is absent and
    [Some v] when it holds the string or null [v]. *)
Record json_object := {
  j_is_relevant : option bool;
  j_title : option optstr;
  j_summary : option optstr
}.

(** [json.loads(content)]: it raises [JSONDecodeError], or returns a dict,
    or returns a value of another type (named by its type name). *)
Inductive json_loads_result :=
| JSONDecodeError
| JDict (d : json_object)
| JNotDict (type_name : str).

(** The collaborators of one run. *)
Record World := {
  (** [feedparser.parse(url).entries]; [None] when it raises *)
  feedparser_parse : str -> option (list Entry);
  (** [BeautifulSoup(html, "html.parser").get_text(separator=" ", strip=True)] *)
  get_text : str -> str;
  mktime : struct_time -> Z;
  (** [datetime.datetime.fromtimestamp(ts).isoformat()] *)
  fromtimestamp_isoformat : Z -> str;
  (** [datetime.datetime.fromtimestamp(ts).strftime("%Y-%m-%d")] *)
  fromtimestamp_ymd : Z -> str;
  (** the three clock reads of lines 136-138 *)
  current_time_iso : str;
  today_str : str;
  now_ts : Z;
  (** the k-th [str(uuid.uuid4())] of the run *)
  uuid4 : nat -> str;
  (** [st.secrets.get("OPENAI_API_KEY")] *)
  secrets_api_key : optstr;
  (** the k-th call of the OpenAI client: model, system and user prompt *)
  chat_completions_create : nat -> str -> str -> str -> completion;
  json_loads : str -> json_loads_result
}.

(* ================================================================= *)
(** ** utils_logic.py: fetch_rss_feed, clean_html *)

Definition fetch_rss_feed (W : World) (url : str) : list Entry :=
  match feedparser_parse W url with
  | Some entries => entries
  | None => []
  end.

Definition clean_html (W : World) (html_content : str) : str :=
  get_text W html_content.

(* ================================================================= *)
(** ** utils_logic.py: process_article_content *)

Definition quote : str := [34%N].
Definition newline : str := [10%N].

Definition default_filter_prompt : str :=
  py "Is this article related to Artificial Intelligence, Machine Learning, or LLMs?".

Definition system_prompt (filter_prompt : str) : str :=
  py "You are a helpful assistant. "
  ++ py "First, evaluate if the article matches this criteria: '"
  ++ filter_prompt ++ py "'. "
  ++ py "If it DOES NOT match, output JSON: {" ++ quote ++ py "is_relevant"
  ++ quote ++ py ": false}. "
  ++ py "If it DOES match: "
  ++ py "Translate the news title to Korean. "
  ++ py "Provide a concise 4-5 line summary of the article in Korean. "
  ++ py "Output strictly in JSON format: {" ++ quote ++ py "is_relevant"
  ++ quote ++ py ": true, " ++ quote ++ py "title" ++ quote ++ py ": "
  ++ quote ++ py "..." ++ quote ++ py ", " ++ quote ++ py "summary" ++ quote
  ++ py ": " ++ quote ++ py "..." ++ quote ++ py "}".

Definition user_prompt (title text : str) : str :=
  py "Title: " ++ title ++ newline ++ newline ++ py "Article Text:"
  ++ newline ++ text.

Definition gpt_4o_mini : str := py "gpt-4o-mini".

(** Lines 95-101: an empty or blank content is asked again from the
    fallback model, unless the fallback model produced it.  The result is
    the message of a raised exception or the content to decode; [n] counts
    the calls of the client. *)
Definition retry_if_empty (W : World) (n : nat) (openai_model sp up : str)
    (content : optstr) : (str + optstr) * nat :=
  if negb (truthy_opt content)
     || match content with
        | Some c => negb (truthy (strip c))
        | None => true
        end
  then
    if negb (eqb openai_model gpt_4o_mini) then
      match chat_completions_create W n gpt_4o_mini sp up with
      | APIError msg => (inl msg, S n)
      | Completion content' => (inr content', S n)
      end
    else (inr content, n)
  else (inr content, n).

(** Lines 81-101: the call, its fallback when it raises, and the retry. *)
Definition obtain_content (W : World) (n : nat) (openai_model sp up : str)
    : (str + optstr) * nat :=
  match chat_completions_create W n openai_model sp up with
  | Completion content => retry_if_empty W (S n) openai_model sp up content
  | APIError _ =>
      match chat_completions_create W (S n) gpt_4o_mini sp up with
      | Completion content =>
          retry_if_empty W (S (S n)) gpt_4o_mini sp up content
      | APIError msg => (inl msg, S (S n))
      end
  end.

Definition error_using_ai_model (msg : str) : optstr :=
  Some (py "Error using AI model: " ++ msg).

(** Lines 45-52: the model asked first. *)
Definition resolve_model (model_name : str) : str :=
  if eqb model_name (py "chatgpt-5-mini") || eqb model_name (py "gpt-5-mini")
  then py "gpt-5-mini" else model_name.

(** Lines 55-56: the criterion, or the default one. *)
Definition resolve_filter_prompt (filter_prompt : optstr) : str :=
  match filter_prompt with
  | Some p => if truthy p then p else default_filter_prompt
  | None => default_filter_prompt
  end.

(** The result is [(ai_title, ai_summary)] and the number of client calls
    made so far; [(None, None)] is the irrelevant outcome. *)
Definition process_article_content (W : World) (n : nat)
    (title text model_name : str) (filter_prompt : optstr)
    : (optstr * optstr) * nat :=
  if negb (truthy_opt (secrets_api_key W)) then
    ((Some title, Some (py "Error: OPENAI_API_KEY not found in secrets.")), n)
  else if contains (py "gemini") (lower model_name) then
    ((Some title, Some (py "Error: Gemini model support not yet implemented.")), n)
  else
    let openai_model := resolve_model model_name in
    let filter_prompt := resolve_filter_prompt filter_prompt in
    let sp := system_prompt filter_prompt in
    let up := user_prompt title text in
    match obtain_content W n openai_model sp up with
    | (inl msg, n') => ((Some title, error_using_ai_model msg), n')
    | (inr content, n') =>
        match content with
        | Some ((_ :: _) as c) =>
            match json_loads W c with
            | JSONDecodeError => ((Some title, Some c), n')
            | JDict data =>
                match j_is_relevant data with
                | Some false => ((None, None), n')
                | _ =>
                    ((match j_title data with Some v => v | None => Some title end,
                      match j_summary data with Some v => v | None => Some [] end),
                     n')
                end
            | JNotDict type_name =>
                ((Some title,
                  error_using_ai_model
                    (py "'" ++ type_name ++ py "' object has no attribute 'get'")),
                 n')
            end
        | _ => ((Some title, Some (py "Error: Empty summary returned by AI.")), n')
        end
    end.

(* ================================================================= *)
(** ** The link-indexed working collection *)

(** [existing_items_map]: a dict from link to article, in insertion order. *)
Definition dict := list (str * Article).

(** [d.get(k)] / [k in d] *)
Fixpoint dict_get (k : str) (d : dict) : option Article :=
  match d with
  | [] => None
  | (k', v) :: d' => if eqb k k' then Some v else dict_get k d'
  end.

(** [d[k] = v] *)
Fixpoint dict_set (k : str) (v : Article) (d : dict) : dict :=
  match d with
  | [] => [(k, v)]
  | (k', v') :: d' =>
      if eqb k k' then (k', v) :: d' else (k', v') :: dict_set k v d'
  end.

(** [list(d.values())] *)
Definition dict_values (d : dict) : list Article := List.map snd d.

Definition dict_keys (d : dict) : list str := List.map fst d.

(** Line 132: [{item['link']: item for item in existing_data}] *)
Definition dict_of_items (existing_data : list Article) : dict :=
  fold_left (fun d item => dict_set (a_link item) item d) existing_data [].

(** [updated_data.sort(key=lambda x: x['timestamp'], reverse=True)]: the
    stable sort into descending key order, as an insertion sort. *)
Fixpoint insert_desc (x : Article) (l : list Article) : list Article :=
  match l with
  | [] => [x]
  | y :: l' =>
      if ltb (a_timestamp x) (a_timestamp y) then y :: insert_desc x l'
      else x :: l
  end.

Fixpoint sort_by_timestamp_desc (l : list Article) : list Article :=
  match l with
  | [] => []
  | x :: l' => insert_desc x (sort_by_timestamp_desc l')
  end.

(* ================================================================= *)
(** ** utils_logic.py: process_news_data, first pass (lines 146-164) *)

Definition get_or (v : optstr) (default : str) : str :=
  match v with Some s => s | None => default end.

(** [entry.get('published_parsed') or entry.get('updated_parsed')]: a
    [struct_time] is a non-empty tuple, hence true. *)
Definition published_struct (entry : Entry) : option struct_time :=
  match e_published_parsed entry with
  | Some t => Some t
  | None => e_updated_parsed entry
  end.

(** Line 158.  The two timestamps are whole seconds, and the quotient is
    compared with a whole number of days: the comparison of line 159 on
    floats agrees with the one on the exact quotient. *)
Definition diff_days (W : World) (published_ts : Z) : Q :=
  (inject_Z (now_ts W - published_ts) / inject_Z (24 * 3600))%Q.

(** [x > y] on rationals. *)
Definition Qgtb (x y : Q) : bool := negb (Qle_bool x y).

(** The body of the inner loop, lines 149-160: [true] when the entry is
    appended to [all_valid_entries]. *)
Definition entry_is_valid (W : World) (days_limit : Z) (entry : Entry) : bool :=
  let link := get_or (e_link entry) [] in
  if negb (truthy link) then false
  else
    match published_struct entry with
    | Some t =>
        let published_ts := mktime W t in
        if Qgtb (diff_days W published_ts) (inject_Z days_limit) then false
        else true
    | None => true
    end.

(** Line 163: [entry['source_url'] = url] *)
Definition set_source_url (url : str) (entry : Entry) : Entry :=
  {| e_link := e_link entry;
     e_title := e_title entry;
     e_published_parsed := e_published_parsed entry;
     e_updated_parsed := e_updated_parsed entry;
     e_summary := e_summary entry;
     e_description := e_description entry;
     e_content := e_content entry;
     e_source_url := Some url |}.

Definition all_valid_entries (W : World) (rss_urls : list str) (days_limit : Z)
    : list Entry :=
  flat_map
    (fun url =>
       List.map (set_source_url url)
         (filter (entry_is_valid W days_limit) (fetch_rss_feed W url)))
    rss_urls.

(* ================================================================= *)
(** ** utils_logic.py: process_news_data, second pass (lines 170-284) *)

Record RunState := {
  existing_items_map : dict;
  new_items_count : Z;
  updated_count : Z;
  (** calls of the OpenAI client made so far *)
  api_calls : nat;
  (** the [(title, text)] of every call of [process_article_content],
      latest first *)
  oracle_calls : list (str * str);
  (** identifiers drawn so far *)
  ids_drawn : nat
}.

(** Lines 180-184: the richest body the entry carries. *)
Definition summary_text_of (entry : Entry) : str :=
  let summary_text :=
    let s := get_or (e_summary entry) [] in
    if truthy s then s else get_or (e_description entry) [] in
  match e_content entry with
  | Some (c0 :: _) => get_or c0 summary_text
  | _ => summary_text
  end.

Definition too_short : str := py "Content too short to summarize.".

(** What lines 215-236 leave behind: the entry is skipped by [continue],
    or [(ai_title, ai_summary)] is bound, or nothing was processed. *)
Inductive processed :=
| Irrelevant
| Content (ai_title ai_summary : optstr)
| Untouched.

(** Lines 215-236. *)
Definition summarize (W : World) (model_name : str) (ai_filter_prompt : optstr)
    (st : RunState) (should_process : bool) (original_title clean_text : str)
    : processed * RunState :=
  if should_process then
    if negb (truthy clean_text) || (len clean_text <? 20) then
      (Content (Some original_title) (Some too_short), st)
    else
      let text := slice_to 4000 clean_text in
      let '(r, n') :=
        process_article_content W (api_calls st) original_title text
          model_name ai_filter_prompt in
      let st' :=
        {| existing_items_map := existing_items_map st;
           new_items_count := new_items_count st;
           updated_count := updated_count st;
           api_calls := n';
           oracle_calls := (original_title, text) :: oracle_calls st;
           ids_drawn := ids_drawn st |} in
      match r with
      | (None, None) => (Irrelevant, st')
      | (ai_title, ai_summary) => (Content ai_title ai_summary, st')
      end
  else (Untouched, st).

(** Lines 239-246: [(item_date_str, item_timestamp_iso)]. *)
Definition item_times (W : World) (entry : Entry) : str * str :=
  match published_struct entry with
  | Some t =>
      let ts := mktime W t in
      (fromtimestamp_ymd W ts, fromtimestamp_isoformat W ts)
  | None => (today_str W, current_time_iso W)
  end.

Definition item_date_str (W : World) (entry : Entry) : str :=
  fst (item_times W entry).

Definition item_timestamp_iso (W : World) (entry : Entry) : str :=
  snd (item_times W entry).

(** Lines 272-273 *)
Definition set_content (item : Article) (ai_title ai_summary : optstr) : Article :=
  {| a_id := a_id item; a_date := a_date item; a_timestamp := a_timestamp item;
     a_title := ai_title; a_source := a_source item;
     a_summary := ai_summary; a_link := a_link item |}.

(** Lines 277-278 *)
Definition set_times (item : Article) (timestamp date : str) : Article :=
  {| a_id := a_id item; a_date := date; a_timestamp := timestamp;
     a_title := a_title item; a_source := a_source item;
     a_summary := a_summary item; a_link := a_link item |}.

(** One iteration of the loop of line 170. *)
Definition process_entry (W : World) (model_name : str)
    (ai_filter_prompt : optstr) (st : RunState) (entry : Entry) : RunState :=
  let link := get_or (e_link entry) [] in
  let original_title := get_or (e_title entry) (py "No Title") in
  let url := e_source_url entry in
  let clean_text := clean_html W (summary_text_of entry) in
  let curr := dict_get link (existing_items_map st) in
  let is_new := match curr with None => true | Some _ => false end in
  let should_process :=
    match curr with
    | None => true
    | Some curr_item => needs_reprocess (a_summary curr_item)
    end in
  match summarize W model_name ai_filter_prompt st should_process
          original_title clean_text with
  | (Irrelevant, st1) => st1
  | (outcome, st1) =>
      let ai_title := match outcome with Content t _ => t | _ => None end in
      let ai_summary := match outcome with Content _ s => s | _ => None end in
      match curr with
      | None =>
          let new_item :=
            {| a_id := uuid4 W (ids_drawn st1);
               a_date := item_date_str W entry;
               a_timestamp := item_timestamp_iso W entry;
               a_title := ai_title;
               a_source := url;
               a_summary := ai_summary;
               a_link := link |} in
          {| existing_items_map := dict_set link new_item (existing_items_map st1);
             new_items_count := new_items_count st1 + 1;
             updated_count := updated_count st1;
             api_calls := api_calls st1;
             oracle_calls := oracle_calls st1;
             ids_drawn := S (ids_drawn st1) |}
      | Some curr_item =>
          let item1 :=
            if should_process then
              match ai_title with
              | None => curr_item
              | Some _ => set_content curr_item ai_title ai_summary
              end
            else curr_item in
          let old_timestamp := a_timestamp item1 in
          let item2 :=
            set_times item1 (item_timestamp_iso W entry) (item_date_str W entry) in
          {| existing_items_map := dict_set link item2 (existing_items_map st1);
             new_items_count := new_items_count st1;
             updated_count :=
               if should_process
                  || negb (eqb old_timestamp (item_timestamp_iso W entry))
               then updated_count st1 + 1 else updated_count st1;
             api_calls := api_calls st1;
             oracle_calls := oracle_calls st1;
             ids_drawn := ids_drawn st1 |}
      end
  end.

Definition initial_state (existing_data : list Article) : RunState :=
  {| existing_items_map := dict_of_items existing_data;
     new_items_count := 0;
     updated_count := 0;
     api_calls := 0;
     oracle_calls := [];
     ids_drawn := 0 |}.

(** The loop of line 170 over a list of entries. *)
Definition merge_loop (W : World) (model_name : str) (ai_filter_prompt : optstr)
    (entries : list Entry) (st : RunState) : RunState :=
  fold_left (process_entry W model_name ai_filter_prompt) entries st.

(** The state when the loop of line 170 ends. *)
Definition run (W : World) (rss_urls : list str) (existing_data : list Article)
    (model_name : str) (days_limit : Z) (ai_filter_prompt : optstr) : RunState :=
  merge_loop W model_name ai_filter_prompt
    (all_valid_entries W rss_urls days_limit) (initial_state existing_data).

(** [process_news_data]: [(updated_data, total_changes)]. *)
Definition process_news_data (W : World) (rss_urls : list str)
    (existing_data : list Article) (model_name : str) (days_limit : Z)
    (ai_filter_prompt : optstr) : list Article * Z :=
  let st := run W rss_urls existing_data model_name days_limit ai_filter_prompt in
  let updated_data := sort_by_timestamp_desc (dict_values (existing_items_map st)) in
  let total_changes := new_items_count st + updated_count st in
  (updated_data, total_changes).

(* ================================================================= *)
(** ** app.py: run_scheduler, one iteration of the loop *)

Module Scheduler.

(** A naive [datetime]: microseconds since 1970-01-01T00:00:00.  The
    ISO text under ["last_auto_scrape"] is read back by
    [fromisoformat] into the instant [isoformat] wrote. *)
Definition Time := Z.

(** [config.json], by the keys the scheduler reads; [None] is an absent
    key. *)
Record Config := {
  c_rss_urls : option (list str);
  c_update_interval_minutes : option Z;
  c_enable_auto_scrape : option bool;
  c_days_to_scrape : option Z;
  c_openai_model : optstr;
  c_ai_filter_prompt : optstr
}.

(** [stats.json] *)
Record Stats := {
  s_last_auto_scrape : option Time;
  s_daily_visits : option (list (str * Z));
  s_scraped_count : option (list (str * list (str * Z)))
}.

(** [logs.json]; a log line is [(timestamp, message)]. *)
Record Logs := {
  l_last_updated : str;
  l_status : str;
  l_logs : list (str * str)
}.

(** The files of the repository on GitHub; [None] is a missing file. *)
Record Repo := {
  news_data_json : option (list Article);
  config_json : option Config;
  stats_json : option Stats;
  logs_json : option Logs
}.

(** How a call of [process_news_data] ends: it raises (with the text of
    the exception) or returns [(updated_news, changes)]. *)
Inductive outcome :=
| Raised (e : str)
| Returned (updated_news : list Article) (changes : Z).

(** The surroundings of one iteration. *)
Record Env := {
  (** the k-th read of the wall clock by the scheduler *)
  now : nat -> Time;
  (** [strftime("%Y-%m-%d %H:%M:%S")] *)
  strftime_log : Time -> str;
  (** [datetime.date.today().isoformat()] at an instant *)
  date_isoformat : Time -> str;
  (** whether the k-th GitHub operation goes through *)
  github_ok : nat -> bool;
  (** the pipeline: the status messages it sends to [status_callback],
      in order, and how it ends *)
  pipeline : list str -> list Article -> str -> Z -> optstr
             -> list str * outcome
}.

Definition DEFAULT_CONFIG : Config :=
  {| c_rss_urls := Some [py "https://feeds.feedburner.com/TechCrunch/startups";
                         py "https://www.theverge.com/rss/index.xml"];
     c_update_interval_minutes := Some 180;
     c_enable_auto_scrape := None;
     c_days_to_scrape := Some 3;
     c_openai_model := None;
     c_ai_filter_prompt := Some default_filter_prompt |}.

Definition scheduler_default_stats : Stats :=
  {| s_last_auto_scrape := None;
     s_daily_visits := Some [];
     s_scraped_count := Some [] |}.

(** [fromisoformat("2000-01-01T00:00:00")] *)
Definition epoch_2000 : Time := 946684800 * 1000000.

(** The state threaded through an iteration. *)
Record Sched := {
  repo : Repo;
  clock_reads : nat;
  github_ops : nat;
  log_buffer : list (str * str)
}.

Definition M (A : Type) : Type := Sched -> A * Sched.

Definition ret {A} (a : A) : M A := fun s => (a, s).

Definition bind {A B} (m : M A) (f : A -> M B) : M B :=
  fun s => let '(a, s') := m s in f a s'.

Declare Scope sched_scope.
Delimit Scope sched_scope with sched.
Notation "x <- m ;; k" := (bind m (fun x => k))
  (at level 100, m at next level, right associativity) : sched_scope.
Notation "m ;;; k" := (bind m (fun _ => k))
  (at level 100, right associativity) : sched_scope.

Local Open Scope sched_scope.

(** [s[-n:]] *)
Definition last_n {A} (n : nat) (l : list A) : list A :=
  skipn (List.length l - n) l.

(** [str(n)] for an integer. *)
Fixpoint digits (fuel : nat) (n : N) (acc : str) : str :=
  let acc' := (48 + n mod 10)%N :: acc in
  match fuel with
  | O => acc'
  | S fuel' => if (n <? 10)%N then acc' else digits fuel' (n / 10)%N acc'
  end.

Definition str_of_Z (z : Z) : str :=
  let n := Z.abs_N z in
  (if z <? 0 then py "-" else []) ++ digits (N.to_nat (N.size n)) n [].

Section Iteration.

Variable E : Env.

(** [datetime.datetime.now()] *)
Definition read_clock : M Time :=
  fun s =>
    (now E (clock_reads s),
     {| repo := repo s; clock_reads := S (clock_reads s);
        github_ops := github_ops s; log_buffer := log_buffer s |}).

(** One GitHub operation: whether it goes through. *)
Definition github_op : M bool :=
  fun s =>
    (github_ok E (github_ops s),
     {| repo := repo s; clock_reads := clock_reads s;
        github_ops := S (github_ops s); log_buffer := log_buffer s |}).

Definition get_repo : M Repo := fun s => (repo s, s).

Definition put_repo (r : Repo) : M unit :=
  fun s =>
    (tt, {| repo := r; clock_reads := clock_reads s;
            github_ops := github_ops s; log_buffer := log_buffer s |}).

Definition get_log_buffer : M (list (str * str)) :=
  fun s => (log_buffer s, s).

Definition put_log_buffer (b : list (str * str)) : M unit :=
  fun s =>
    (tt, {| repo := repo s; clock_reads := clock_reads s;
            github_ops := github_ops s; log_buffer := b |}).

(** utils_github.py, [load_data_from_github(filename, default_value)]:
    the file's content, or the default when the file is missing or
    the operation fails. *)
Definition load_data_from_github {A} (file : Repo -> option A)
    (default_value : A) : M A :=
  ok <- github_op ;;
  r <- get_repo ;;
  ret (if ok then match file r with
                  | Some data => data
                  | None => default_value
                  end
       else default_value).

(** utils_github.py, [save_data_to_github(filename, data, message)]:
    the file is created or replaced and [True] returned, or nothing is
    written and [False] returned. *)
Definition save_data_to_github (write : Repo -> Repo) : M bool :=
  ok <- github_op ;;
  r <- get_repo ;;
  (if ok then put_repo (write r) else ret tt) ;;;
  ret ok.

Definition write_news (data : list Article) (r : Repo) : Repo :=
  {| news_data_json := Some data; config_json := config_json r;
     stats_json := stats_json r; logs_json := logs_json r |}.

Definition write_stats (data : Stats) (r : Repo) : Repo :=
  {| news_data_json := news_data_json r; config_json := config_json r;
     stats_json := Some data; logs_json := logs_json r |}.

Definition write_logs (data : Logs) (r : Repo) : Repo :=
  {| news_data_json := news_data_json r; config_json := config_json r;
     stats_json := stats_json r; logs_json := Some data |}.

Definition save_logs_to_github (logs_data : Logs) : M bool :=
  save_data_to_github (write_logs logs_data).

(** [remote_logger(msg)], lines 97-109. *)
Definition remote_logger (msg : str) : M unit :=
  t <- read_clock ;;
  let timestamp := strftime_log E t in
  b <- get_log_buffer ;;
  let b' := b ++ [(timestamp, msg)] in
  put_log_buffer b' ;;;
  if (5 <=? List.length b')%nat
     || contains (py "Completed") msg || contains (py "Error") msg
  then
    save_logs_to_github
      {| l_last_updated := timestamp; l_status := py "running";
         l_logs := last_n 20 b' |} ;;;
    ret tt
  else ret tt.

Fixpoint log_all (msgs : list str) : M unit :=
  match msgs with
  | [] => ret tt
  | msg :: msgs' => remote_logger msg ;;; log_all msgs'
  end.

Definition set_last_auto_scrape (stats : Stats) (t : Time) : Stats :=
  {| s_last_auto_scrape := Some t;
     s_daily_visits := s_daily_visits stats;
     s_scraped_count := s_scraped_count stats |}.

Fixpoint has_key {A} (k : str) (d : list (str * A)) : bool :=
  match d with
  | [] => false
  | (k', _) :: d' => eqb k k' || has_key k d'
  end.

(** Lines 143-144: the day's counter is created when missing. *)
Definition touch_scraped_count (stats : Stats) (today_str : str) : Stats :=
  let sc := match s_scraped_count stats with Some d => d | None => [] end in
  {| s_last_auto_scrape := s_last_auto_scrape stats;
     s_daily_visits := s_daily_visits stats;
     s_scraped_count :=
       Some (if has_key today_str sc then sc
             else sc ++ [(today_str, [(py "Total", 0)])]) |}.

(** [(datetime.datetime.now() - last_run).total_seconds()] *)
Definition total_seconds (t last_run : Time) : Q :=
  (inject_Z (t - last_run) / inject_Z 1000000)%Q.

(** Lines 133-138: the data is saved when something changed. *)
Definition report_changes (updated_news : list Article) (changes : Z) : M unit :=
  if 0 <? changes then
    save_data_to_github (write_news updated_news) ;;;
    remote_logger (py "Saved " ++ str_of_Z changes
                   ++ py " changes to news_data.json")
  else remote_logger (py "No changes found.").

(** Lines 140-147: the time of the run goes into the statistics, which
    are saved. *)
Definition update_stats (stats : Stats) : M bool :=
  t <- read_clock ;;
  let stats1 := set_last_auto_scrape stats t in
  d <- read_clock ;;
  let stats2 := touch_scraped_count stats1 (date_isoformat E d) in
  save_data_to_github (write_stats stats2).

(** Lines 149-156: the last log line and the final flush. *)
Definition finish_run : M unit :=
  remote_logger (py "Auto-Scrape Finished Successfully.") ;;;
  t <- read_clock ;;
  b <- get_log_buffer ;;
  save_logs_to_github
    {| l_last_updated := strftime_log E t; l_status := py "idle";
       l_logs := last_n 50 b |} ;;;
  ret tt.

(** The body of the inner [try], lines 133-156, after the pipeline
    returned. *)
Definition after_run (stats : Stats) (updated_news : list Article)
    (changes : Z) : M unit :=
  report_changes updated_news changes ;;;
  update_stats stats ;;;
  finish_run.

(** The handler of the inner [try], lines 158-165. *)
Definition on_error (e : str) : M unit :=
  remote_logger (py "Error during auto-scrape: " ++ e) ;;;
  t <- read_clock ;;
  b <- get_log_buffer ;;
  save_logs_to_github
    {| l_last_updated := strftime_log E t; l_status := py "error";
       l_logs := last_n 20 b |} ;;;
  ret tt.

(** Lines 111-165: the automatic run.  The value is what the pipeline
    did: the messages it sent and how it ended. *)
Definition auto_scrape (config : Config) (stats : Stats)
    : M (list str * outcome) :=
  put_log_buffer [] ;;;
  remote_logger (py "Starting automatic background collection...") ;;;
  news_data <- load_data_from_github news_data_json [] ;;
  let rss_urls :=
    match c_rss_urls config with
    | Some l => l
    | None => match c_rss_urls DEFAULT_CONFIG with Some l => l | None => [] end
    end in
  let days_limit :=
    match c_days_to_scrape config with Some d => d | None => 3 end in
  let model_name := get_or (c_openai_model config) gpt_4o_mini in
  let filter_prompt := c_ai_filter_prompt config in
  let '(msgs, result) :=
    pipeline E rss_urls news_data model_name days_limit filter_prompt in
  log_all msgs ;;;
  match result with
  | Returned updated_news changes => after_run stats updated_news changes
  | Raised e => on_error e
  end ;;;
  ret (msgs, result).

(** Lines 81-91: whether a run is due. *)
Definition is_due (config : Config) (stats : Stats) (t : Time) : bool :=
  let enable_auto :=
    match c_enable_auto_scrape config with Some b => b | None => false end in
  let interval_sec :=
    match c_update_interval_minutes config with Some m => m | None => 180 end
    * 60 in
  let last_run :=
    match s_last_auto_scrape stats with Some l => l | None => epoch_2000 end in
  let time_since_run := total_seconds t last_run in
  enable_auto && Qgtb time_since_run (inject_Z interval_sec).

(** One pass through the body of [while True], lines 76-167.  The value
    is [None] when no run was due, and what the pipeline did when a run
    was started. *)
Definition scheduler_iteration : M (option (list str * outcome)) :=
  config <- load_data_from_github config_json DEFAULT_CONFIG ;;
  stats <- load_data_from_github stats_json scheduler_default_stats ;;
  t <- read_clock ;;
  if is_due config stats t then
    done <- auto_scrape config stats ;;
    ret (Some done)
  else ret None.

End Iteration.

Definition start (r : Repo) : Sched :=
  {| repo := r; clock_reads := 0; github_ops := 0; log_buffer := [] |}.

(** The persisted [last_auto_scrape], as the next iteration reads it. *)
Definition persisted_last_auto_scrape (r : Repo) : option Time :=
  match stats_json r with
  | Some stats => s_last_auto_scrape stats
  | None => None
  end.

(** A due iteration up to line 138, for a pipeline that returns: all
    that precedes the update of the statistics at lines 140-147. *)
Definition until_update_stats (E : Env) : M unit :=
  config <- load_data_from_github E config_json DEFAULT_CONFIG ;;
  stats <- load_data_from_github E stats_json scheduler_default_stats ;;
  t <- read_clock E ;;
  put_log_buffer [] ;;;
  remote_logger E (py "Starting automatic background collection...") ;;;
  news_data <- load_data_from_github E news_data_json [] ;;
  let rss_urls :=
    match c_rss_urls config with
    | Some l => l
    | None => match c_rss_urls DEFAULT_CONFIG with Some l => l | None => [] end
    end in
  let days_limit :=
    match c_days_to_scrape config with Some d => d | None => 3 end in
  let model_name := get_or (c_openai_model config) gpt_4o_mini in
  let filter_prompt := c_ai_filter_prompt config in
  let '(msgs, result) :=
    pipeline E rss_urls news_data model_name days_limit filter_prompt in
  log_all E msgs ;;;
  match result with
  | Returned updated_news changes => report_changes E updated_news changes
  | Raised _ => ret tt
  end.

(** The number, among the GitHub operations of the iteration that starts
    from [r], of the write of [stats.json] at line 147: as many
    operations precede it as lines 76-138 make. *)
Definition stats_write_op (E : Env) (r : Repo) : nat :=
  github_ops (snd (until_update_stats E (start r))).

(** A step from [s] to [s'] that leaves [stats.json] alone and reads the
    clock [k] times. *)
Definition keeps_stats (k : nat) (s s' : Sched) : Prop :=
  stats_json (repo s') = stats_json (repo s)
  /\ clock_reads s' = (k + clock_reads s)%nat.

(** A computation all of whose steps are such. *)
Definition preserves {A} (k : nat) (m : M A) : Prop :=
  forall s, keeps_stats k s (snd (m s)).

End Scheduler.


(* ================================================================= *)
(** ** A concrete world: a host whose local time is UTC *)

Module Example.

(** Days since 1970-01-01 of a civil date. *)
Definition days_from_civil (y m d : Z) : Z :=
  let y' := if m <=? 2 then y - 1 else y in
  let era := y' / 400 in
  let yoe := y' - era * 400 in
  let doy := (153 * (if 2 <? m then m - 3 else m + 9) + 2) / 5 + d - 1 in
  let doe := yoe * 365 + yoe / 4 - yoe / 100 + doy in
  era * 146097 + doe - 719468.

(** [time.mktime] when the local time zone is UTC. *)
Definition mktime_utc (t : struct_time) : Z :=
  days_from_civil (tm_year t) (tm_mon t) (tm_mday t) * 86400
  + tm_hour t * 3600 + tm_min t * 60 + tm_sec t.

Definition civil_from_days (z : Z) : Z * Z * Z :=
  let z := z + 719468 in
  let era := z / 146097 in
  let doe := z - era * 146097 in
  let yoe := (doe - doe / 1460 + doe / 36524 - doe / 146096) / 365 in
  let doy := doe - (365 * yoe + yoe / 4 - yoe / 100) in
  let mp := (5 * doy + 2) / 153 in
  let d := doy - (153 * mp + 2) / 5 + 1 in
  let m := if mp <? 10 then mp + 3 else mp - 9 in
  (if m <=? 2 then yoe + era * 400 + 1 else yoe + era * 400, m, d).

(** A number in decimal, padded with zeros to a width. *)
Definition pad (width : nat) (z : Z) : str :=
  let s := Scheduler.str_of_Z z in
  repeat 48%N (width - List.length s) ++ s.

Definition ymd_utc (ts : Z) : str :=
  let '(y, m, d) := civil_from_days (ts / 86400) in
  pad 4 y ++ py "-" ++ pad 2 m ++ py "-" ++ pad 2 d.

Definition isoformat_utc (ts : Z) : str :=
  let secs := ts mod 86400 in
  ymd_utc ts ++ py "T" ++ pad 2 (secs / 3600) ++ py ":"
  ++ pad 2 (secs mod 3600 / 60) ++ py ":" ++ pad 2 (secs mod 60).

Definition st (y m d hh mm ss : Z) : struct_time :=
  {| tm_year := y; tm_mon := m; tm_mday := d;
     tm_hour := hh; tm_min := mm; tm_sec := ss;
     tm_wday := 0; tm_yday := 1; tm_isdst := 0 |}.

(** The two answers of the model, as the JSON texts the prompt asks for. *)
Definition json_irrelevant : str :=
  py "{" ++ quote ++ py "is_relevant" ++ quote ++ py ": false}".

(** U+C694 U+C57D: a summary in Korean script. *)
Definition korean_summary : str := [50836; 50557]%N.

(** U+C81C U+BAA9: a title in Korean script. *)
Definition korean_title : str := [51228; 47785]%N.

Definition json_relevant : str :=
  py "{" ++ quote ++ py "is_relevant" ++ quote ++ py ": true, "
  ++ quote ++ py "title" ++ quote ++ py ": " ++ quote ++ korean_title ++ quote
  ++ py ", " ++ quote ++ py "summary" ++ quote ++ py ": " ++ quote
  ++ korean_summary ++ quote ++ py "}".

(** [json.loads] on the texts of the examples; any other text is not
    JSON. *)
Definition loads (content : str) : json_loads_result :=
  if eqb content json_irrelevant then
    JDict {| j_is_relevant := Some false; j_title := None; j_summary := None |}
  else if eqb content json_relevant then
    JDict {| j_is_relevant := Some true;
             j_title := Some (Some korean_title);
             j_summary := Some (Some korean_summary) |}
  else JSONDecodeError.

(** A world at the instant [now] (seconds since the epoch), with the given
    feeds and the given model: the model answers from the user prompt
    alone. *)
Definition world (feeds : str -> option (list Entry)) (model : str -> optstr)
    (now : Z) : World :=
  {| feedparser_parse := feeds;
     get_text := fun html => html;
     mktime := mktime_utc;
     fromtimestamp_isoformat := isoformat_utc;
     fromtimestamp_ymd := ymd_utc;
     current_time_iso := isoformat_utc now ++ py ".250000";
     today_str := ymd_utc now;
     now_ts := now;
     uuid4 := fun k => py "00000000-0000-4000-8000-" ++ pad 12 (Z.of_nat k);
     secrets_api_key := Some (py "sk-example");
     chat_completions_create := fun _ _ _ up => Completion (model up);
     json_loads := loads |}.

End Example.

(* ================================================================= *)
(** ** app.py: what the page script writes *)

Module App.
Import Scheduler.
Local Open Scope sched_scope.

(** A dict from [str], in insertion order. *)
Fixpoint assoc_get {A} (k : str) (d : list (str * A)) : option A :=
  match d with
  | [] => None
  | (k', v) :: d' => if eqb k k' then Some v else assoc_get k d'
  end.

Fixpoint assoc_set {A} (k : str) (v : A) (d : list (str * A))
    : list (str * A) :=
  match d with
  | [] => [(k, v)]
  | (k', v') :: d' =>
      if eqb k k' then (k', v) :: d' else (k', v') :: assoc_set k v d'
  end.

(** Lines 229-238, the "Add URL" button: the list after the click, or
    [None] when the click changes nothing. *)
Definition add_url (current_urls : list str) (new_url : str)
    : option (list str) :=
  if truthy new_url && negb (existsb (eqb new_url) current_urls)
  then Some (current_urls ++ [new_url])
  else None.

(** Line 509: the articles that stay when the selected ones are
    deleted. *)
Definition new_news_list (news_data : list Article) (selected_ids : list str)
    : list Article :=
  filter (fun item => negb (existsb (eqb (a_id item)) selected_ids)) news_data.

Section Page.

Variable E : Env.

(** [update_stats_visit(stats)], lines 57-64.  The day is
    [now().strftime("%Y-%m-%d")], the text [date_isoformat] gives.  The
    value is [None] when
    [stats["daily_visits"]] raises [KeyError], and the updated statistics
    otherwise; the result of the save is not looked at. *)
Definition update_stats_visit (stats : Stats) : M (option Stats) :=
  t <- read_clock E ;;
  let today := date_isoformat E t in
  match s_daily_visits stats with
  | None => ret None
  | Some visits =>
      let visits1 :=
        if has_key today visits then visits else assoc_set today 0 visits in
      let count :=
        match assoc_get today visits1 with Some c => c | None => 0 end in
      let stats' :=
        {| s_last_auto_scrape := s_last_auto_scrape stats;
           s_daily_visits := Some (assoc_set today (count + 1) visits1);
           s_scraped_count := s_scraped_count stats |} in
      save_data_to_github E (write_stats stats') ;;;
      ret (Some stats')
  end.

(** Lines 342-362, the "Refresh News Now" button, on the configuration
    and the collection the page loaded: the pipeline runs, and the result
    is saved when something changed.  The messages go to the session, not
    to the repository. *)
Definition refresh_news_now (config : Config) (news_data : list Article)
    : M (list str * outcome) :=
  let rss_urls :=
    match c_rss_urls config with
    | Some l => l
    | None => match c_rss_urls DEFAULT_CONFIG with Some l => l | None => [] end
    end in
  let model_name := get_or (c_openai_model config) gpt_4o_mini in
  let days_limit :=
    match c_days_to_scrape config with Some d => d | None => 3 end in
  let '(msgs, result) :=
    pipeline E rss_urls news_data model_name days_limit
      (c_ai_filter_prompt config) in
  match result with
  | Returned updated_news changes =>
      if 0 <? changes then
        save_data_to_github E (write_news updated_news) ;;; ret tt
      else ret tt
  | Raised _ => ret tt
  end ;;;
  ret (msgs, result).

(** Lines 505-517, "Yes, Delete Completely": the remaining articles are
    saved. *)
Definition delete_selected (news_data : list Article) (selected_ids : list str)
    : M bool :=
  save_data_to_github E (write_news (new_news_list news_data selected_ids)).

End Page.

End App.

(* ================================================================= *)
(** ** The vocabulary of the properties *)

(** "Empty or whitespace-only": no summary, or one of whitespace alone. *)
Definition whitespace_only (curr_summary : optstr) : bool :=
  match curr_summary with
  | None => true
  | Some s => forallb isspace s
  end.

(** "Begins with an ASCII letter". *)
Definition begins_with_ascii_letter (curr_summary : optstr) : bool :=
  match curr_summary with
  | Some (c :: _) => is_ascii_letter c
  | _ => false
  end.

(** "Begins with a non-ASCII character". *)
Definition begins_with_non_ascii (curr_summary : optstr) : bool :=
  match curr_summary with
  | Some (c :: _) => negb (isascii c)
  | _ => false
  end.

(** [marker in summary], false when there is no summary. *)
Definition mentions (marker : str) (curr_summary : optstr) : bool :=
  match curr_summary with
  | Some s => contains marker s
  | None => false
  end.

(** The reprocess rule as the specification words it: the summary is
    empty or whitespace-only, or begins with an ASCII letter, or contains
    the marker "Error" anywhere. *)
Definition spec_reprocess (curr_summary : optstr) : bool :=
  whitespace_only curr_summary
  || begins_with_ascii_letter curr_summary
  || mentions (py "Error") curr_summary.

(** The invariant of the working collection: every key is the link of
    its article, and no key occurs twice. *)
Definition dict_wf (d : dict) : Prop :=
  NoDup (dict_keys d) /\ Forall (fun kv => a_link (snd kv) = fst kv) d.

(** [a] may stand before [b] in a collection sorted by timestamp, most
    recent first: the timestamp of [b] is not above that of [a]. *)
Definition timestamp_desc (a b : Article) : Prop :=
  leb (a_timestamp b) (a_timestamp a) = true.

(** Lines 195-210: whether the iteration on [entry] sets
    [should_process]: its link is new, or the article under its link
    needs reprocessing. *)
Definition selected_for_processing (st : RunState) (entry : Entry) : bool :=
  match dict_get (get_or (e_link entry) []) (existing_items_map st) with
  | None => true
  | Some curr_item => needs_reprocess (a_summary curr_item)
  end.

(** The Oracle is asked about [entry] (its body is not too short) and,
    called as the [n]-th use of the client, reports it irrelevant. *)
Definition oracle_irrelevant (W : World) (model_name : str)
    (ai_filter_prompt : optstr) (n : nat) (entry : Entry) : Prop :=
  let clean_text := clean_html W (summary_text_of entry) in
  20 <= len clean_text
  /\ fst (process_article_content W n (get_or (e_title entry) (py "No Title"))
            (slice_to 4000 clean_text) model_name ai_filter_prompt)
     = (None, None).

(** [news_data.json] holds [v]. *)
Definition news_is (v : option (list Article)) (r : Scheduler.Repo) : Prop :=
  Scheduler.news_data_json r = v.

(** A computation that keeps a property of the repository. *)
Definition keeps_repo {A} (J : Scheduler.Repo -> Prop) (m : Scheduler.M A)
    : Prop :=
  forall s, J (Scheduler.repo s) -> J (Scheduler.repo (snd (m s))).

(** The log file is the one of [r0], or one of at most 50 lines. *)
Definition logs_bounded (r0 r : Scheduler.Repo) : Prop :=
  Scheduler.logs_json r = Scheduler.logs_json r0
  \/ exists l, Scheduler.logs_json r = Some l
               /\ (List.length (Scheduler.l_logs l) <= 50)%nat.

(* ================================================================= *)
(** ** Scenarios *)

(** A summary in Korean script that quotes the word "Error". *)
Definition summary_quoting_error : optstr :=
  Some (Example.korean_summary ++ py " Error 404").

(** A world whose model answers in plain prose instead of JSON. *)
Definition prose_reply : str := py "Sorry, I cannot summarize this article.".

Definition world_prose : World :=
  Example.world (fun _ => None) (fun _ => Some prose_reply) 1709632800.

(** A feed with an entry published exactly three days before the run,
    one published a second earlier, and one without any date.  The run is
    at 2024-03-05T10:00:00. *)
Definition feed_url : str := py "https://example.com/feed.xml".

Definition entry_at (link : string) (published : option struct_time)
    (body : str) : Entry :=
  {| e_link := Some (py link);
     e_title := Some (py "A headline");
     e_published_parsed := published;
     e_updated_parsed := None;
     e_summary := Some body;
     e_description := None;
     e_content := None;
     e_source_url := None |}.

Definition long_body : str :=
  py "A body that is long enough to be sent to the model for a summary.".

Definition entry_on_boundary : Entry :=
  entry_at "https://example.com/a" (Some (Example.st 2024 3 2 10 0 0)) long_body.

Definition entry_past_boundary : Entry :=
  entry_at "https://example.com/b" (Some (Example.st 2024 3 2 9 59 59)) long_body.

Definition entry_undated : Entry :=
  entry_at "https://example.com/c" None long_body.

Definition one_feed (entries : list Entry) (url : str) : option (list Entry) :=
  if eqb url feed_url then Some entries else None.

Definition world_boundary : World :=
  Example.world
    (one_feed [entry_on_boundary; entry_past_boundary; entry_undated])
    (fun _ => Some Example.json_relevant) 1709632800.

(** An entry whose body is too short to summarize. *)
Definition entry_short : Entry :=
  entry_at "https://example.com/s" (Some (Example.st 2024 3 2 10 0 0))
    (py "Too short.").

Definition world_short : World :=
  Example.world (one_feed [entry_short]) (fun _ => Some Example.json_relevant)
    1709632800.

(** A model that finds every article irrelevant, and a collection that
    already holds the article of [entry_on_boundary], with an empty
    summary and the time of its first sighting. *)
Definition world_irrelevant : World :=
  Example.world (one_feed [entry_on_boundary])
    (fun _ => Some Example.json_irrelevant) 1709632800.

Definition article_first_seen : Article :=
  {| a_id := py "00000000-0000-4000-8000-0000000000aa";
     a_date := py "2024-01-01";
     a_timestamp := py "2024-01-01T00:00:00";
     a_title := Some (py "A headline");
     a_source := Some feed_url;
     a_summary := Some [];
     a_link := py "https://example.com/a" |}.

(** Two entries under one link: a sports item the model rejects and a
    later item the model accepts. *)
Definition entry_sports : Entry :=
  {| e_link := Some (py "https://example.com/x");
     e_title := Some (py "Sports roundup");
     e_published_parsed := Some (Example.st 2024 3 4 8 0 0);
     e_updated_parsed := None;
     e_summary := Some long_body;
     e_description := None;
     e_content := None;
     e_source_url := None |}.

Definition entry_same_link : Entry :=
  entry_at "https://example.com/x" (Some (Example.st 2024 3 4 9 0 0)) long_body.

Definition picky_model (up : str) : optstr :=
  if contains (py "Sports") up then Some Example.json_irrelevant
  else Some Example.json_relevant.

Definition world_same_link : World :=
  Example.world (one_feed [entry_sports; entry_same_link]) picky_model
    1709632800.

(** A scheduler whose clock advances by a second at every read, from
    2024-03-05T10:00:00, over a repository whose last automatic run was
    a day before and whose configuration enables the automatic run. *)
Definition clock_from_run_time (k : nat) : Scheduler.Time :=
  (1709632800 + Z.of_nat k) * 1000000.

Definition strftime_log_utc (t : Scheduler.Time) : str :=
  let ts := t / 1000000 in
  let secs := ts mod 86400 in
  Example.ymd_utc ts ++ py " " ++ Example.pad 2 (secs / 3600) ++ py ":"
  ++ Example.pad 2 (secs mod 3600 / 60) ++ py ":" ++ Example.pad 2 (secs mod 60).

Definition env_with (ok : nat -> bool)
    (pipeline : list str -> list Article -> str -> Z -> optstr
                -> list str * Scheduler.outcome) : Scheduler.Env :=
  {| Scheduler.now := clock_from_run_time;
     Scheduler.strftime_log := strftime_log_utc;
     Scheduler.date_isoformat := fun t => Example.ymd_utc (t / 1000000);
     Scheduler.github_ok := ok;
     Scheduler.pipeline := pipeline |}.

(** The pipeline over a world: [process_news_data], and the two messages
    it sends before anything else. *)
Definition pipeline_of (W : World) (rss_urls : list str)
    (news_data : list Article) (model_name : str) (days_limit : Z)
    (filter_prompt : optstr) : list str * Scheduler.outcome :=
  let '(updated_news, changes) :=
    process_news_data W rss_urls news_data model_name days_limit filter_prompt in
  ([py "Initializing..."; py "Fetching RSS feeds..."],
   Scheduler.Returned updated_news changes).

(** A pipeline that raises after its first message. *)
Definition pipeline_raising (rss_urls : list str) (news_data : list Article)
    (model_name : str) (days_limit : Z) (filter_prompt : optstr)
    : list str * Scheduler.outcome :=
  ([py "Initializing..."], Scheduler.Raised (py "'link'")).

Definition env_ok : Scheduler.Env :=
  env_with (fun _ => true) (pipeline_of world_boundary).

Definition env_raising : Scheduler.Env :=
  env_with (fun _ => true) pipeline_raising.

Definition a_day_before : Scheduler.Time := (1709632800 - 86400) * 1000000.

Definition repo_due : Scheduler.Repo :=
  {| Scheduler.news_data_json := Some [];
     Scheduler.config_json :=
       Some {| Scheduler.c_rss_urls := Some [feed_url];
               Scheduler.c_update_interval_minutes := Some 180;
               Scheduler.c_enable_auto_scrape := Some true;
               Scheduler.c_days_to_scrape := Some 3;
               Scheduler.c_openai_model := Some (py "gpt-4o-mini");
               Scheduler.c_ai_filter_prompt := None |};
     Scheduler.stats_json :=
       Some {| Scheduler.s_last_auto_scrape := Some a_day_before;
               Scheduler.s_daily_visits := Some [];
               Scheduler.s_scraped_count := Some [] |};
     Scheduler.logs_json := None |}.

(** [world_prose] without an API key in the secrets. *)
Definition world_no_key : World :=
  {| feedparser_parse := feedparser_parse world_prose;
     get_text := get_text world_prose;
     mktime := mktime world_prose;
     fromtimestamp_isoformat := fromtimestamp_isoformat world_prose;
     fromtimestamp_ymd := fromtimestamp_ymd world_prose;
     current_time_iso := current_time_iso world_prose;
     today_str := today_str world_prose;
     now_ts := now_ts world_prose;
     uuid4 := uuid4 world_prose;
     secrets_api_key := None;
     chat_completions_create := chat_completions_create world_prose;
     json_loads := json_loads world_prose |}.

(** A collection of two articles, most recent first. *)
Definition article_second : Article :=
  {| a_id := py "00000000-0000-4000-8000-0000000000bb";
     a_date := py "2023-12-31";
     a_timestamp := py "2023-12-31T08:00:00";
     a_title := Some Example.korean_title;
     a_source := Some feed_url;
     a_summary := Some Example.korean_summary;
     a_link := py "https://example.com/old" |}.

Definition two_articles : list Article := [article_first_seen; article_second].

(** A scheduler that cannot reach GitHub. *)
Definition env_offline : Scheduler.Env :=
  env_with (fun _ => false) (pipeline_of world_boundary).

(** The configuration and the statistics a page loaded, and the state of
    a page script that has read the clock and GitHub a few times. *)
Definition config_loaded : Scheduler.Config :=
  {| Scheduler.c_rss_urls := Some [feed_url];
     Scheduler.c_update_interval_minutes := Some 180;
     Scheduler.c_enable_auto_scrape := Some true;
     Scheduler.c_days_to_scrape := Some 3;
     Scheduler.c_openai_model := Some (py "gpt-4o-mini");
     Scheduler.c_ai_filter_prompt := None |}.

Definition stats_loaded : Scheduler.Stats :=
  {| Scheduler.s_last_auto_scrape := Some a_day_before;
     Scheduler.s_daily_visits := Some [(py "2024-03-04", 12)];
     Scheduler.s_scraped_count := Some [] |}.

(** The repository after an automatic run wrote its time, which the page
    above has not seen. *)
Definition repo_after_run : Scheduler.Repo :=
  {| Scheduler.news_data_json := Some two_articles;
     Scheduler.config_json := Some config_loaded;
     Scheduler.stats_json :=
       Some {| Scheduler.s_last_auto_scrape := Some (clock_from_run_time 0);
               Scheduler.s_daily_visits := Some [(py "2024-03-04", 12)];
               Scheduler.s_scraped_count := Some [] |};
     Scheduler.logs_json := None |}.

(** A scheduler for which GitHub refuses one operation only: the write
    of [news_data.json] (the fourth operation of the run), or the write of
    [stats.json]. *)
Definition env_news_write_refused : Scheduler.Env :=
  env_with (fun k => negb (Nat.eqb k 3)) (pipeline_of world_boundary).

Definition env_stats_write_refused : Scheduler.Env :=
  env_with (fun k => negb (Nat.eqb k 4)) (pipeline_of world_boundary).

(* ================================================================= *)
(** * Properties *)

(* ================================================================= *)
(** ** Strings *)

Lemma eqb_eq (a b : str) : eqb a b = true <-> a = b.
Proof.
  revert b; induction a as [|x a IH]; intros [|y b]; simpl;
    try (split; [discriminate | discriminate]); try tauto.
  rewrite andb_true_iff, N.eqb_eq, IH.
  split; [intros [-> ->]; reflexivity | intros H; inversion H; auto].
Qed.

Lemma eqb_refl (a : str) : eqb a a = true.
Proof. apply eqb_eq; reflexivity. Qed.

Lemma eqb_neq (a b : str) : eqb a b = false <-> a <> b.
Proof.
  rewrite <- eqb_eq. destruct (eqb a b); split; congruence.
Qed.

Lemma startswith_app (p q s : str) :
  startswith (p ++ q) s = true -> startswith p s = true.
Proof.
  revert s; induction p as [|x p IH]; intros s; simpl; [reflexivity|].
  destruct s as [|y s]; [discriminate|].
  rewrite !andb_true_iff; intros [H1 H2]; split; auto.
Qed.

Lemma contains_app (p q s : str) :
  contains (p ++ q) s = true -> contains p s = true.
Proof.
  induction s as [|y s IH]; simpl; rewrite !orb_true_iff.
  - intros [H|H]; [left; eapply startswith_app; eassumption | discriminate].
  - intros [H|H]; [left; eapply startswith_app; eassumption | right; auto].
Qed.

Lemma startswith_contains (p s : str) :
  startswith p s = true -> contains p s = true.
Proof. destruct s; simpl; intros ->; reflexivity. Qed.

(** A summary carrying the marker of a failed call carries "Error". *)
Lemma error_using_ai_model_mentions_error (s : str) :
  contains (py "Error using AI model") s = true ->
  contains (py "Error") s = true.
Proof.
  change (py "Error using AI model") with (py "Error" ++ py " using AI model").
  apply contains_app.
Qed.

Lemma lstrip_nil_iff (s : str) : lstrip s = [] <-> forallb isspace s = true.
Proof.
  induction s as [|c s IH]; simpl; [tauto|].
  destruct (isspace c); simpl; [exact IH|].
  split; discriminate.
Qed.

Lemma forallb_rev {A} (f : A -> bool) (l : list A) :
  forallb f (rev l) = forallb f l.
Proof.
  induction l as [|x l IH]; simpl; [reflexivity|].
  rewrite forallb_app, IH; simpl. rewrite andb_true_r, andb_comm; reflexivity.
Qed.

Lemma lstrip_keeps_nonspace (s : str) :
  forallb isspace s = false -> forallb isspace (lstrip s) = false.
Proof.
  induction s as [|c s IH]; simpl; [discriminate|].
  destruct (isspace c) eqn:E; simpl; [exact IH|].
  intros _; rewrite E; reflexivity.
Qed.

(** [s.strip()] is empty exactly when [s] is whitespace alone. *)
Lemma strip_nil_iff (s : str) : strip s = [] <-> forallb isspace s = true.
Proof.
  unfold strip, rstrip. split.
  - intros H.
    destruct (forallb isspace s) eqn:E; [reflexivity|exfalso].
    apply lstrip_keeps_nonspace in E.
    rewrite <- forallb_rev in E. apply lstrip_keeps_nonspace in E.
    rewrite <- forallb_rev, H in E. discriminate.
  - intros H. apply lstrip_nil_iff in H. rewrite H; reflexivity.
Qed.

Lemma truthy_strip (s : str) : truthy (strip s) = negb (forallb isspace s).
Proof.
  destruct (forallb isspace s) eqn:E.
  - apply strip_nil_iff in E. rewrite E; reflexivity.
  - destruct (strip s) eqn:S; [|reflexivity].
    apply strip_nil_iff in S. congruence.
Qed.

(* ================================================================= *)
(** ** The reprocess heuristic *)

(** What line 209 computes, test by test. *)
Lemma needs_reprocess_spec (s : str) :
  needs_reprocess (Some s) =
    forallb isspace s
    || startswith (py "Error") s
    || contains (py "Error using AI model") s
    || match s with
       | c :: _ => isascii c && negb (contains (py "Error") s)
       | [] => false
       end.
Proof.
  unfold needs_reprocess, is_english_summary.
  rewrite truthy_strip, negb_involutive.
  destruct s as [|c s]; [reflexivity|].
  cbn [truthy negb orb andb].
  replace (0 <? len (c :: s)) with true
    by (symmetry; apply Z.ltb_lt; unfold len; simpl List.length; lia).
  reflexivity.
Qed.

Lemma is_ascii_letter_isascii (c : char) :
  is_ascii_letter c = true -> isascii c = true.
Proof.
  unfold is_ascii_letter, isascii.
  rewrite orb_true_iff, !andb_true_iff, !N.leb_le. lia.
Qed.

Lemma startswith_error_first (c : char) (s : str) :
  startswith (py "Error") (c :: s) = true -> isascii c = true.
Proof.
  change (py "Error") with (69%N :: py "rror"). cbn [startswith].
  rewrite andb_true_iff, N.eqb_eq. intros [<- _]. reflexivity.
Qed.

(** C3, as stated, fails: a summary in Korean script that quotes the word
    "Error" contains the marker, yet line 209 does not select it. *)
Lemma C3_counterexample :
  ~ (needs_reprocess summary_quoting_error = true
     <-> spec_reprocess summary_quoting_error = true).
Proof.
  intros [_ H]. specialize (H eq_refl). vm_compute in H. discriminate.
Qed.

(** C3, amended: an existing article sighted again is selected for
    reprocessing when its stored summary is empty or whitespace-only, or
    starts with "Error", or contains "Error using AI model", or begins
    with an ASCII letter and does not contain "Error".  It is not selected
    when the summary is not whitespace-only, does not contain "Error using
    AI model", and either begins with a non-ASCII character or contains
    "Error" without starting with it. *)
Theorem C3_reprocess_heuristic (curr_summary : optstr) :
  (whitespace_only curr_summary = true -> needs_reprocess curr_summary = true)
  /\ (forall s, curr_summary = Some s ->
        startswith (py "Error") s = true
        \/ contains (py "Error using AI model") s = true ->
        needs_reprocess curr_summary = true)
  /\ (begins_with_ascii_letter curr_summary = true ->
      mentions (py "Error") curr_summary = false ->
      needs_reprocess curr_summary = true)
  /\ (whitespace_only curr_summary = false ->
      mentions (py "Error using AI model") curr_summary = false ->
      begins_with_non_ascii curr_summary = true
      \/ (mentions (py "Error") curr_summary = true
          /\ forall s, curr_summary = Some s -> startswith (py "Error") s = false) ->
      needs_reprocess curr_summary = false).
Proof.
  destruct curr_summary as [s|].
  2:{ repeat split; intros; try reflexivity; discriminate. }
  rewrite needs_reprocess_spec.
  unfold whitespace_only, begins_with_ascii_letter, begins_with_non_ascii, mentions.
  repeat split.
  - intros ->; reflexivity.
  - intros s' E [H|H]; inversion E; subst s'; rewrite H;
      rewrite ?orb_true_r; reflexivity.
  - destruct s as [|c s]; [discriminate|].
    intros L N. rewrite (is_ascii_letter_isascii _ L), N.
    rewrite !orb_true_r; reflexivity.
  - intros W M H. rewrite W, M. cbn [orb].
    destruct s as [|c s]; [discriminate|].
    destruct H as [H|[H1 H2]].
    + apply negb_true_iff in H. rewrite H. cbn [andb].
      destruct (startswith (py "Error") (c :: s)) eqn:S; [|reflexivity].
      apply startswith_error_first in S. congruence.
    + rewrite H1, (H2 _ eq_refl), andb_false_r. reflexivity.
Qed.

Lemma C3_reprocess_heuristic_witness :
  needs_reprocess (Some (py "   ")) = true
  /\ needs_reprocess (Some (py "Error: Empty summary returned by AI.")) = true
  /\ needs_reprocess (Some (py "The model was released today.")) = true
  /\ needs_reprocess (Some Example.korean_summary) = false
  /\ needs_reprocess summary_quoting_error = false.
Proof.
  refine (conj _ (conj _ (conj _ (conj _ _)))).
  - apply (proj1 (C3_reprocess_heuristic (Some (py "   ")))). reflexivity.
  - apply (proj1 (proj2 (C3_reprocess_heuristic
             (Some (py "Error: Empty summary returned by AI.")))) _ eq_refl).
    left; reflexivity.
  - apply (proj1 (proj2 (proj2 (C3_reprocess_heuristic
             (Some (py "The model was released today."))))));
      reflexivity.
  - apply (proj2 (proj2 (proj2 (C3_reprocess_heuristic
             (Some Example.korean_summary)))));
      [reflexivity | reflexivity | left; reflexivity].
  - apply (proj2 (proj2 (proj2 (C3_reprocess_heuristic summary_quoting_error))));
      [reflexivity | reflexivity |].
    right; split; [reflexivity|].
    intros s E; inversion E; reflexivity.
Defined.

(* ================================================================= *)
(** ** process_article_content *)

(** C10: when the content that reaches line 103 is non-empty and
    [json.loads] rejects it, [process_article_content] returns the
    original title and that raw text as the summary.  The text is stored
    as it is: it is not the irrelevant outcome, none of the "Error..."
    texts is put in its place, and it carries the marker "Error" only if
    the model's own text does. *)
Theorem C10_malformed_json_kept_raw (W : World) (n n' : nat)
    (title text model_name content : str) (filter_prompt : optstr) :
  truthy_opt (secrets_api_key W) = true ->
  contains (py "gemini") (lower model_name) = false ->
  obtain_content W n (resolve_model model_name)
    (system_prompt (resolve_filter_prompt filter_prompt))
    (user_prompt title text) = (inr (Some content), n') ->
  truthy content = true ->
  json_loads W content = JSONDecodeError ->
  process_article_content W n title text model_name filter_prompt
    = ((Some title, Some content), n')
  /\ (mentions (py "Error") (Some content) = false ->
      mentions (py "Error")
        (snd (fst (process_article_content W n title text model_name
                     filter_prompt))) = false
      /\ mentions (py "Error using AI model")
           (snd (fst (process_article_content W n title text model_name
                        filter_prompt))) = false).
Proof.
  intros Hkey Hgem Hget Hne Hjson.
  assert (R : process_article_content W n title text model_name filter_prompt
              = ((Some title, Some content), n')).
  { unfold process_article_content.
    rewrite Hkey, Hgem. cbn [negb]. cbv zeta. rewrite Hget.
    destruct content as [|c content]; [discriminate|].
    cbv beta iota. rewrite Hjson. reflexivity. }
  split; [exact R|].
  rewrite R. cbn [fst snd mentions]. intros H. split; [exact H|].
  destruct (contains (py "Error using AI model") content) eqn:E; [|reflexivity].
  apply error_using_ai_model_mentions_error in E. congruence.
Qed.

Lemma C10_malformed_json_kept_raw_witness :
  process_article_content world_prose 0 (py "GPT-5 released")
    (py "OpenAI announced a new model today.") (py "gpt-4o-mini") None
  = ((Some (py "GPT-5 released"), Some prose_reply), 1%nat).
Proof.
  apply (C10_malformed_json_kept_raw world_prose 0 1 (py "GPT-5 released")
           (py "OpenAI announced a new model today.") (py "gpt-4o-mini")
           prose_reply None); reflexivity.
Defined.

(* ================================================================= *)
(** ** The recency filter *)

(** Line 159 in whole seconds: the entry is older than the horizon. *)
Lemma older_than_limit (W : World) (published_ts days_limit : Z) :
  Qgtb (diff_days W published_ts) (inject_Z days_limit) = true
  <-> days_limit * 86400 < now_ts W - published_ts.
Proof.
  unfold Qgtb. rewrite negb_true_iff, <- not_true_iff_false, Qle_bool_iff.
  unfold diff_days, Qle, Qdiv, Qmult, Qinv, inject_Z. simpl. lia.
Qed.

Lemma entry_is_valid_set_source_url (W : World) (days_limit : Z) (url : str)
    (entry : Entry) :
  entry_is_valid W days_limit (set_source_url url entry)
  = entry_is_valid W days_limit entry.
Proof. reflexivity. Qed.

(** The first pass keeps exactly the fetched entries that pass the test,
    each tagged with its feed. *)
Lemma in_all_valid_entries (W : World) (rss_urls : list str) (days_limit : Z)
    (x : Entry) :
  In x (all_valid_entries W rss_urls days_limit)
  <-> exists url entry,
        In url rss_urls /\ In entry (fetch_rss_feed W url)
        /\ entry_is_valid W days_limit entry = true
        /\ x = set_source_url url entry.
Proof.
  unfold all_valid_entries. rewrite in_flat_map. split.
  - intros (url & Hu & Hx). apply in_map_iff in Hx.
    destruct Hx as (entry & <- & He). apply filter_In in He.
    exists url, entry. tauto.
  - intros (url & entry & Hu & He & Hv & ->).
    exists url. split; [exact Hu|].
    apply in_map, filter_In. tauto.
Qed.

Lemma all_valid_entries_valid (W : World) (rss_urls : list str) (days_limit : Z)
    (x : Entry) :
  In x (all_valid_entries W rss_urls days_limit) ->
  entry_is_valid W days_limit x = true.
Proof.
  intros H. apply in_all_valid_entries in H.
  destruct H as (url & entry & _ & _ & Hv & ->).
  rewrite entry_is_valid_set_source_url. exact Hv.
Qed.

(** C7: of the entries with a link that a feed yields, one published
    exactly [days_limit] days before [now_ts] is kept by the first pass,
    one published a second earlier is dropped, and one with neither a
    published nor an updated time is kept. *)
Theorem C7_recency_filter_boundary (W : World) (rss_urls : list str)
    (days_limit : Z) (url : str) (entry : Entry) :
  In url rss_urls ->
  In entry (fetch_rss_feed W url) ->
  truthy (get_or (e_link entry) []) = true ->
  (forall t, published_struct entry = Some t ->
     mktime W t = now_ts W - days_limit * (24 * 3600) ->
     In (set_source_url url entry) (all_valid_entries W rss_urls days_limit))
  /\ (forall t, published_struct entry = Some t ->
        mktime W t = now_ts W - days_limit * (24 * 3600) - 1 ->
        ~ In (set_source_url url entry) (all_valid_entries W rss_urls days_limit))
  /\ (published_struct entry = None ->
      In (set_source_url url entry) (all_valid_entries W rss_urls days_limit)).
Proof.
  intros Hu He Hl.
  assert (keep : entry_is_valid W days_limit entry = true ->
                 In (set_source_url url entry)
                    (all_valid_entries W rss_urls days_limit)).
  { intros Hv. apply in_all_valid_entries. exists url, entry. tauto. }
  repeat split.
  - intros t Ht Hts. apply keep. unfold entry_is_valid.
    rewrite Hl, Ht. cbn [negb].
    destruct (Qgtb _ _) eqn:G; [|reflexivity].
    apply older_than_limit in G. lia.
  - intros t Ht Hts Hin. apply all_valid_entries_valid in Hin.
    rewrite entry_is_valid_set_source_url in Hin.
    unfold entry_is_valid in Hin. rewrite Hl, Ht in Hin. cbn [negb] in Hin.
    destruct (Qgtb _ _) eqn:G; [discriminate|].
    apply not_true_iff_false in G. apply G, older_than_limit. lia.
  - intros Ht. apply keep. unfold entry_is_valid. rewrite Hl, Ht. reflexivity.
Qed.

Lemma C7_recency_filter_boundary_witness :
  In (set_source_url feed_url entry_on_boundary)
     (all_valid_entries world_boundary [feed_url] 3)
  /\ ~ In (set_source_url feed_url entry_past_boundary)
          (all_valid_entries world_boundary [feed_url] 3)
  /\ In (set_source_url feed_url entry_undated)
        (all_valid_entries world_boundary [feed_url] 3).
Proof.
  refine (conj _ (conj _ _)).
  - apply (proj1 (C7_recency_filter_boundary world_boundary [feed_url] 3
                    feed_url entry_on_boundary
                    (or_introl eq_refl) (or_introl eq_refl) eq_refl)
             (Example.st 2024 3 2 10 0 0)); reflexivity.
  - apply (proj1 (proj2 (C7_recency_filter_boundary world_boundary [feed_url] 3
                    feed_url entry_past_boundary
                    (or_introl eq_refl) (or_intror (or_introl eq_refl)) eq_refl))
             (Example.st 2024 3 2 9 59 59)); reflexivity.
  - apply (proj2 (proj2 (C7_recency_filter_boundary world_boundary [feed_url] 3
                    feed_url entry_undated
                    (or_introl eq_refl)
                    (or_intror (or_intror (or_introl eq_refl))) eq_refl))).
    reflexivity.
Defined.

(* ================================================================= *)
(** ** The working collection *)

Lemma dict_get_None (k : str) (d : dict) :
  dict_get k d = None <-> ~ In k (dict_keys d).
Proof.
  induction d as [|[k' v'] d IH]; simpl; [tauto|].
  destruct (eqb k k') eqn:E.
  - apply eqb_eq in E. subst. split; [discriminate | tauto].
  - apply eqb_neq in E. rewrite IH. split; [intros H [H'|H']; congruence | tauto].
Qed.

Lemma dict_get_Some_In (k : str) (v : Article) (d : dict) :
  dict_get k d = Some v -> In (k, v) d.
Proof.
  induction d as [|[k' v'] d IH]; simpl; [discriminate|].
  destruct (eqb k k') eqn:E.
  - apply eqb_eq in E. intros H; inversion H; subst. left; reflexivity.
  - intros H; right; auto.
Qed.

Lemma dict_get_set_same (k : str) (v : Article) (d : dict) :
  dict_get k (dict_set k v d) = Some v.
Proof.
  induction d as [|[k' v'] d IH]; simpl.
  - rewrite eqb_refl; reflexivity.
  - destruct (eqb k k') eqn:E; simpl; rewrite E; [reflexivity | exact IH].
Qed.

Lemma dict_keys_set_present (k : str) (v x : Article) (d : dict) :
  dict_get k d = Some x -> dict_keys (dict_set k v d) = dict_keys d.
Proof.
  induction d as [|[k' v'] d IH]; simpl; [discriminate|].
  destruct (eqb k k') eqn:E; simpl; [reflexivity|].
  intros H. rewrite (IH H). reflexivity.
Qed.

Lemma dict_set_absent (k : str) (v : Article) (d : dict) :
  dict_get k d = None -> dict_set k v d = d ++ [(k, v)].
Proof.
  induction d as [|[k' v'] d IH]; simpl; [reflexivity|].
  destruct (eqb k k') eqn:E; [discriminate|].
  intros H. rewrite (IH H). reflexivity.
Qed.

(** Assignment never removes a key. *)
Lemma dict_keys_set_incl (k k0 : str) (v : Article) (d : dict) :
  In k0 (dict_keys d) -> In k0 (dict_keys (dict_set k v d)).
Proof.
  destruct (dict_get k d) eqn:G.
  - rewrite (dict_keys_set_present _ _ _ _ G). auto.
  - rewrite (dict_set_absent _ _ _ G). unfold dict_keys.
    rewrite map_app, in_app_iff. auto.
Qed.

Lemma dict_keys_set_In (k : str) (v : Article) (d : dict) :
  In k (dict_keys (dict_set k v d)).
Proof.
  induction d as [|[k' v'] d IH]; simpl; [left; reflexivity|].
  destruct (eqb k k') eqn:E; simpl; [|right; exact IH].
  apply eqb_eq in E. left; congruence.
Qed.

Lemma dict_keys_set_inv (k k0 : str) (v : Article) (d : dict) :
  In k0 (dict_keys (dict_set k v d)) -> k0 = k \/ In k0 (dict_keys d).
Proof.
  destruct (dict_get k d) eqn:G.
  - rewrite (dict_keys_set_present _ _ _ _ G). auto.
  - rewrite (dict_set_absent _ _ _ G). unfold dict_keys.
    rewrite map_app, in_app_iff. simpl. intuition auto.
Qed.

Lemma dict_set_Forall (P : str * Article -> Prop) (k : str) (v : Article)
    (d : dict) :
  P (k, v) -> Forall P d -> Forall P (dict_set k v d).
Proof.
  intros Hv. induction 1 as [|[k' v'] d Hx Hd IH]; simpl.
  - constructor; [exact Hv | constructor].
  - destruct (eqb k k') eqn:E.
    + apply eqb_eq in E. subst. constructor; assumption.
    + constructor; assumption.
Qed.

Lemma dict_set_wf (k : str) (v : Article) (d : dict) :
  a_link v = k -> dict_wf d -> dict_wf (dict_set k v d).
Proof.
  intros Hk [Hn Hf]. split.
  - destruct (dict_get k d) eqn:G.
    + rewrite (dict_keys_set_present _ _ _ _ G). exact Hn.
    + rewrite (dict_set_absent _ _ _ G). unfold dict_keys. rewrite map_app.
      apply dict_get_None in G. simpl.
      apply NoDup_rev in Hn. rewrite <- (rev_involutive (_ ++ _)).
      apply NoDup_rev. rewrite rev_app_distr. simpl.
      constructor; [rewrite <- in_rev; exact G | exact Hn].
  - apply dict_set_Forall; [exact Hk | exact Hf].
Qed.

Lemma dict_wf_link (k : str) (v : Article) (d : dict) :
  dict_wf d -> dict_get k d = Some v -> a_link v = k.
Proof.
  intros [_ Hf] G. apply dict_get_Some_In in G.
  rewrite Forall_forall in Hf. exact (Hf _ G).
Qed.

Lemma dict_wf_links (d : dict) :
  dict_wf d -> List.map a_link (dict_values d) = dict_keys d.
Proof.
  intros [_ Hf]. unfold dict_values, dict_keys. rewrite map_map.
  induction Hf as [|kv d H _ IH]; simpl; [reflexivity|].
  rewrite H, IH. reflexivity.
Qed.

Lemma dict_of_items_acc_wf (l : list Article) (d : dict) :
  dict_wf d ->
  dict_wf (fold_left (fun d item => dict_set (a_link item) item d) l d).
Proof.
  revert d; induction l as [|x l IH]; intros d H; simpl; [exact H|].
  apply IH, dict_set_wf; [reflexivity | exact H].
Qed.

Lemma dict_of_items_wf (existing_data : list Article) :
  dict_wf (dict_of_items existing_data).
Proof.
  apply dict_of_items_acc_wf. split; constructor.
Qed.

Lemma dict_of_items_acc_keys (l : list Article) (d : dict) (k : str) :
  In k (dict_keys (fold_left (fun d item => dict_set (a_link item) item d) l d))
  <-> In k (dict_keys d) \/ In k (List.map a_link l).
Proof.
  revert d; induction l as [|x l IH]; intros d; simpl; [tauto|].
  rewrite IH. split.
  - intros [H|H]; [|tauto].
    apply dict_keys_set_inv in H. destruct H as [->|H]; tauto.
  - intros [H|[H|H]].
    + left. apply dict_keys_set_incl. exact H.
    + left. subst. apply dict_keys_set_In.
    + tauto.
Qed.

(** The index of line 132 has exactly the links of the collection. *)
Lemma dict_of_items_keys (existing_data : list Article) (k : str) :
  In k (dict_keys (dict_of_items existing_data))
  <-> In k (List.map a_link existing_data).
Proof.
  unfold dict_of_items. rewrite dict_of_items_acc_keys. simpl. tauto.
Qed.

(* ================================================================= *)
(** ** The final sort *)

Lemma ltb_asym (x y : str) : ltb x y = true -> ltb y x = false.
Proof.
  revert y; induction x as [|a x IH]; intros [|b y]; simpl; auto;
    try discriminate.
  destruct (N.ltb_spec a b), (N.ltb_spec b a); try lia; auto; discriminate.
Qed.

Lemma ltb_cotrans (x y z : str) :
  ltb x z = true -> ltb x y = true \/ ltb y z = true.
Proof.
  revert y z; induction x as [|a x IH]; intros [|b y] [|c z]; simpl; auto;
    try discriminate.
  destruct (N.ltb_spec a c), (N.ltb_spec c a), (N.ltb_spec a b),
    (N.ltb_spec b a), (N.ltb_spec b c), (N.ltb_spec c b);
    try lia; auto; discriminate.
Qed.

Lemma timestamp_desc_trans (a b c : Article) :
  timestamp_desc a b -> timestamp_desc b c -> timestamp_desc a c.
Proof.
  unfold timestamp_desc, leb. rewrite !negb_true_iff. intros H1 H2.
  destruct (ltb (a_timestamp a) (a_timestamp c)) eqn:E; [|reflexivity].
  destruct (ltb_cotrans _ (a_timestamp b) _ E); congruence.
Qed.

Lemma insert_desc_perm (x : Article) (l : list Article) :
  Permutation (insert_desc x l) (x :: l).
Proof.
  induction l as [|y l IH]; simpl; [reflexivity|].
  destruct (ltb (a_timestamp x) (a_timestamp y)); [|reflexivity].
  rewrite IH. apply perm_swap.
Qed.

Lemma sort_by_timestamp_desc_perm (l : list Article) :
  Permutation (sort_by_timestamp_desc l) l.
Proof.
  induction l as [|x l IH]; simpl; [reflexivity|].
  rewrite insert_desc_perm. apply perm_skip, IH.
Qed.

Lemma insert_desc_sorted (x : Article) (l : list Article) :
  StronglySorted timestamp_desc l ->
  StronglySorted timestamp_desc (insert_desc x l).
Proof.
  induction 1 as [|y l Hs IH Hy]; simpl.
  - constructor; constructor.
  - destruct (ltb (a_timestamp x) (a_timestamp y)) eqn:E.
    + constructor; [exact IH|].
      rewrite Forall_forall in *. intros z Hz.
      apply (Permutation_in _ (insert_desc_perm x l)) in Hz.
      destruct Hz as [<-|Hz]; [|auto].
      unfold timestamp_desc, leb. rewrite (ltb_asym _ _ E). reflexivity.
    + assert (Hxy : timestamp_desc x y)
        by (unfold timestamp_desc, leb; rewrite E; reflexivity).
      constructor; [constructor; assumption|].
      constructor; [exact Hxy|].
      rewrite Forall_forall in *. intros z Hz.
      eapply timestamp_desc_trans; eauto.
Qed.

Lemma sort_by_timestamp_desc_sorted (l : list Article) :
  StronglySorted timestamp_desc (sort_by_timestamp_desc l).
Proof.
  induction l as [|x l IH]; simpl; [constructor|].
  apply insert_desc_sorted, IH.
Qed.

(** C5: the collection [process_news_data] returns is sorted by
    [timestamp], most recent first: no article stands before one with a
    greater timestamp. *)
Theorem C5_output_sorted_by_timestamp_desc (W : World) (rss_urls : list str)
    (existing_data : list Article) (model_name : str) (days_limit : Z)
    (ai_filter_prompt : optstr) :
  StronglySorted timestamp_desc
    (fst (process_news_data W rss_urls existing_data model_name days_limit
            ai_filter_prompt)).
Proof.
  unfold process_news_data. cbn [fst].
  apply sort_by_timestamp_desc_sorted.
Qed.

(* ================================================================= *)
(** ** One iteration of the merge loop *)

(** Lines 215-236 touch nothing but the record of the Oracle's calls. *)
Lemma summarize_frame (W : World) (model_name : str) (ai_filter_prompt : optstr)
    (st st1 : RunState) (should_process : bool) (original_title clean_text : str)
    (o : processed) :
  summarize W model_name ai_filter_prompt st should_process original_title
    clean_text = (o, st1) ->
  existing_items_map st1 = existing_items_map st
  /\ new_items_count st1 = new_items_count st
  /\ updated_count st1 = updated_count st
  /\ ids_drawn st1 = ids_drawn st.
Proof.
  unfold summarize.
  destruct should_process; [|intros H; inversion H; subst; auto].
  destruct (negb (truthy clean_text) || (len clean_text <? 20));
    [intros H; inversion H; subst; auto|].
  destruct (process_article_content _ _ _ _ _ _) as [[[t|] [s|]] n'];
    intros H; inversion H; subst; cbn; auto.
Qed.

(** What an iteration does to the collection and the two counters: it
    leaves them alone (the irrelevant outcome), or adds an article under
    an absent link, or replaces the article under a present link by one
    with the same link. *)
Lemma process_entry_cases (W : World) (model_name : str)
    (ai_filter_prompt : optstr) (st : RunState) (entry : Entry) :
  let link := get_or (e_link entry) [] in
  let st' := process_entry W model_name ai_filter_prompt st entry in
  (existing_items_map st' = existing_items_map st
   /\ new_items_count st' = new_items_count st
   /\ updated_count st' = updated_count st)
  \/ (exists v,
        dict_get link (existing_items_map st) = None
        /\ existing_items_map st' = dict_set link v (existing_items_map st)
        /\ a_link v = link
        /\ new_items_count st' = new_items_count st + 1
        /\ updated_count st' = updated_count st)
  \/ (exists item v,
        dict_get link (existing_items_map st) = Some item
        /\ existing_items_map st' = dict_set link v (existing_items_map st)
        /\ a_link v = a_link item
        /\ new_items_count st' = new_items_count st
        /\ (updated_count st' = updated_count st
            \/ updated_count st' = updated_count st + 1)).
Proof.
  cbv zeta. unfold process_entry.
  destruct (dict_get (get_or (e_link entry) []) (existing_items_map st))
    as [item|] eqn:G;
    destruct (summarize _ _ _ _ _ _ _) as [o st1] eqn:S;
    destruct (summarize_frame _ _ _ _ _ _ _ _ _ S) as (Hm & Hn & Hu & Hi);
    destruct o; cbn [existing_items_map new_items_count updated_count];
    rewrite ?Hm, ?Hn, ?Hu; auto.
  - right; right. eexists _, _. repeat split; try reflexivity.
    + destruct (needs_reprocess (a_summary item)); [destruct ai_title|];
        reflexivity.
    + destruct (_ || _); auto.
  - right; right. eexists _, _. repeat split; try reflexivity.
    + destruct (needs_reprocess (a_summary item)); reflexivity.
    + destruct (_ || _); auto.
  - right; left. eexists. repeat split; reflexivity.
  - right; left. eexists. repeat split; reflexivity.
Qed.

Lemma process_entry_wf (W : World) (model_name : str)
    (ai_filter_prompt : optstr) (st : RunState) (entry : Entry) :
  dict_wf (existing_items_map st) ->
  dict_wf (existing_items_map
             (process_entry W model_name ai_filter_prompt st entry)).
Proof.
  intros H.
  destruct (process_entry_cases W model_name ai_filter_prompt st entry)
    as [(-> & _)|[(v & G & -> & L & _)|(item & v & G & -> & L & _)]].
  - exact H.
  - apply dict_set_wf; assumption.
  - apply dict_set_wf; [|exact H].
    rewrite L. eapply dict_wf_link; eassumption.
Qed.

Lemma merge_loop_wf (W : World) (model_name : str) (ai_filter_prompt : optstr)
    (entries : list Entry) (st : RunState) :
  dict_wf (existing_items_map st) ->
  dict_wf (existing_items_map
             (merge_loop W model_name ai_filter_prompt entries st)).
Proof.
  revert st; induction entries as [|e entries IH]; intros st H; simpl;
    [exact H|].
  apply IH, process_entry_wf, H.
Qed.

Lemma merge_loop_app (W : World) (model_name : str) (ai_filter_prompt : optstr)
    (pre post : list Entry) (st : RunState) :
  merge_loop W model_name ai_filter_prompt (pre ++ post) st
  = merge_loop W model_name ai_filter_prompt post
      (merge_loop W model_name ai_filter_prompt pre st).
Proof. apply fold_left_app. Qed.

Lemma merge_loop_cons (W : World) (model_name : str) (ai_filter_prompt : optstr)
    (entry : Entry) (entries : list Entry) (st : RunState) :
  merge_loop W model_name ai_filter_prompt (entry :: entries) st
  = merge_loop W model_name ai_filter_prompt entries
      (process_entry W model_name ai_filter_prompt st entry).
Proof. reflexivity. Qed.

(** C6: no two articles of the collection [process_news_data] returns
    have the same link. *)
Theorem C6_output_links_unique (W : World) (rss_urls : list str)
    (existing_data : list Article) (model_name : str) (days_limit : Z)
    (ai_filter_prompt : optstr) :
  NoDup (List.map a_link
           (fst (process_news_data W rss_urls existing_data model_name
                   days_limit ai_filter_prompt))).
Proof.
  unfold process_news_data. cbn [fst].
  assert (Hwf : dict_wf (existing_items_map
                  (run W rss_urls existing_data model_name days_limit
                     ai_filter_prompt)))
    by (apply merge_loop_wf, dict_of_items_wf).
  eapply Permutation_NoDup.
  - apply Permutation_map. symmetry. apply sort_by_timestamp_desc_perm.
  - rewrite (dict_wf_links _ Hwf). exact (proj1 Hwf).
Qed.

Lemma len_short_gate (clean_text : str) :
  len clean_text < 20 ->
  negb (truthy clean_text) || (len clean_text <? 20) = true.
Proof.
  intros H. apply Z.ltb_lt in H. rewrite H. apply orb_true_r.
Qed.

Lemma len_long_gate (clean_text : str) :
  20 <= len clean_text ->
  negb (truthy clean_text) || (len clean_text <? 20) = false.
Proof.
  intros H. destruct clean_text as [|c s]; [unfold len in H; simpl in H; lia|].
  simpl. apply Z.ltb_ge. exact H.
Qed.

Lemma dict_get_set_other (k k' : str) (v : Article) (d : dict) :
  k <> k' -> dict_get k (dict_set k' v d) = dict_get k d.
Proof.
  intros N. induction d as [|[k0 v0] d IH]; simpl.
  - apply eqb_neq in N. rewrite N. reflexivity.
  - destruct (eqb k' k0) eqn:E; simpl.
    + apply eqb_eq in E. subst k0. apply eqb_neq in N. rewrite N. reflexivity.
    + rewrite IH. reflexivity.
Qed.

(** An iteration leaves the articles under other links alone. *)
Lemma process_entry_other_link (W : World) (model_name : str)
    (ai_filter_prompt : optstr) (st : RunState) (entry : Entry) (k : str) :
  get_or (e_link entry) [] <> k ->
  dict_get k (existing_items_map
                (process_entry W model_name ai_filter_prompt st entry))
  = dict_get k (existing_items_map st).
Proof.
  intros N.
  destruct (process_entry_cases W model_name ai_filter_prompt st entry)
    as [(-> & _)|[(v & _ & -> & _)|(item & v & _ & -> & _)]];
    [reflexivity | |]; apply dict_get_set_other; congruence.
Qed.

Lemma merge_loop_other_links (W : World) (model_name : str)
    (ai_filter_prompt : optstr) (entries : list Entry) (st : RunState)
    (k : str) :
  (forall e, In e entries -> get_or (e_link e) [] <> k) ->
  dict_get k (existing_items_map
                (merge_loop W model_name ai_filter_prompt entries st))
  = dict_get k (existing_items_map st).
Proof.
  revert st; induction entries as [|x entries IH]; intros st H; simpl;
    [reflexivity|].
  rewrite IH by (intros e He; apply H; right; exact He).
  apply process_entry_other_link, H. left; reflexivity.
Qed.

(** The iteration of line 170 on an entry too short to summarize. *)
Lemma process_entry_short (W : World) (model_name : str)
    (ai_filter_prompt : optstr) (st : RunState) (entry : Entry) :
  selected_for_processing st entry = true ->
  len (clean_html W (summary_text_of entry)) < 20 ->
  oracle_calls (process_entry W model_name ai_filter_prompt st entry)
    = oracle_calls st
  /\ api_calls (process_entry W model_name ai_filter_prompt st entry)
     = api_calls st
  /\ exists item,
       dict_get (get_or (e_link entry) [])
         (existing_items_map
            (process_entry W model_name ai_filter_prompt st entry))
       = Some item
       /\ a_summary item = Some too_short
       /\ a_title item = Some (get_or (e_title entry) (py "No Title")).
Proof.
  unfold selected_for_processing. intros Hsel Hlen.
  apply len_short_gate in Hlen.
  unfold process_entry, summarize.
  destruct (dict_get (get_or (e_link entry) []) (existing_items_map st))
    as [item|].
  - (* an existing article, reprocessed *)
    rewrite Hsel, Hlen. cbv beta iota.
    cbn [oracle_calls api_calls existing_items_map].
    rewrite dict_get_set_same.
    split; [reflexivity|]. split; [reflexivity|].
    eexists. split; [reflexivity|]. split; reflexivity.
  - (* a new article *)
    rewrite Hlen. cbv beta iota.
    cbn [oracle_calls api_calls existing_items_map].
    rewrite dict_get_set_same.
    split; [reflexivity|]. split; [reflexivity|].
    eexists. split; [reflexivity|]. split; reflexivity.
Qed.

(** C8: when an entry is selected for processing and its normalized body
    has fewer than 20 characters, the iteration on it does not call
    [process_article_content] (nor the client), and the article it stores
    under the entry's link has the placeholder as summary and the entry's
    original title as title; that article is in the returned collection
    when no later entry of the run carries the same link. *)
Theorem C8_short_content_skips_oracle (W : World) (model_name : str)
    (ai_filter_prompt : optstr) :
  (forall (st : RunState) (entry : Entry),
     selected_for_processing st entry = true ->
     len (clean_html W (summary_text_of entry)) < 20 ->
     let st' := process_entry W model_name ai_filter_prompt st entry in
     oracle_calls st' = oracle_calls st
     /\ api_calls st' = api_calls st
     /\ exists item,
          dict_get (get_or (e_link entry) []) (existing_items_map st')
          = Some item
          /\ a_summary item = Some too_short
          /\ a_title item = Some (get_or (e_title entry) (py "No Title")))
  /\ (forall (rss_urls : list str) (existing_data : list Article)
        (days_limit : Z) (pre post : list Entry) (entry : Entry),
        all_valid_entries W rss_urls days_limit = pre ++ entry :: post ->
        selected_for_processing
          (merge_loop W model_name ai_filter_prompt pre
             (initial_state existing_data)) entry = true ->
        len (clean_html W (summary_text_of entry)) < 20 ->
        (forall e, In e post ->
           get_or (e_link e) [] <> get_or (e_link entry) []) ->
        exists item,
          In item (fst (process_news_data W rss_urls existing_data model_name
                          days_limit ai_filter_prompt))
          /\ a_link item = get_or (e_link entry) []
          /\ a_summary item = Some too_short
          /\ a_title item = Some (get_or (e_title entry) (py "No Title"))).
Proof.
  split.
  - intros st entry Hsel Hlen. cbv zeta.
    apply process_entry_short; assumption.
  - intros rss_urls existing_data days_limit pre post entry Hc Hsel Hlen Hpost.
    destruct (process_entry_short W model_name ai_filter_prompt _ entry Hsel Hlen)
      as (_ & _ & item & G & Hs & Ht).
    exists item.
    assert (Hfinal : dict_get (get_or (e_link entry) [])
                       (existing_items_map
                          (run W rss_urls existing_data model_name days_limit
                             ai_filter_prompt)) = Some item).
    { unfold run. rewrite Hc, merge_loop_app, merge_loop_cons.
      rewrite merge_loop_other_links by exact Hpost. exact G. }
    assert (Hwf : dict_wf (existing_items_map
                    (run W rss_urls existing_data model_name days_limit
                       ai_filter_prompt)))
      by (apply merge_loop_wf, dict_of_items_wf).
    split; [|split; [eapply dict_wf_link; eassumption | split; assumption]].
    unfold process_news_data. cbn [fst].
    eapply Permutation_in;
      [symmetry; apply sort_by_timestamp_desc_perm|].
    apply dict_get_Some_In in Hfinal.
    apply (in_map snd) in Hfinal. exact Hfinal.
Qed.

Lemma C8_short_content_skips_oracle_witness :
  (let st' := process_entry world_short (py "gpt-4o-mini") None
                (initial_state []) (set_source_url feed_url entry_short) in
   oracle_calls st' = []
   /\ api_calls st' = 0%nat
   /\ exists item,
        dict_get (py "https://example.com/s") (existing_items_map st')
        = Some item
        /\ a_summary item = Some too_short
        /\ a_title item = Some (py "A headline"))
  /\ exists item,
       In item (fst (process_news_data world_short [feed_url] []
                       (py "gpt-4o-mini") 3 None))
       /\ a_link item = py "https://example.com/s"
       /\ a_summary item = Some too_short
       /\ a_title item = Some (py "A headline").
Proof.
  split.
  - apply (proj1 (C8_short_content_skips_oracle world_short (py "gpt-4o-mini")
                    None)
             (initial_state []) (set_source_url feed_url entry_short));
      reflexivity.
  - apply (proj2 (C8_short_content_skips_oracle world_short (py "gpt-4o-mini")
                    None)
             [feed_url] [] 3 [] [] (set_source_url feed_url entry_short));
      [reflexivity | reflexivity | reflexivity | intros e []].
Defined.

(** When the Oracle, asked about an entry selected for processing, reports
    it irrelevant, line 232 skips the rest of the iteration: collection
    and counters stay as they were. *)
Lemma process_entry_irrelevant (W : World) (model_name : str)
    (ai_filter_prompt : optstr) (st : RunState) (entry : Entry) :
  selected_for_processing st entry = true ->
  oracle_irrelevant W model_name ai_filter_prompt (api_calls st) entry ->
  existing_items_map (process_entry W model_name ai_filter_prompt st entry)
    = existing_items_map st
  /\ new_items_count (process_entry W model_name ai_filter_prompt st entry)
     = new_items_count st
  /\ updated_count (process_entry W model_name ai_filter_prompt st entry)
     = updated_count st.
Proof.
  unfold selected_for_processing, oracle_irrelevant. cbv zeta.
  intros Hsel [Hlen Hor]. apply len_long_gate in Hlen.
  unfold process_entry, summarize.
  destruct (dict_get (get_or (e_link entry) []) (existing_items_map st))
    as [item|]; [rewrite Hsel|]; rewrite Hlen;
    destruct (process_article_content _ _ _ _ _ _) as [r n'];
    cbn [fst] in Hor; subst r; cbv beta iota; auto.
Qed.

(** The keys of the collection after an iteration: those before it, and
    possibly the entry's link. *)
Lemma process_entry_keys_inv (W : World) (model_name : str)
    (ai_filter_prompt : optstr) (st : RunState) (entry : Entry) (k : str) :
  In k (dict_keys (existing_items_map
                     (process_entry W model_name ai_filter_prompt st entry))) ->
  k = get_or (e_link entry) [] \/ In k (dict_keys (existing_items_map st)).
Proof.
  destruct (process_entry_cases W model_name ai_filter_prompt st entry)
    as [(-> & _)|[(v & _ & -> & _)|(item & v & _ & -> & _)]];
    [auto | apply dict_keys_set_inv | apply dict_keys_set_inv].
Qed.

(** An iteration never removes a key. *)
Lemma process_entry_keys_incl (W : World) (model_name : str)
    (ai_filter_prompt : optstr) (st : RunState) (entry : Entry) (k : str) :
  In k (dict_keys (existing_items_map st)) ->
  In k (dict_keys (existing_items_map
                     (process_entry W model_name ai_filter_prompt st entry))).
Proof.
  destruct (process_entry_cases W model_name ai_filter_prompt st entry)
    as [(-> & _)|[(v & _ & -> & _)|(item & v & _ & -> & _)]];
    [auto | apply dict_keys_set_incl | apply dict_keys_set_incl].
Qed.

Lemma merge_loop_keys_incl (W : World) (model_name : str)
    (ai_filter_prompt : optstr) (entries : list Entry) (st : RunState)
    (k : str) :
  In k (dict_keys (existing_items_map st)) ->
  In k (dict_keys (existing_items_map
                     (merge_loop W model_name ai_filter_prompt entries st))).
Proof.
  revert st; induction entries as [|e entries IH]; intros st H; simpl;
    [exact H|].
  apply IH, process_entry_keys_incl, H.
Qed.

(** The links of the returned collection are the keys of the working
    collection. *)
Lemma output_links (W : World) (rss_urls : list str)
    (existing_data : list Article) (model_name : str) (days_limit : Z)
    (ai_filter_prompt : optstr) (k : str) :
  In k (List.map a_link
          (fst (process_news_data W rss_urls existing_data model_name
                  days_limit ai_filter_prompt)))
  <-> In k (dict_keys (existing_items_map
              (run W rss_urls existing_data model_name days_limit
                 ai_filter_prompt))).
Proof.
  unfold process_news_data. cbn [fst].
  assert (Hwf : dict_wf (existing_items_map
                  (run W rss_urls existing_data model_name days_limit
                     ai_filter_prompt)))
    by (apply merge_loop_wf, dict_of_items_wf).
  rewrite <- (dict_wf_links _ Hwf).
  assert (P := Permutation_map a_link
                 (sort_by_timestamp_desc_perm
                    (dict_values (existing_items_map
                       (run W rss_urls existing_data model_name days_limit
                          ai_filter_prompt))))).
  split; intros H; [eapply Permutation_in | eapply Permutation_in];
    try eassumption; symmetry; exact P.
Qed.

Lemma merge_loop_link_stays_absent (W : World) (model_name : str)
    (ai_filter_prompt : optstr) (link : str) (entries : list Entry)
    (st : RunState) :
  ~ In link (dict_keys (existing_items_map st)) ->
  (forall e, In e entries -> get_or (e_link e) [] = link ->
     forall n, oracle_irrelevant W model_name ai_filter_prompt n e) ->
  ~ In link (dict_keys (existing_items_map
                          (merge_loop W model_name ai_filter_prompt entries st))).
Proof.
  revert st; induction entries as [|e entries IH]; intros st Hst Hall; simpl;
    [exact Hst|].
  apply IH; [|intros e' He'; apply Hall; right; exact He'].
  destruct (eqb (get_or (e_link e) []) link) eqn:E.
  - apply eqb_eq in E.
    assert (G : dict_get (get_or (e_link e) []) (existing_items_map st) = None)
      by (rewrite E; apply dict_get_None; exact Hst).
    destruct (process_entry_irrelevant W model_name ai_filter_prompt st e)
      as (-> & _); [unfold selected_for_processing; rewrite G; reflexivity
                   | apply Hall; [left; reflexivity | exact E] | exact Hst].
  - apply eqb_neq in E. intros H.
    apply process_entry_keys_inv in H. destruct H as [H|H]; [|tauto].
    congruence.
Qed.

(** C9, as stated, fails: the first entry's link is not in the (empty)
    collection and the Oracle reports it irrelevant, yet an article with
    that link is in the output: a later entry with the same link was
    accepted. *)
Lemma C9_counterexample :
  In (set_source_url feed_url entry_sports)
     (all_valid_entries world_same_link [feed_url] 3)
  /\ ~ In (py "https://example.com/x") (List.map a_link [])
  /\ oracle_irrelevant world_same_link (py "gpt-4o-mini") None 0
       (set_source_url feed_url entry_sports)
  /\ In (py "https://example.com/x")
        (List.map a_link
           (fst (process_news_data world_same_link [feed_url] []
                   (py "gpt-4o-mini") 3 None))).
Proof.
  split; [left; reflexivity|].
  split; [intros []|].
  split; [split; [vm_compute; discriminate | vm_compute; reflexivity]|].
  vm_compute. left; reflexivity.
Qed.

(** C9, amended: when an entry's link is not in the working collection
    and the Oracle reports the entry irrelevant, the iteration on it adds
    no article and leaves the new-count, the update-count and so their
    sum unchanged; and when the link is not in the existing collection
    and the Oracle reports every candidate entry with that link
    irrelevant, no article with that link is in the output. *)
Theorem C9_irrelevant_new_entry_dropped (W : World) (model_name : str)
    (ai_filter_prompt : optstr) :
  (forall (st : RunState) (entry : Entry),
     dict_get (get_or (e_link entry) []) (existing_items_map st) = None ->
     oracle_irrelevant W model_name ai_filter_prompt (api_calls st) entry ->
     let st' := process_entry W model_name ai_filter_prompt st entry in
     existing_items_map st' = existing_items_map st
     /\ new_items_count st' = new_items_count st
     /\ updated_count st' = updated_count st
     /\ new_items_count st' + updated_count st'
        = new_items_count st + updated_count st)
  /\ (forall (rss_urls : list str) (existing_data : list Article)
        (days_limit : Z) (link : str),
        ~ In link (List.map a_link existing_data) ->
        (forall e, In e (all_valid_entries W rss_urls days_limit) ->
           get_or (e_link e) [] = link ->
           forall n, oracle_irrelevant W model_name ai_filter_prompt n e) ->
        ~ In link
            (List.map a_link
               (fst (process_news_data W rss_urls existing_data model_name
                       days_limit ai_filter_prompt)))).
Proof.
  split.
  - intros st entry G Hor. cbv zeta.
    destruct (process_entry_irrelevant W model_name ai_filter_prompt st entry)
      as (Hm & Hn & Hu);
      [unfold selected_for_processing; rewrite G; reflexivity | exact Hor |].
    rewrite Hm, Hn, Hu. auto.
  - intros rss_urls existing_data days_limit link Hex Hall.
    rewrite output_links. unfold run.
    apply merge_loop_link_stays_absent; [|exact Hall].
    cbn [initial_state existing_items_map]. rewrite dict_of_items_keys.
    exact Hex.
Qed.

Lemma C9_irrelevant_new_entry_dropped_witness :
  (let st' := process_entry world_irrelevant (py "gpt-4o-mini") None
                (initial_state []) (set_source_url feed_url entry_on_boundary) in
   existing_items_map st' = []
   /\ new_items_count st' = 0
   /\ updated_count st' = 0
   /\ new_items_count st' + updated_count st' = 0 + 0)
  /\ ~ In (py "https://example.com/a")
          (List.map a_link
             (fst (process_news_data world_irrelevant [feed_url] []
                     (py "gpt-4o-mini") 3 None))).
Proof.
  assert (Hor : forall n,
            oracle_irrelevant world_irrelevant (py "gpt-4o-mini") None n
              (set_source_url feed_url entry_on_boundary))
    by (intros n; split; [vm_compute; discriminate | reflexivity]).
  split.
  - apply (proj1 (C9_irrelevant_new_entry_dropped world_irrelevant
                    (py "gpt-4o-mini") None)
             (initial_state []) (set_source_url feed_url entry_on_boundary));
      [reflexivity | apply Hor].
  - apply (proj2 (C9_irrelevant_new_entry_dropped world_irrelevant
                    (py "gpt-4o-mini") None)
             [feed_url] [] 3 (py "https://example.com/a")).
    + intros [].
    + intros e [<-|[]] _ n. apply Hor.
Defined.

(** C1: an existing article with an empty summary is sighted again, with
    a body long enough for the Oracle, which reports it irrelevant.  The
    feed gives 2024-03-02T10:00:00 as publication time; the run returns
    the article as it was, timestamp and date of 2024-01-01 included, and
    counts no change: the [continue] of line 232 skips the refresh of
    lines 276-278. *)
Theorem C1_irrelevant_existing_keeps_old_timestamp :
  selected_for_processing (initial_state [article_first_seen])
    (set_source_url feed_url entry_on_boundary) = true
  /\ oracle_irrelevant world_irrelevant (py "gpt-4o-mini") None 0
       (set_source_url feed_url entry_on_boundary)
  /\ item_timestamp_iso world_irrelevant
       (set_source_url feed_url entry_on_boundary) = py "2024-03-02T10:00:00"
  /\ item_date_str world_irrelevant
       (set_source_url feed_url entry_on_boundary) = py "2024-03-02"
  /\ process_news_data world_irrelevant [feed_url] [article_first_seen]
       (py "gpt-4o-mini") 3 None
     = ([article_first_seen], 0)
  /\ a_timestamp article_first_seen = py "2024-01-01T00:00:00".
Proof.
  split; [reflexivity|].
  split; [split; [vm_compute; discriminate | reflexivity]|].
  repeat split.
Qed.

(* ================================================================= *)
(** ** Two runs in a row *)

Lemma dict_get_Some_key (k : str) (v : Article) (d : dict) :
  dict_get k d = Some v -> In k (dict_keys d).
Proof.
  intros H. apply dict_get_Some_In in H.
  apply (in_map fst) in H. exact H.
Qed.

(** After the iteration on an entry, its link is in the collection, or
    the Oracle reported the entry irrelevant. *)
Lemma process_entry_present_or_irrelevant (W : World) (model_name : str)
    (ai_filter_prompt : optstr) (st : RunState) (entry : Entry) :
  In (get_or (e_link entry) [])
     (dict_keys (existing_items_map
                   (process_entry W model_name ai_filter_prompt st entry)))
  \/ oracle_irrelevant W model_name ai_filter_prompt (api_calls st) entry.
Proof.
  destruct (dict_get (get_or (e_link entry) []) (existing_items_map st))
    as [item|] eqn:G.
  - left. apply process_entry_keys_incl. eapply dict_get_Some_key; eassumption.
  - unfold process_entry, summarize, oracle_irrelevant. rewrite G. cbv zeta.
    destruct (negb (truthy (clean_html W (summary_text_of entry)))
              || (len (clean_html W (summary_text_of entry)) <? 20)) eqn:L.
    + left. cbv beta iota. cbn [existing_items_map]. apply dict_keys_set_In.
    + apply orb_false_iff in L. destruct L as [_ L]. apply Z.ltb_ge in L.
      destruct (process_article_content _ _ _ _ _ _) as [[[t|] [s|]] n'];
        cbv beta iota; cbn [existing_items_map fst];
        try (left; apply dict_keys_set_In).
      right. split; [exact L | reflexivity].
Qed.

Lemma merge_loop_present_or_irrelevant (W : World) (model_name : str)
    (ai_filter_prompt : optstr) (entries : list Entry) (st : RunState)
    (e : Entry) :
  In e entries ->
  In (get_or (e_link e) [])
     (dict_keys (existing_items_map
                   (merge_loop W model_name ai_filter_prompt entries st)))
  \/ exists n, oracle_irrelevant W model_name ai_filter_prompt n e.
Proof.
  revert st; induction entries as [|x entries IH]; intros st; simpl;
    [intros []|].
  intros [->|H]; [|apply IH, H].
  destruct (process_entry_present_or_irrelevant W model_name ai_filter_prompt
              st e) as [P|P].
  - left. apply merge_loop_keys_incl, P.
  - right. eexists; exact P.
Qed.

Lemma merge_loop_no_new (W : World) (model_name : str)
    (ai_filter_prompt : optstr) (entries : list Entry) (st : RunState) :
  (forall e, In e entries ->
     In (get_or (e_link e) []) (dict_keys (existing_items_map st))
     \/ forall n, oracle_irrelevant W model_name ai_filter_prompt n e) ->
  new_items_count (merge_loop W model_name ai_filter_prompt entries st)
  = new_items_count st.
Proof.
  revert st; induction entries as [|x entries IH]; intros st Hall; simpl;
    [reflexivity|].
  rewrite IH.
  - destruct (process_entry_cases W model_name ai_filter_prompt st x)
      as [(_ & Hn & _)|[(v & G & _ & _ & Hn & _)|(item & v & _ & _ & _ & Hn & _)]];
      try exact Hn.
    destruct (Hall x (or_introl eq_refl)) as [H|H].
    + apply dict_get_None in G. contradiction.
    + destruct (process_entry_irrelevant W model_name ai_filter_prompt st x)
        as (_ & Hn' & _);
        [unfold selected_for_processing; rewrite G; reflexivity | apply H |].
      exact Hn'.
  - intros e He. destruct (Hall e (or_intror He)) as [H|H]; [left|right; exact H].
    apply process_entry_keys_incl, H.
Qed.

(** The update-count moves only at an entry whose article is reprocessed
    or carries a timestamp other than the entry's. *)
Lemma process_entry_updated (W : World) (model_name : str)
    (ai_filter_prompt : optstr) (st : RunState) (entry : Entry) :
  updated_count (process_entry W model_name ai_filter_prompt st entry)
    <> updated_count st ->
  exists item,
    dict_get (get_or (e_link entry) []) (existing_items_map st) = Some item
    /\ (needs_reprocess (a_summary item) = true
        \/ a_timestamp item <> item_timestamp_iso W entry).
Proof.
  destruct (dict_get (get_or (e_link entry) []) (existing_items_map st))
    as [item|] eqn:G.
  - intros H. exists item. split; [reflexivity|].
    destruct (needs_reprocess (a_summary item)) eqn:R; [left; reflexivity|].
    right. intros E. apply H.
    unfold process_entry, summarize. rewrite G, R. cbv beta iota zeta.
    cbn [updated_count orb a_timestamp]. rewrite E, eqb_refl. reflexivity.
  - intros H. exfalso. apply H.
    destruct (process_entry_cases W model_name ai_filter_prompt st entry)
      as [(_ & _ & Hu)|[(v & _ & _ & _ & _ & Hu)|(item & v & G' & _)]];
      try exact Hu.
    cbv zeta in G'. congruence.
Qed.

Lemma merge_loop_updated (W : World) (model_name : str)
    (ai_filter_prompt : optstr) (entries : list Entry) (st : RunState) :
  updated_count (merge_loop W model_name ai_filter_prompt entries st)
    <> updated_count st ->
  exists pre e post,
    entries = pre ++ e :: post
    /\ exists item,
         dict_get (get_or (e_link e) [])
           (existing_items_map
              (merge_loop W model_name ai_filter_prompt pre st)) = Some item
         /\ (needs_reprocess (a_summary item) = true
             \/ a_timestamp item <> item_timestamp_iso W e).
Proof.
  induction entries as [|x entries IH] using rev_ind; [intros H; now elim H|].
  rewrite merge_loop_app, merge_loop_cons. cbn [merge_loop fold_left].
  intros H.
  destruct (Z.eq_dec
              (updated_count (merge_loop W model_name ai_filter_prompt entries st))
              (updated_count st)) as [E|E].
  - rewrite <- E in H. apply process_entry_updated in H.
    exists entries, x, []. split; [reflexivity | exact H].
  - destruct (IH E) as (pre & e & post & -> & Hitem).
    exists pre, e, (post ++ [x]). split; [|exact Hitem].
    rewrite <- app_assoc. reflexivity.
Qed.

(** C4, as stated, fails: after a first run that stored a too-short
    entry under the placeholder, a second run over the same feed counts
    one update, although the article's timestamp is the feed's: the
    placeholder begins with an ASCII letter, so the article is
    reprocessed, and reprocessing counts. *)
Lemma C4_counterexample :
  let first := process_news_data world_short [feed_url] []
                 (py "gpt-4o-mini") 3 None in
  let second := run world_short [feed_url] (fst first)
                  (py "gpt-4o-mini") 3 None in
  ~ (0 < updated_count second ->
     exists e a,
       In e (all_valid_entries world_short [feed_url] 3)
       /\ In a (fst first)
       /\ a_link a = get_or (e_link e) []
       /\ a_timestamp a <> item_timestamp_iso world_short e).
Proof.
  cbv zeta. intros H.
  destruct H as (e & a & He & Ha & _ & Hts); [reflexivity|].
  destruct He as [<-|[]]. destruct Ha as [<-|[]].
  apply Hts. reflexivity.
Qed.

(** C4, amended: when the candidate set, the normalized bodies and the
    Oracle's answers are those of the first run, the second run's
    new-count is 0, and its update-count is above 0 only if some entry
    meets an article that is selected for reprocessing or whose timestamp
    differs from the entry's feed-provided (or ingestion) time. *)
Theorem C4_second_run_counts (W1 W2 : World) (rss_urls1 rss_urls2 : list str)
    (existing_data : list Article) (model_name : str) (days_limit1 days_limit2 : Z)
    (ai_filter_prompt : optstr) :
  all_valid_entries W2 rss_urls2 days_limit2
    = all_valid_entries W1 rss_urls1 days_limit1 ->
  (forall html, clean_html W2 html = clean_html W1 html) ->
  (forall n m title text,
     fst (process_article_content W2 m title text model_name ai_filter_prompt)
     = fst (process_article_content W1 n title text model_name ai_filter_prompt)) ->
  let first := process_news_data W1 rss_urls1 existing_data model_name
                 days_limit1 ai_filter_prompt in
  let second := run W2 rss_urls2 (fst first) model_name days_limit2
                  ai_filter_prompt in
  new_items_count second = 0
  /\ (0 < updated_count second ->
      exists pre e post,
        all_valid_entries W2 rss_urls2 days_limit2 = pre ++ e :: post
        /\ exists item,
             dict_get (get_or (e_link e) [])
               (existing_items_map
                  (merge_loop W2 model_name ai_filter_prompt pre
                     (initial_state (fst first)))) = Some item
             /\ (needs_reprocess (a_summary item) = true
                 \/ a_timestamp item <> item_timestamp_iso W2 e)).
Proof.
  intros Hcand Hclean Hor. cbv zeta. split.
  - unfold run. rewrite merge_loop_no_new; [reflexivity|].
    intros e He. rewrite Hcand in He.
    destruct (merge_loop_present_or_irrelevant W1 model_name ai_filter_prompt
                _ (initial_state existing_data) e He) as [P|[n [P1 P2]]].
    + left. cbn [initial_state existing_items_map].
      apply dict_of_items_keys, output_links. exact P.
    + right. intros m. unfold oracle_irrelevant. cbv zeta.
      rewrite Hclean, (Hor n m). split; assumption.
  - intros Hpos. apply merge_loop_updated.
    fold (run W2 rss_urls2
            (fst (process_news_data W1 rss_urls1 existing_data model_name
                    days_limit1 ai_filter_prompt))
            model_name days_limit2 ai_filter_prompt).
    cbn [initial_state updated_count]. lia.
Qed.

Lemma C4_second_run_counts_witness :
  let first := process_news_data world_short [feed_url] []
                 (py "gpt-4o-mini") 3 None in
  let second := run world_short [feed_url] (fst first)
                  (py "gpt-4o-mini") 3 None in
  new_items_count second = 0
  /\ (0 < updated_count second ->
      exists pre e post,
        all_valid_entries world_short [feed_url] 3 = pre ++ e :: post
        /\ exists item,
             dict_get (get_or (e_link e) [])
               (existing_items_map
                  (merge_loop world_short (py "gpt-4o-mini") None pre
                     (initial_state (fst first)))) = Some item
             /\ (needs_reprocess (a_summary item) = true
                 \/ a_timestamp item <> item_timestamp_iso world_short e)).
Proof.
  apply (C4_second_run_counts world_short world_short [feed_url] [feed_url] []
           (py "gpt-4o-mini") 3 3 None);
    [reflexivity | reflexivity | intros n m title text; reflexivity].
Defined.

(* ================================================================= *)
(** ** The scheduler *)

Module SchedulerFacts.
Import Scheduler.

Lemma preserves_ret {A} (a : A) : preserves 0 (ret a).
Proof. intros s. split; reflexivity. Qed.

Lemma preserves_bind {A B} (j k : nat) (m : M A) (f : A -> M B) :
  preserves j m -> (forall a, preserves k (f a)) ->
  preserves (j + k) (bind m f).
Proof.
  intros Hm Hf s. unfold bind.
  specialize (Hm s). destruct (m s) as [a s1]. cbn [snd] in Hm.
  specialize (Hf a s1). destruct Hm as [A1 A2], Hf as [B1 B2].
  split; [congruence | lia].
Qed.

Lemma preserves_read_clock (E : Env) : preserves 1 (read_clock E).
Proof. intros s. split; reflexivity. Qed.

Lemma preserves_get_log_buffer : preserves 0 get_log_buffer.
Proof. intros s. split; reflexivity. Qed.

Lemma preserves_put_log_buffer (b : list (str * str)) :
  preserves 0 (put_log_buffer b).
Proof. intros s. split; reflexivity. Qed.

Lemma preserves_load (E : Env) {A} (file : Repo -> option A) (default : A) :
  preserves 0 (load_data_from_github E file default).
Proof. intros s. split; reflexivity. Qed.

(** Saving a file other than [stats.json]. *)
Lemma preserves_save (E : Env) (write : Repo -> Repo) :
  (forall r, stats_json (write r) = stats_json r) ->
  preserves 0 (save_data_to_github E write).
Proof.
  intros Hw s.
  unfold save_data_to_github, bind, github_op, get_repo, put_repo, ret.
  cbn [fst snd repo github_ops].
  destruct (github_ok E (github_ops s)); split; cbn; auto.
Qed.

Lemma preserves_save_logs (E : Env) (logs_data : Logs) :
  preserves 0 (save_logs_to_github E logs_data).
Proof. apply preserves_save. reflexivity. Qed.

Lemma preserves_remote_logger (E : Env) (msg : str) :
  preserves 1 (remote_logger E msg).
Proof.
  unfold remote_logger.
  apply (preserves_bind 1 0); [apply preserves_read_clock | intros t].
  apply (preserves_bind 0 0); [apply preserves_get_log_buffer | intros b].
  apply (preserves_bind 0 0); [apply preserves_put_log_buffer | intros _].
  destruct (_ || _ || _); [|apply preserves_ret].
  apply (preserves_bind 0 0); [apply preserves_save_logs | intros _].
  apply preserves_ret.
Qed.

Lemma preserves_log_all (E : Env) (msgs : list str) :
  preserves (List.length msgs) (log_all E msgs).
Proof.
  induction msgs as [|msg msgs IH]; [apply preserves_ret|].
  cbn [log_all List.length].
  apply (preserves_bind 1 (List.length msgs));
    [apply preserves_remote_logger | intros _; exact IH].
Qed.

Lemma preserves_report_changes (E : Env) (updated_news : list Article)
    (changes : Z) :
  preserves 1 (report_changes E updated_news changes).
Proof.
  unfold report_changes. destruct (0 <? changes).
  - apply (preserves_bind 0 1); [apply preserves_save; reflexivity | intros _].
    apply preserves_remote_logger.
  - apply preserves_remote_logger.
Qed.

Lemma preserves_finish_run (E : Env) : preserves 2 (finish_run E).
Proof.
  unfold finish_run.
  apply (preserves_bind 1 1); [apply preserves_remote_logger | intros _].
  apply (preserves_bind 1 0); [apply preserves_read_clock | intros t].
  apply (preserves_bind 0 0); [apply preserves_get_log_buffer | intros b].
  apply (preserves_bind 0 0); [apply preserves_save_logs | intros _].
  apply preserves_ret.
Qed.

(** The handler of a failed run writes the log file only. *)
Lemma preserves_on_error (E : Env) (e : str) : preserves 2 (on_error E e).
Proof.
  unfold on_error.
  apply (preserves_bind 1 1); [apply preserves_remote_logger | intros _].
  apply (preserves_bind 1 0); [apply preserves_read_clock | intros t].
  apply (preserves_bind 0 0); [apply preserves_get_log_buffer | intros b].
  apply (preserves_bind 0 0); [apply preserves_save_logs | intros _].
  apply preserves_ret.
Qed.

(** Lines 140-147: when the write goes through, [stats.json] holds the
    instant just read; when it fails, the file is as it was. *)
Lemma update_stats_spec (E : Env) (stats : Stats) (s : Sched) :
  let s' := snd (update_stats E stats s) in
  clock_reads s' = (2 + clock_reads s)%nat
  /\ if github_ok E (github_ops s)
     then exists stats',
            stats_json (repo s') = Some stats'
            /\ s_last_auto_scrape stats' = Some (now E (clock_reads s))
     else stats_json (repo s') = stats_json (repo s).
Proof.
  cbv zeta.
  unfold update_stats, save_data_to_github.
  cbv [bind read_clock github_op get_repo put_repo ret].
  cbn [fst snd repo github_ops clock_reads].
  destruct (github_ok E (github_ops s)); cbn; split; try reflexivity.
  eexists; split; reflexivity.
Qed.

Lemma bind_eq {A B} (m : M A) (f : A -> M B) (s : Sched) :
  bind m f s = f (fst (m s)) (snd (m s)).
Proof. unfold bind. destruct (m s); reflexivity. Qed.

(** An automatic run, from the state [s] in which it starts: a run whose
    pipeline raised leaves [stats.json] as it was; a run whose pipeline
    returned writes into it the instant read after the data was saved,
    unless that write fails. *)
Lemma auto_scrape_spec (E : Env) (config : Config) (stats : Stats) (s : Sched) :
  let msgs := fst (fst (auto_scrape E config stats s)) in
  let s' := snd (auto_scrape E config stats s) in
  match snd (fst (auto_scrape E config stats s)) with
  | Raised _ => stats_json (repo s') = stats_json (repo s)
  | Returned _ _ =>
      (exists k, github_ok E k = false
                 /\ stats_json (repo s') = stats_json (repo s))
      \/ (exists stats',
            stats_json (repo s') = Some stats'
            /\ s_last_auto_scrape stats'
               = Some (now E (2 + List.length msgs + clock_reads s)))
  end.
Proof.
  cbv zeta. unfold auto_scrape.
  rewrite !bind_eq.
  pose proof (preserves_put_log_buffer [] s) as P1.
  set (s1 := snd (put_log_buffer [] s)) in *.
  pose proof (preserves_remote_logger E
                (py "Starting automatic background collection...") s1) as P2.
  set (s2 := snd (remote_logger E _ s1)) in *.
  pose proof (preserves_load E news_data_json [] s2) as P3.
  set (s3 := snd (load_data_from_github E news_data_json [] s2)) in *.
  destruct (pipeline E _ _ _ _ _) as [msgs result].
  rewrite !bind_eq. cbn [ret fst snd].
  pose proof (preserves_log_all E msgs s3) as P4.
  set (s4 := snd (log_all E msgs s3)) in *.
  destruct P1 as [A1 B1], P2 as [A2 B2], P3 as [A3 B3], P4 as [A4 B4].
  destruct result as [e|updated_news changes].
  - destruct (preserves_on_error E e s4) as [A5 _]. congruence.
  - unfold after_run. rewrite !bind_eq.
    pose proof (preserves_report_changes E updated_news changes s4) as [A5 B5].
    set (s5 := snd (report_changes E updated_news changes s4)) in *.
    pose proof (update_stats_spec E stats s5) as [B6 A6]. cbv zeta in B6, A6.
    set (s6 := snd (update_stats E stats s5)) in *.
    destruct (preserves_finish_run E s6) as [A7 _].
    destruct (github_ok E (github_ops s5)) eqn:OK.
    + right. destruct A6 as (stats' & E1 & E2). exists stats'.
      split; [congruence|]. rewrite E2. do 2 f_equal. lia.
    + left. exists (github_ops s5). split; [exact OK | congruence].
Qed.

End SchedulerFacts.

(** C2, as stated, fails: a run is due and started, its pipeline raises,
    the failure is caught and logged; [stats.json] still holds the time
    of the run of the day before, which is no instant the clock gave
    during this iteration. *)
Lemma C2_counterexample :
  let res := Scheduler.scheduler_iteration env_raising
               (Scheduler.start repo_due) in
  fst res = Some ([py "Initializing..."], Scheduler.Raised (py "'link'"))
  /\ Scheduler.persisted_last_auto_scrape (Scheduler.repo (snd res))
     = Some a_day_before
  /\ forall k,
       Scheduler.persisted_last_auto_scrape (Scheduler.repo (snd res))
       <> Some (Scheduler.now env_raising k).
Proof.
  cbv zeta.
  assert (P : Scheduler.persisted_last_auto_scrape
                (Scheduler.repo
                   (snd (Scheduler.scheduler_iteration env_raising
                           (Scheduler.start repo_due))))
              = Some a_day_before) by (vm_compute; reflexivity).
  split; [vm_compute; reflexivity|]. split; [exact P|].
  intros k. rewrite P. intros H. inversion H as [H'].
  unfold a_day_before in H'. cbn [Scheduler.now env_raising env_with] in H'.
  unfold clock_from_run_time in H'. lia.
Qed.

(** C2, amended: when an iteration starts a run and the pipeline returns,
    the persisted [last_auto_scrape] is set to the instant read after the
    data was saved, provided the write of [stats.json] goes through,
    whatever becomes of the other writes; when that write is refused,
    [stats.json] is as it was.  When the pipeline raises and the failure
    is caught, [stats.json], and with it [last_auto_scrape], is left as
    it was. *)
Theorem C2_last_auto_scrape_after_run (E : Scheduler.Env) (r : Scheduler.Repo)
    (msgs : list str) (result : Scheduler.outcome) (s : Scheduler.Sched) :
  Scheduler.scheduler_iteration E (Scheduler.start r)
    = (Some (msgs, result), s) ->
  match result with
  | Scheduler.Returned _ _ =>
      (Scheduler.github_ok E (Scheduler.stats_write_op E r) = true ->
       Scheduler.persisted_last_auto_scrape (Scheduler.repo s)
       = Some (Scheduler.now E (3 + List.length msgs)))
      /\ (Scheduler.github_ok E (Scheduler.stats_write_op E r) = false ->
          Scheduler.stats_json (Scheduler.repo s) = Scheduler.stats_json r)
  | Scheduler.Raised _ =>
      Scheduler.stats_json (Scheduler.repo s) = Scheduler.stats_json r
      /\ Scheduler.persisted_last_auto_scrape (Scheduler.repo s)
         = Scheduler.persisted_last_auto_scrape r
  end.
Proof.
  unfold Scheduler.stats_write_op, Scheduler.until_update_stats,
    Scheduler.scheduler_iteration.
  rewrite !SchedulerFacts.bind_eq.
  pose proof (SchedulerFacts.preserves_load E Scheduler.config_json
                Scheduler.DEFAULT_CONFIG (Scheduler.start r)) as [A1 B1].
  set (s1 := snd (Scheduler.load_data_from_github E Scheduler.config_json _ _))
    in *.
  pose proof (SchedulerFacts.preserves_load E Scheduler.stats_json
                Scheduler.scheduler_default_stats s1) as [A2 B2].
  set (s2 := snd (Scheduler.load_data_from_github E Scheduler.stats_json _ s1))
    in *.
  set (stats := fst (Scheduler.load_data_from_github E Scheduler.stats_json
                       _ s1)) in *.
  pose proof (SchedulerFacts.preserves_read_clock E s2) as [A3 B3].
  set (s3 := snd (Scheduler.read_clock E s2)) in *.
  destruct (Scheduler.is_due _ _ _); [|discriminate].
  rewrite SchedulerFacts.bind_eq. unfold Scheduler.auto_scrape.
  rewrite !SchedulerFacts.bind_eq.
  pose proof (SchedulerFacts.preserves_put_log_buffer [] s3) as [A4 B4].
  set (s4 := snd (Scheduler.put_log_buffer [] s3)) in *.
  pose proof (SchedulerFacts.preserves_remote_logger E
                (py "Starting automatic background collection...") s4)
    as [A5 B5].
  set (s5 := snd (Scheduler.remote_logger E _ s4)) in *.
  pose proof (SchedulerFacts.preserves_load E Scheduler.news_data_json [] s5)
    as [A6 B6].
  set (s6 := snd (Scheduler.load_data_from_github E Scheduler.news_data_json
                    [] s5)) in *.
  destruct (Scheduler.pipeline E _ _ _ _ _) as [msgs' result'].
  rewrite !SchedulerFacts.bind_eq. cbn [Scheduler.ret fst snd].
  pose proof (SchedulerFacts.preserves_log_all E msgs' s6) as [A7 B7].
  set (s7 := snd (Scheduler.log_all E msgs' s6)) in *.
  intros H. inversion H as [[Hm Hr Hs]]. subst msgs' result'. clear H.
  assert (Hstats : Scheduler.stats_json (Scheduler.repo s7)
                   = Scheduler.stats_json r)
    by (rewrite A7, A6, A5, A4, A3, A2, A1; reflexivity).
  assert (Hclock : Scheduler.clock_reads s7 = (2 + List.length msgs)%nat)
    by (rewrite B7, B6, B5, B4, B3, B2, B1; cbn; lia).
  destruct result as [e|updated_news changes].
  - destruct (SchedulerFacts.preserves_on_error E e s7) as [A8 _].
    assert (Q : Scheduler.stats_json
                  (Scheduler.repo (snd (Scheduler.on_error E e s7)))
                = Scheduler.stats_json r) by congruence.
    split; [exact Q|].
    unfold Scheduler.persisted_last_auto_scrape. rewrite Q. reflexivity.
  - unfold Scheduler.after_run. rewrite !SchedulerFacts.bind_eq.
    pose proof (SchedulerFacts.preserves_report_changes E updated_news
                  changes s7) as [A8 B8].
    set (s8 := snd (Scheduler.report_changes E updated_news changes s7)) in *.
    pose proof (SchedulerFacts.update_stats_spec E stats s8) as [_ U].
    cbv zeta in U.
    set (s9 := snd (Scheduler.update_stats E stats s8)) in *.
    destruct (SchedulerFacts.preserves_finish_run E s9) as [A10 _].
    split; intros Hok; rewrite Hok in U.
    + destruct U as (stats' & U1 & U2).
      unfold Scheduler.persisted_last_auto_scrape.
      rewrite A10, U1, U2. do 2 f_equal. lia.
    + congruence.
Qed.

Lemma C2_last_auto_scrape_after_run_witness :
  (Scheduler.github_ok env_news_write_refused 3 = false
   /\ Scheduler.persisted_last_auto_scrape
        (Scheduler.repo
           (snd (Scheduler.scheduler_iteration env_news_write_refused
                   (Scheduler.start repo_due))))
      = Some (clock_from_run_time 5))
  /\ Scheduler.stats_json
       (Scheduler.repo
          (snd (Scheduler.scheduler_iteration env_stats_write_refused
                  (Scheduler.start repo_due))))
     = Scheduler.stats_json repo_due.
Proof.
  split; [split; [reflexivity|]|].
  - assert (Hrun : Scheduler.scheduler_iteration env_news_write_refused
                     (Scheduler.start repo_due)
                   = (Some ([py "Initializing..."; py "Fetching RSS feeds..."],
                            Scheduler.Returned
                              (fst (process_news_data world_boundary [feed_url]
                                      [] (py "gpt-4o-mini") 3 None)) 2),
                      snd (Scheduler.scheduler_iteration env_news_write_refused
                             (Scheduler.start repo_due))))
      by (vm_compute; reflexivity).
    apply (proj1 (C2_last_auto_scrape_after_run env_news_write_refused repo_due
                    _ _ _ Hrun)).
    vm_compute. reflexivity.
  - assert (Hrun : Scheduler.scheduler_iteration env_stats_write_refused
                     (Scheduler.start repo_due)
                   = (Some ([py "Initializing..."; py "Fetching RSS feeds..."],
                            Scheduler.Returned
                              (fst (process_news_data world_boundary [feed_url]
                                      [] (py "gpt-4o-mini") 3 None)) 2),
                      snd (Scheduler.scheduler_iteration env_stats_write_refused
                             (Scheduler.start repo_due))))
      by (vm_compute; reflexivity).
    apply (proj2 (C2_last_auto_scrape_after_run env_stats_write_refused repo_due
                    _ _ _ Hrun)).
    vm_compute. reflexivity.
Defined.

(* ================================================================= *)
(** * Further properties of the code *)

(* ================================================================= *)
(** ** process_article_content: cost and failures *)

Lemma retry_if_empty_calls (W : World) (n : nat) (openai_model sp up : str)
    (content : optstr) :
  (n <= snd (retry_if_empty W n openai_model sp up content) <= S n)%nat.
Proof.
  unfold retry_if_empty.
  destruct (_ || _); [|cbn; lia].
  destruct (negb _); [|cbn; lia].
  destruct (chat_completions_create W n gpt_4o_mini sp up); cbn; lia.
Qed.

Lemma obtain_content_calls (W : World) (n : nat) (openai_model sp up : str) :
  (S n <= snd (obtain_content W n openai_model sp up) <= n + 2)%nat.
Proof.
  unfold obtain_content.
  destruct (chat_completions_create W n openai_model sp up) as [msg|content].
  - destruct (chat_completions_create W (S n) gpt_4o_mini sp up)
      as [msg'|content]; [cbn; lia|].
    pose proof (retry_if_empty_calls W (S (S n)) gpt_4o_mini sp up content)
      as H.
    (* the fallback model is never asked a third time *)
    unfold retry_if_empty in *. rewrite eqb_refl in *. cbn [negb] in *.
    destruct (_ || _); cbn in *; lia.
  - pose proof (retry_if_empty_calls W (S n) openai_model sp up content). lia.
Qed.

(** The client calls of one call of [process_article_content]. *)
Lemma process_article_content_call_count (W : World) (n : nat)
    (title text model_name : str) (filter_prompt : optstr) :
  (n <= snd (process_article_content W n title text model_name filter_prompt)
   <= n + 2)%nat.
Proof.
  unfold process_article_content.
  destruct (truthy_opt (secrets_api_key W)); cbn [negb]; [|cbn; lia].
  destruct (contains (py "gemini") (lower model_name)); [cbn; lia|].
  cbv zeta.
  pose proof (obtain_content_calls W n (resolve_model model_name)
                (system_prompt (resolve_filter_prompt filter_prompt))
                (user_prompt title text)) as H.
  destruct (obtain_content _ _ _ _ _) as [[msg|content] n']; cbn [snd] in H.
  - cbn; lia.
  - destruct content as [[|c content]|]; try (cbn; lia).
    destruct (json_loads W (c :: content)) as [|data|ty]; try (cbn; lia).
    destruct (j_is_relevant data) as [[|]|]; cbn; lia.
Qed.

(** X1: one call of [process_article_content] asks the client at most
    twice (the model, then once the fallback model), and not at all when
    the API key is missing or a Gemini model is configured. *)
Theorem process_article_content_calls (W : World) (n : nat)
    (title text model_name : str) (filter_prompt : optstr) :
  (n <= snd (process_article_content W n title text model_name filter_prompt)
   <= n + 2)%nat
  /\ (truthy_opt (secrets_api_key W) = false
      \/ contains (py "gemini") (lower model_name) = true ->
      snd (process_article_content W n title text model_name filter_prompt) = n).
Proof.
  split; [apply process_article_content_call_count|].
  unfold process_article_content. intros [H|H].
  - rewrite H. reflexivity.
  - rewrite H. destruct (negb _); reflexivity.
Qed.

Lemma process_article_content_calls_witness :
  snd (process_article_content world_no_key 7 (py "GPT-5 released")
         (py "OpenAI announced a new model today.") (py "gpt-4o-mini") None)
  = 7%nat.
Proof.
  apply (proj2 (process_article_content_calls world_no_key 7
                  (py "GPT-5 released")
                  (py "OpenAI announced a new model today.")
                  (py "gpt-4o-mini") None)).
  left; reflexivity.
Defined.

Lemma startswith_prefix (p q : str) : startswith p (p ++ q) = true.
Proof.
  induction p as [|x p IH]; simpl; [reflexivity|].
  rewrite N.eqb_refl. exact IH.
Qed.

Lemma needs_reprocess_error (s : str) :
  startswith (py "Error") s = true -> needs_reprocess (Some s) = true.
Proof.
  intros H. rewrite needs_reprocess_spec, H.
  rewrite orb_true_r. reflexivity.
Qed.

Lemma needs_reprocess_error_using_ai_model (msg : str) :
  needs_reprocess (error_using_ai_model msg) = true.
Proof.
  apply needs_reprocess_error.
  change (py "Error using AI model: " ++ msg)
    with (py "Error" ++ (py " using AI model: " ++ msg)).
  apply startswith_prefix.
Qed.

(** X2: every failure of [process_article_content] is handed back as
    data that the next run retries: when the API key is missing, a Gemini
    model is configured, the client raises also on the fallback, the
    content stays empty, or the JSON is not an object, the result keeps
    the original title and carries a summary that [needs_reprocess]
    selects. *)
Theorem process_article_content_failures_are_retried (W : World) (n : nat)
    (title text model_name : str) (filter_prompt : optstr) :
  let got :=
    obtain_content W n (resolve_model model_name)
      (system_prompt (resolve_filter_prompt filter_prompt))
      (user_prompt title text) in
  truthy_opt (secrets_api_key W) = false
  \/ contains (py "gemini") (lower model_name) = true
  \/ (exists msg, fst got = inl msg)
  \/ (exists content, fst got = inr content /\ truthy_opt content = false)
  \/ (exists content type_name,
        fst got = inr (Some content) /\ truthy content = true
        /\ json_loads W content = JNotDict type_name) ->
  fst (fst (process_article_content W n title text model_name filter_prompt))
    = Some title
  /\ needs_reprocess
       (snd (fst (process_article_content W n title text model_name
                    filter_prompt))) = true.
Proof.
  cbv zeta. intros H. unfold process_article_content.
  destruct (truthy_opt (secrets_api_key W)); cbn [negb];
    [|split; reflexivity].
  destruct (contains (py "gemini") (lower model_name)); [split; reflexivity|].
  cbv zeta.
  destruct H as [H|[H|H]]; try discriminate.
  destruct (obtain_content _ _ _ _ _) as [got n']. cbn [fst] in H.
  destruct H as [(msg & ->)|[(content & -> & Hc)|(content & ty & -> & Hc & Hj)]].
  - split; [reflexivity | apply needs_reprocess_error_using_ai_model].
  - destruct content as [[|c content]|]; try discriminate; split; reflexivity.
  - destruct content as [|c content]; [discriminate|].
    rewrite Hj. split; [reflexivity | apply needs_reprocess_error_using_ai_model].
Qed.

Lemma process_article_content_failures_are_retried_witness :
  fst (fst (process_article_content world_no_key 0 (py "GPT-5 released")
              (py "OpenAI announced a new model today.") (py "gpt-4o-mini")
              None))
    = Some (py "GPT-5 released")
  /\ needs_reprocess
       (snd (fst (process_article_content world_no_key 0 (py "GPT-5 released")
                    (py "OpenAI announced a new model today.")
                    (py "gpt-4o-mini") None))) = true.
Proof.
  apply (process_article_content_failures_are_retried world_no_key 0
           (py "GPT-5 released") (py "OpenAI announced a new model today.")
           (py "gpt-4o-mini") None).
  left; reflexivity.
Defined.

(* ================================================================= *)
(** ** The first pass *)

(** X3: every entry the first pass hands on has a non-empty link, carries
    the URL of a configured feed as its source, and, when it is dated, is
    not older than [days_limit] days. *)
Theorem all_valid_entries_sound (W : World) (rss_urls : list str)
    (days_limit : Z) (x : Entry) :
  In x (all_valid_entries W rss_urls days_limit) ->
  truthy (get_or (e_link x) []) = true
  /\ (exists url, In url rss_urls /\ e_source_url x = Some url)
  /\ (forall t, published_struct x = Some t ->
        now_ts W - mktime W t <= days_limit * (24 * 3600)).
Proof.
  intros H. pose proof (all_valid_entries_valid _ _ _ _ H) as Hv.
  apply in_all_valid_entries in H.
  destruct H as (url & entry & Hu & _ & _ & ->).
  unfold entry_is_valid in Hv. cbv zeta in Hv.
  change (get_or (e_link (set_source_url url entry)) [])
    with (get_or (e_link entry) []) in *.
  change (published_struct (set_source_url url entry))
    with (published_struct entry) in *.
  destruct (truthy (get_or (e_link entry) [])); [|discriminate].
  split; [reflexivity|]. split; [exists url; split; [exact Hu | reflexivity]|].
  intros t Ht. rewrite Ht in Hv. cbn [negb] in Hv.
  destruct (Qgtb _ _) eqn:G; [discriminate|].
  apply not_true_iff_false in G. rewrite older_than_limit in G. lia.
Qed.

Lemma all_valid_entries_sound_witness :
  truthy (get_or (e_link (set_source_url feed_url entry_on_boundary)) []) = true
  /\ (exists url, In url [feed_url]
                  /\ e_source_url (set_source_url feed_url entry_on_boundary)
                     = Some url)
  /\ (forall t,
        published_struct (set_source_url feed_url entry_on_boundary) = Some t ->
        now_ts world_boundary - mktime world_boundary t <= 3 * (24 * 3600)).
Proof.
  apply (all_valid_entries_sound world_boundary [feed_url] 3
           (set_source_url feed_url entry_on_boundary)).
  left; reflexivity.
Defined.

(** X4: a feed whose parse raises contributes nothing and stops nothing:
    the candidates are those of the other feeds, in the same order. *)
Theorem failing_feed_is_skipped (W : World) (before after : list str)
    (url : str) (days_limit : Z) :
  feedparser_parse W url = None ->
  all_valid_entries W (before ++ url :: after) days_limit
  = all_valid_entries W (before ++ after) days_limit.
Proof.
  intros H. unfold all_valid_entries.
  rewrite !flat_map_app. cbn [flat_map].
  unfold fetch_rss_feed at 2. rewrite H. reflexivity.
Qed.

Lemma failing_feed_is_skipped_witness :
  all_valid_entries world_boundary
    ([feed_url] ++ py "https://example.com/gone.xml" :: []) 3
  = all_valid_entries world_boundary ([feed_url] ++ []) 3.
Proof.
  apply (failing_feed_is_skipped world_boundary [feed_url] []
           (py "https://example.com/gone.xml") 3).
  reflexivity.
Defined.

(** X5: a longer horizon never drops an entry a shorter one keeps. *)
Theorem longer_horizon_keeps_more (W : World) (rss_urls : list str)
    (days_limit days_limit' : Z) (x : Entry) :
  days_limit <= days_limit' ->
  In x (all_valid_entries W rss_urls days_limit) ->
  In x (all_valid_entries W rss_urls days_limit').
Proof.
  intros Hd H. apply in_all_valid_entries in H.
  destruct H as (url & entry & Hu & He & Hv & ->).
  apply in_all_valid_entries. exists url, entry.
  repeat split; try assumption.
  unfold entry_is_valid in *. cbv zeta in *.
  destruct (negb (truthy (get_or (e_link entry) []))); [discriminate|].
  destruct (published_struct entry) as [t|]; [|reflexivity].
  destruct (Qgtb (diff_days W (mktime W t)) (inject_Z days_limit)) eqn:G;
    [discriminate|].
  destruct (Qgtb (diff_days W (mktime W t)) (inject_Z days_limit')) eqn:G';
    [|reflexivity].
  apply not_true_iff_false in G. rewrite older_than_limit in G.
  apply older_than_limit in G'. lia.
Qed.

Lemma longer_horizon_keeps_more_witness :
  In (set_source_url feed_url entry_on_boundary)
     (all_valid_entries world_boundary [feed_url] 7).
Proof.
  apply (longer_horizon_keeps_more world_boundary [feed_url] 3 7
           (set_source_url feed_url entry_on_boundary)).
  - lia.
  - left; reflexivity.
Defined.

(* ================================================================= *)
(** ** The merge loop: what a run keeps, adds and counts *)

(** X6: a run deletes nothing: every link of the existing collection is
    the link of an article in the output. *)
Theorem existing_links_survive (W : World) (rss_urls : list str)
    (existing_data : list Article) (model_name : str) (days_limit : Z)
    (ai_filter_prompt : optstr) (k : str) :
  In k (List.map a_link existing_data) ->
  In k (List.map a_link
          (fst (process_news_data W rss_urls existing_data model_name
                  days_limit ai_filter_prompt))).
Proof.
  intros H. apply output_links. unfold run.
  apply merge_loop_keys_incl. cbn [initial_state existing_items_map].
  apply dict_of_items_keys, H.
Qed.

Lemma existing_links_survive_witness :
  In (py "https://example.com/old")
     (List.map a_link
        (fst (process_news_data world_boundary [feed_url] two_articles
                (py "gpt-4o-mini") 3 None))).
Proof.
  apply (existing_links_survive world_boundary [feed_url] two_articles
           (py "gpt-4o-mini") 3 None (py "https://example.com/old")).
  right; left; reflexivity.
Defined.

Lemma merge_loop_keys_inv (W : World) (model_name : str)
    (ai_filter_prompt : optstr) (entries : list Entry) (st : RunState)
    (k : str) :
  In k (dict_keys (existing_items_map
                     (merge_loop W model_name ai_filter_prompt entries st))) ->
  In k (dict_keys (existing_items_map st))
  \/ exists e, In e entries /\ get_or (e_link e) [] = k.
Proof.
  revert st; induction entries as [|x entries IH]; intros st H; simpl in H;
    [left; exact H|].
  apply IH in H. destruct H as [H|(e & He & Hk)].
  - apply process_entry_keys_inv in H. destruct H as [->|H]; [|left; exact H].
    right. exists x. split; [left|]; reflexivity.
  - right. exists e. split; [right; exact He | exact Hk].
Qed.

(** X7: a run invents nothing: every link in the output is a link of the
    existing collection or the link of a candidate entry of this run. *)
Theorem output_links_have_an_origin (W : World) (rss_urls : list str)
    (existing_data : list Article) (model_name : str) (days_limit : Z)
    (ai_filter_prompt : optstr) (k : str) :
  In k (List.map a_link
          (fst (process_news_data W rss_urls existing_data model_name
                  days_limit ai_filter_prompt))) ->
  In k (List.map a_link existing_data)
  \/ exists e, In e (all_valid_entries W rss_urls days_limit)
               /\ e_link e = Some k.
Proof.
  intros H. apply output_links in H. unfold run in H.
  apply merge_loop_keys_inv in H. destruct H as [H|(e & He & Hk)].
  - left. apply dict_of_items_keys. exact H.
  - right. exists e. split; [exact He|].
    pose proof (all_valid_entries_valid _ _ _ _ He) as Hv.
    unfold entry_is_valid in Hv. cbv zeta in Hv.
    destruct (e_link e) as [l|]; cbn in Hk, Hv |- *; [congruence | discriminate].
Qed.

Lemma output_links_have_an_origin_witness :
  In (py "https://example.com/a") (List.map a_link two_articles)
  \/ exists e, In e (all_valid_entries world_boundary [feed_url] 3)
               /\ e_link e = Some (py "https://example.com/a").
Proof.
  apply (output_links_have_an_origin world_boundary [feed_url] two_articles
           (py "gpt-4o-mini") 3 None (py "https://example.com/a")).
  vm_compute. right; left; reflexivity.
Defined.

Lemma dict_set_length_present (k : str) (v x : Article) (d : dict) :
  dict_get k d = Some x -> List.length (dict_set k v d) = List.length d.
Proof.
  intros H. pose proof (dict_keys_set_present k v x d H) as K.
  apply (f_equal (@List.length _)) in K. unfold dict_keys in K.
  rewrite !length_map in K. exact K.
Qed.

(** Per iteration: the collection grows by what the new-count grows, and
    the two counters together grow by at most one. *)
Lemma process_entry_counts (W : World) (model_name : str)
    (ai_filter_prompt : optstr) (st : RunState) (entry : Entry) :
  let st' := process_entry W model_name ai_filter_prompt st entry in
  Z.of_nat (List.length (existing_items_map st')) - new_items_count st'
  = Z.of_nat (List.length (existing_items_map st)) - new_items_count st
  /\ new_items_count st <= new_items_count st'
  /\ updated_count st <= updated_count st'
  /\ new_items_count st' + updated_count st'
     <= new_items_count st + updated_count st + 1.
Proof.
  cbv zeta.
  destruct (process_entry_cases W model_name ai_filter_prompt st entry)
    as [(-> & -> & ->)
       |[(v & G & -> & _ & -> & ->)|(item & v & G & -> & _ & -> & Hu)]].
  - lia.
  - rewrite (dict_set_absent _ _ _ G), length_app. cbn [List.length]. lia.
  - rewrite (dict_set_length_present _ _ _ _ G). lia.
Qed.

Lemma merge_loop_counts (W : World) (model_name : str)
    (ai_filter_prompt : optstr) (entries : list Entry) (st : RunState) :
  let st' := merge_loop W model_name ai_filter_prompt entries st in
  Z.of_nat (List.length (existing_items_map st')) - new_items_count st'
  = Z.of_nat (List.length (existing_items_map st)) - new_items_count st
  /\ new_items_count st <= new_items_count st'
  /\ updated_count st <= updated_count st'
  /\ new_items_count st' + updated_count st'
     <= new_items_count st + updated_count st
        + Z.of_nat (List.length entries).
Proof.
  cbv zeta. revert st; induction entries as [|x entries IH]; intros st.
  - cbn. lia.
  - rewrite merge_loop_cons.
    specialize (IH (process_entry W model_name ai_filter_prompt st x)).
    pose proof (process_entry_counts W model_name ai_filter_prompt st x) as P.
    cbv zeta in P. cbn [List.length]. lia.
Qed.

(** X8: the new-count is exactly the number of articles the run added:
    the output has as many articles as the link index of the existing
    collection plus the new-count. *)
Theorem new_count_is_growth (W : World) (rss_urls : list str)
    (existing_data : list Article) (model_name : str) (days_limit : Z)
    (ai_filter_prompt : optstr) :
  Z.of_nat (List.length
              (fst (process_news_data W rss_urls existing_data model_name
                      days_limit ai_filter_prompt)))
  = Z.of_nat (List.length (dict_of_items existing_data))
    + new_items_count
        (run W rss_urls existing_data model_name days_limit ai_filter_prompt).
Proof.
  unfold process_news_data. cbn [fst].
  rewrite (Permutation_length (sort_by_timestamp_desc_perm _)).
  unfold dict_values. rewrite length_map. unfold run.
  pose proof (merge_loop_counts W model_name ai_filter_prompt
                (all_valid_entries W rss_urls days_limit)
                (initial_state existing_data)) as P.
  cbv zeta in P. cbn [initial_state existing_items_map new_items_count] in P.
  lia.
Qed.

(** X9: the change count a run returns is never negative and never above
    the number of candidate entries; so a run without candidates reports
    no change. *)
Theorem total_changes_bounded (W : World) (rss_urls : list str)
    (existing_data : list Article) (model_name : str) (days_limit : Z)
    (ai_filter_prompt : optstr) :
  0 <= snd (process_news_data W rss_urls existing_data model_name days_limit
              ai_filter_prompt)
    <= Z.of_nat (List.length (all_valid_entries W rss_urls days_limit)).
Proof.
  unfold process_news_data. cbn [snd]. unfold run.
  pose proof (merge_loop_counts W model_name ai_filter_prompt
                (all_valid_entries W rss_urls days_limit)
                (initial_state existing_data)) as P.
  cbv zeta in P.
  cbn [initial_state existing_items_map new_items_count updated_count] in P.
  lia.
Qed.

(** Per iteration: at most one call of [process_article_content], hence
    at most two of the client. *)
Lemma process_entry_cost (W : World) (model_name : str)
    (ai_filter_prompt : optstr) (st : RunState) (entry : Entry) :
  let st' := process_entry W model_name ai_filter_prompt st entry in
  (List.length (oracle_calls st') <= S (List.length (oracle_calls st)))%nat
  /\ (api_calls st' <= api_calls st + 2)%nat.
Proof.
  cbv zeta. unfold process_entry, summarize.
  destruct (dict_get (get_or (e_link entry) []) (existing_items_map st))
    as [item|];
    [destruct (needs_reprocess (a_summary item))|];
    try (cbn; lia);
    (destruct (negb _ || _); [cbn; lia|]);
    match goal with
    | |- context [process_article_content W ?n ?t ?x ?m ?f] =>
        pose proof (process_article_content_call_count W n t x m f) as B;
        destruct (process_article_content W n t x m f) as [[[a|] [b|]] n']
    end; cbn in B |- *; lia.
Qed.

(** X10: a run calls [process_article_content] at most once per candidate
    entry, and the client at most twice per candidate entry. *)
Theorem oracle_cost_bounded (W : World) (rss_urls : list str)
    (existing_data : list Article) (model_name : str) (days_limit : Z)
    (ai_filter_prompt : optstr) :
  let st := run W rss_urls existing_data model_name days_limit
              ai_filter_prompt in
  let candidates := List.length (all_valid_entries W rss_urls days_limit) in
  (List.length (oracle_calls st) <= candidates)%nat
  /\ (api_calls st <= 2 * candidates)%nat.
Proof.
  cbv zeta. unfold run.
  assert (G : forall entries st0,
            (List.length (oracle_calls
                            (merge_loop W model_name ai_filter_prompt entries st0))
             <= List.length (oracle_calls st0) + List.length entries)%nat
            /\ (api_calls (merge_loop W model_name ai_filter_prompt entries st0)
                <= api_calls st0 + 2 * List.length entries)%nat).
  { induction entries as [|x entries IH]; intros st0; [cbn; lia|].
    rewrite merge_loop_cons.
    specialize (IH (process_entry W model_name ai_filter_prompt st0 x)).
    pose proof (process_entry_cost W model_name ai_filter_prompt st0 x) as P.
    cbv zeta in P. cbn [List.length]. lia. }
  specialize (G (all_valid_entries W rss_urls days_limit)
                (initial_state existing_data)).
  cbn [initial_state oracle_calls api_calls List.length] in G. lia.
Qed.

(** An iteration keeps the identifier, the source and the link of every
    article already in the collection. *)
Lemma process_entry_keeps_identity (W : World) (model_name : str)
    (ai_filter_prompt : optstr) (st : RunState) (entry : Entry) (k : str)
    (a : Article) :
  dict_get k (existing_items_map st) = Some a ->
  exists a',
    dict_get k (existing_items_map
                  (process_entry W model_name ai_filter_prompt st entry))
    = Some a'
    /\ a_id a' = a_id a /\ a_source a' = a_source a /\ a_link a' = a_link a.
Proof.
  intros G.
  destruct (eqb (get_or (e_link entry) []) k) eqn:E.
  2:{ apply eqb_neq in E. exists a.
      rewrite process_entry_other_link by exact E. auto. }
  apply eqb_eq in E. subst k.
  unfold process_entry, summarize. rewrite G.
  destruct (needs_reprocess (a_summary a)).
  - destruct (negb _ || _).
    + cbv beta iota. cbn [existing_items_map].
      rewrite dict_get_set_same. eexists. split; [reflexivity|]. auto.
    + destruct (process_article_content _ _ _ _ _ _) as [[[t|] [s|]] n'];
        cbv beta iota; cbn [existing_items_map];
        try (rewrite dict_get_set_same; eexists; split; [reflexivity|]; auto).
      exists a. auto.
  - cbv beta iota. cbn [existing_items_map].
    rewrite dict_get_set_same. eexists. split; [reflexivity|]. auto.
Qed.

Lemma merge_loop_keeps_identity (W : World) (model_name : str)
    (ai_filter_prompt : optstr) (entries : list Entry) (st : RunState)
    (k : str) (a : Article) :
  dict_get k (existing_items_map st) = Some a ->
  exists a',
    dict_get k (existing_items_map
                  (merge_loop W model_name ai_filter_prompt entries st))
    = Some a'
    /\ a_id a' = a_id a /\ a_source a' = a_source a /\ a_link a' = a_link a.
Proof.
  revert st a; induction entries as [|x entries IH]; intros st a G.
  - exists a. auto.
  - rewrite merge_loop_cons.
    destruct (process_entry_keeps_identity W model_name ai_filter_prompt st x
                k a G) as (a1 & G1 & I1 & S1 & L1).
    destruct (IH _ _ G1) as (a2 & G2 & I2 & S2 & L2).
    exists a2. repeat split; congruence.
Qed.

Lemma dict_of_items_acc_get_other (l : list Article) (d : dict) (k : str) :
  ~ In k (List.map a_link l) ->
  dict_get k (fold_left (fun d item => dict_set (a_link item) item d) l d)
  = dict_get k d.
Proof.
  revert d; induction l as [|x l IH]; intros d H; simpl; [reflexivity|].
  simpl in H. rewrite IH by tauto.
  apply dict_get_set_other. intros E. apply H. left. congruence.
Qed.

(** With distinct links, the index of line 132 holds every article. *)
Lemma dict_of_items_get (existing_data : list Article) (a : Article) :
  NoDup (List.map a_link existing_data) ->
  In a existing_data ->
  dict_get (a_link a) (dict_of_items existing_data) = Some a.
Proof.
  unfold dict_of_items. generalize (@nil (str * Article)) as d.
  induction existing_data as [|x l IH]; intros d Hn Hin; [destruct Hin|].
  simpl in Hn. inversion Hn as [|? ? Hx Hl]; subst. simpl.
  destruct Hin as [->|Hin].
  - rewrite dict_of_items_acc_get_other by exact Hx.
    apply dict_get_set_same.
  - apply IH; assumption.
Qed.

(** X11: identifiers and sources are set once: for an existing
    collection with distinct links, every article of it is found in the
    output under the same link with the same [id] and [source]. *)
Theorem identity_is_stable (W : World) (rss_urls : list str)
    (existing_data : list Article) (model_name : str) (days_limit : Z)
    (ai_filter_prompt : optstr) (a : Article) :
  NoDup (List.map a_link existing_data) ->
  In a existing_data ->
  exists a',
    In a' (fst (process_news_data W rss_urls existing_data model_name
                  days_limit ai_filter_prompt))
    /\ a_link a' = a_link a /\ a_id a' = a_id a /\ a_source a' = a_source a.
Proof.
  intros Hn Hin.
  pose proof (dict_of_items_get existing_data a Hn Hin) as G.
  destruct (merge_loop_keeps_identity W model_name ai_filter_prompt
              (all_valid_entries W rss_urls days_limit)
              (initial_state existing_data) (a_link a) a G)
    as (a' & G' & I & S & L).
  exists a'. repeat split; try assumption.
  unfold process_news_data. cbn [fst].
  eapply Permutation_in; [symmetry; apply sort_by_timestamp_desc_perm|].
  apply dict_get_Some_In in G'. apply (in_map snd) in G'. exact G'.
Qed.

Lemma identity_is_stable_witness :
  exists a',
    In a' (fst (process_news_data world_boundary [feed_url] two_articles
                  (py "gpt-4o-mini") 3 None))
    /\ a_link a' = a_link article_first_seen
    /\ a_id a' = a_id article_first_seen
    /\ a_source a' = a_source article_first_seen.
Proof.
  apply (identity_is_stable world_boundary [feed_url] two_articles
           (py "gpt-4o-mini") 3 None article_first_seen).
  - repeat constructor; cbn; intuition discriminate.
  - left; reflexivity.
Defined.

(** X12: an article whose summary the heuristic accepts is not touched
    by a new sighting beyond its times: the Oracle is not called, and the
    article keeps title, summary, identifier, source and link, while its
    timestamp and date are set from the entry. *)
Theorem translated_article_only_refreshed (W : World) (model_name : str)
    (ai_filter_prompt : optstr) (st : RunState) (entry : Entry)
    (item : Article) :
  dict_get (get_or (e_link entry) []) (existing_items_map st) = Some item ->
  needs_reprocess (a_summary item) = false ->
  let st' := process_entry W model_name ai_filter_prompt st entry in
  oracle_calls st' = oracle_calls st
  /\ api_calls st' = api_calls st
  /\ new_items_count st' = new_items_count st
  /\ dict_get (get_or (e_link entry) []) (existing_items_map st')
     = Some {| a_id := a_id item;
               a_date := item_date_str W entry;
               a_timestamp := item_timestamp_iso W entry;
               a_title := a_title item;
               a_source := a_source item;
               a_summary := a_summary item;
               a_link := a_link item |}.
Proof.
  intros G R. cbv zeta. unfold process_entry, summarize. rewrite G, R.
  cbv beta iota.
  cbn [oracle_calls api_calls new_items_count existing_items_map].
  rewrite dict_get_set_same. repeat split.
Qed.

Lemma translated_article_only_refreshed_witness :
  let st := initial_state two_articles in
  let entry :=
    set_source_url feed_url
      (entry_at "https://example.com/old"
         (Some (Example.st 2024 3 4 9 0 0)) long_body) in
  let st' := process_entry world_boundary (py "gpt-4o-mini") None st entry in
  oracle_calls st' = oracle_calls st
  /\ api_calls st' = api_calls st
  /\ new_items_count st' = new_items_count st
  /\ dict_get (get_or (e_link entry) []) (existing_items_map st')
     = Some {| a_id := a_id article_second;
               a_date := item_date_str world_boundary entry;
               a_timestamp := item_timestamp_iso world_boundary entry;
               a_title := a_title article_second;
               a_source := a_source article_second;
               a_summary := a_summary article_second;
               a_link := a_link article_second |}.
Proof.
  cbv zeta.
  apply (translated_article_only_refreshed world_boundary (py "gpt-4o-mini")
           None (initial_state two_articles)
           (set_source_url feed_url
              (entry_at "https://example.com/old"
                 (Some (Example.st 2024 3 4 9 0 0)) long_body))
           article_second); reflexivity.
Defined.

(** X13: unless line 232 skips the entry, the iteration leaves under the
    entry's link an article whose timestamp and date are the entry's:
    the feed's publication time when it has one, and the time of the run
    otherwise. *)
Theorem sighting_sets_times (W : World) (model_name : str)
    (ai_filter_prompt : optstr) (st : RunState) (entry : Entry) :
  ~ (selected_for_processing st entry = true
     /\ oracle_irrelevant W model_name ai_filter_prompt (api_calls st) entry) ->
  exists item,
    dict_get (get_or (e_link entry) [])
      (existing_items_map
         (process_entry W model_name ai_filter_prompt st entry)) = Some item
    /\ a_timestamp item = item_timestamp_iso W entry
    /\ a_date item = item_date_str W entry
    /\ (published_struct entry = None ->
        a_timestamp item = current_time_iso W /\ a_date item = today_str W).
Proof.
  intros Hskip.
  assert (T : forall item,
            a_timestamp item = item_timestamp_iso W entry ->
            a_date item = item_date_str W entry ->
            published_struct entry = None ->
            a_timestamp item = current_time_iso W /\ a_date item = today_str W).
  { intros item -> -> Hp. unfold item_timestamp_iso, item_date_str, item_times.
    rewrite Hp. split; reflexivity. }
  unfold selected_for_processing, oracle_irrelevant in Hskip. cbv zeta in Hskip.
  unfold process_entry, summarize.
  destruct (dict_get (get_or (e_link entry) []) (existing_items_map st))
    as [curr|].
  - destruct (needs_reprocess (a_summary curr)).
    + destruct (negb (truthy (clean_html W (summary_text_of entry)))
                || (len (clean_html W (summary_text_of entry)) <? 20)) eqn:L.
      * cbv beta iota. cbn [existing_items_map].
        rewrite dict_get_set_same. eexists. split; [reflexivity|].
        split; [reflexivity|]. split; [reflexivity|]. apply T; reflexivity.
      * apply orb_false_iff in L. destruct L as [_ L]. apply Z.ltb_ge in L.
        destruct (process_article_content _ _ _ _ _ _) as [[[t|] [s|]] n'];
          cbv beta iota; cbn [existing_items_map];
          try (rewrite dict_get_set_same; eexists; split; [reflexivity|];
               split; [reflexivity|]; split; [reflexivity|];
               apply T; reflexivity).
        exfalso. apply Hskip. split; [reflexivity|]. split; [exact L|reflexivity].
    + cbv beta iota. cbn [existing_items_map].
      rewrite dict_get_set_same. eexists. split; [reflexivity|].
      split; [reflexivity|]. split; [reflexivity|]. apply T; reflexivity.
  - destruct (negb (truthy (clean_html W (summary_text_of entry)))
              || (len (clean_html W (summary_text_of entry)) <? 20)) eqn:L.
    + cbv beta iota. cbn [existing_items_map].
      rewrite dict_get_set_same. eexists. split; [reflexivity|].
      split; [reflexivity|]. split; [reflexivity|]. apply T; reflexivity.
    + apply orb_false_iff in L. destruct L as [_ L]. apply Z.ltb_ge in L.
      destruct (process_article_content _ _ _ _ _ _) as [[[t|] [s|]] n'];
        cbv beta iota; cbn [existing_items_map];
        try (rewrite dict_get_set_same; eexists; split; [reflexivity|];
             split; [reflexivity|]; split; [reflexivity|];
             apply T; reflexivity).
      exfalso. apply Hskip. split; [reflexivity|]. split; [exact L|reflexivity].
Qed.

Lemma sighting_sets_times_witness :
  exists item,
    dict_get (py "https://example.com/c")
      (existing_items_map
         (process_entry world_boundary (py "gpt-4o-mini") None
            (initial_state []) (set_source_url feed_url entry_undated)))
    = Some item
    /\ a_timestamp item
       = item_timestamp_iso world_boundary
           (set_source_url feed_url entry_undated)
    /\ a_date item
       = item_date_str world_boundary (set_source_url feed_url entry_undated)
    /\ (published_struct (set_source_url feed_url entry_undated) = None ->
        a_timestamp item = current_time_iso world_boundary
        /\ a_date item = today_str world_boundary).
Proof.
  apply (sighting_sets_times world_boundary (py "gpt-4o-mini") None
           (initial_state []) (set_source_url feed_url entry_undated)).
  intros [_ [_ H]]. vm_compute in H. discriminate.
Defined.

(* ================================================================= *)
(** ** The scheduler: when it runs and what it writes *)

Module SchedulerMore.
Import Scheduler SchedulerFacts.

(** The comparison of line 91, in microseconds. *)
Lemma total_seconds_gt (t last_run interval_sec : Z) :
  Qgtb (total_seconds t last_run) (inject_Z interval_sec) = true
  <-> interval_sec * 1000000 < t - last_run.
Proof.
  unfold Qgtb. rewrite negb_true_iff, <- not_true_iff_false, Qle_bool_iff.
  unfold total_seconds, Qle, Qdiv, Qmult, Qinv, inject_Z. simpl. lia.
Qed.

Lemma save_ok_repo (E : Env) (write : Repo -> Repo) (s : Sched) :
  github_ok E (github_ops s) = true ->
  repo (snd (save_data_to_github E write s)) = write (repo s).
Proof.
  intros H. unfold save_data_to_github.
  cbv [bind github_op get_repo put_repo ret].
  cbn [fst snd repo github_ops]. rewrite H. reflexivity.
Qed.

Lemma save_repo_cases (E : Env) (write : Repo -> Repo) (s : Sched) :
  repo (snd (save_data_to_github E write s)) = write (repo s)
  \/ repo (snd (save_data_to_github E write s)) = repo s.
Proof.
  unfold save_data_to_github.
  cbv [bind github_op get_repo put_repo ret].
  cbn [fst snd repo github_ops].
  destruct (github_ok E (github_ops s)); [left | right]; reflexivity.
Qed.

Lemma length_last_n {A} (n : nat) (l : list A) :
  (List.length (last_n n l) <= n)%nat.
Proof. unfold last_n. rewrite length_skipn. lia. Qed.

Section RepoInvariant.

Variable E : Env.
Variable J : Repo -> Prop.
Hypothesis J_logs :
  forall l r, (List.length (l_logs l) <= 50)%nat -> J r -> J (write_logs l r).
Hypothesis J_stats : forall d r, J r -> J (write_stats d r).

Lemma keeps_ret {A} (a : A) : keeps_repo J (ret a).
Proof. intros s H. exact H. Qed.

Lemma keeps_bind {A B} (m : M A) (f : A -> M B) :
  keeps_repo J m -> (forall a, keeps_repo J (f a)) -> keeps_repo J (bind m f).
Proof.
  intros Hm Hf s H. rewrite bind_eq. apply Hf, Hm, H.
Qed.

Lemma keeps_read_clock : keeps_repo J (read_clock E).
Proof. intros s H. exact H. Qed.

Lemma keeps_get_log_buffer : keeps_repo J get_log_buffer.
Proof. intros s H. exact H. Qed.

Lemma keeps_put_log_buffer (b : list (str * str)) :
  keeps_repo J (put_log_buffer b).
Proof. intros s H. exact H. Qed.

Lemma keeps_load {A} (file : Repo -> option A) (default : A) :
  keeps_repo J (load_data_from_github E file default).
Proof. intros s H. exact H. Qed.

Lemma keeps_save (write : Repo -> Repo) :
  (forall r, J r -> J (write r)) ->
  keeps_repo J (save_data_to_github E write).
Proof.
  intros Hw s H.
  destruct (save_repo_cases E write s) as [-> | ->]; auto.
Qed.

Lemma keeps_save_logs (l : Logs) :
  (List.length (l_logs l) <= 50)%nat ->
  keeps_repo J (save_logs_to_github E l).
Proof. intros Hl. apply keeps_save. intros r. apply J_logs, Hl. Qed.

Lemma keeps_remote_logger (msg : str) : keeps_repo J (remote_logger E msg).
Proof.
  unfold remote_logger.
  apply keeps_bind; [apply keeps_read_clock | intros t].
  apply keeps_bind; [apply keeps_get_log_buffer | intros b].
  apply keeps_bind; [apply keeps_put_log_buffer | intros _].
  destruct (_ || _ || _); [|apply keeps_ret].
  apply keeps_bind; [|intros _; apply keeps_ret].
  apply keeps_save_logs. cbn [l_logs].
  pose proof (length_last_n 20 (b ++ [(strftime_log E t, msg)])). lia.
Qed.

Lemma keeps_log_all (msgs : list str) : keeps_repo J (log_all E msgs).
Proof.
  induction msgs as [|msg msgs IH]; [apply keeps_ret|].
  cbn [log_all]. apply keeps_bind; [apply keeps_remote_logger | intros _; exact IH].
Qed.

Lemma keeps_on_error (e : str) : keeps_repo J (on_error E e).
Proof.
  unfold on_error.
  apply keeps_bind; [apply keeps_remote_logger | intros _].
  apply keeps_bind; [apply keeps_read_clock | intros t].
  apply keeps_bind; [apply keeps_get_log_buffer | intros b].
  apply keeps_bind; [|intros _; apply keeps_ret].
  apply keeps_save_logs. cbn [l_logs].
  pose proof (length_last_n 20 b). lia.
Qed.

Lemma keeps_finish_run : keeps_repo J (finish_run E).
Proof.
  unfold finish_run.
  apply keeps_bind; [apply keeps_remote_logger | intros _].
  apply keeps_bind; [apply keeps_read_clock | intros t].
  apply keeps_bind; [apply keeps_get_log_buffer | intros b].
  apply keeps_bind; [|intros _; apply keeps_ret].
  apply keeps_save_logs. cbn [l_logs]. apply length_last_n.
Qed.

Lemma keeps_update_stats (stats : Stats) : keeps_repo J (update_stats E stats).
Proof.
  unfold update_stats.
  apply keeps_bind; [apply keeps_read_clock | intros t].
  apply keeps_bind; [apply keeps_read_clock | intros d].
  apply keeps_save. intros r. apply J_stats.
Qed.

Lemma keeps_report_changes (updated_news : list Article) (changes : Z) :
  (0 < changes -> forall r, J r -> J (write_news updated_news r)) ->
  keeps_repo J (report_changes E updated_news changes).
Proof.
  intros Hn. unfold report_changes.
  destruct (0 <? changes) eqn:C; [|apply keeps_remote_logger].
  apply Z.ltb_lt in C.
  apply keeps_bind; [apply keeps_save, Hn, C | intros _].
  apply keeps_remote_logger.
Qed.

Lemma keeps_after_run (stats : Stats) (updated_news : list Article)
    (changes : Z) :
  (0 < changes -> forall r, J r -> J (write_news updated_news r)) ->
  keeps_repo J (after_run E stats updated_news changes).
Proof.
  intros Hn. unfold after_run.
  apply keeps_bind; [apply keeps_report_changes, Hn | intros _].
  apply keeps_bind; [apply keeps_update_stats | intros _].
  apply keeps_finish_run.
Qed.

(** The run up to the end of the pipeline. *)
Lemma keeps_auto_scrape (config : Config) (stats : Stats) :
  (forall d r, J r -> J (write_news d r)) ->
  keeps_repo J (auto_scrape E config stats).
Proof.
  intros Hn. unfold auto_scrape.
  apply keeps_bind; [apply keeps_put_log_buffer | intros _].
  apply keeps_bind; [apply keeps_remote_logger | intros _].
  apply keeps_bind; [apply keeps_load | intros news_data].
  destruct (pipeline E _ _ _ _ _) as [msgs result].
  apply keeps_bind; [apply keeps_log_all | intros _].
  apply keeps_bind; [|intros _; apply keeps_ret].
  destruct result as [e|updated_news changes];
    [apply keeps_on_error | apply keeps_after_run].
  intros _. apply Hn.
Qed.

Lemma keeps_scheduler_iteration :
  (forall d r, J r -> J (write_news d r)) ->
  keeps_repo J (scheduler_iteration E).
Proof.
  intros Hn. unfold scheduler_iteration.
  apply keeps_bind; [apply keeps_load | intros config].
  apply keeps_bind; [apply keeps_load | intros stats].
  apply keeps_bind; [apply keeps_read_clock | intros t].
  destruct (is_due config stats t); [|apply keeps_ret].
  apply keeps_bind; [apply keeps_auto_scrape, Hn | intros done].
  apply keeps_ret.
Qed.

End RepoInvariant.

End SchedulerMore.

(** No run is due unless the configuration enables it. *)
Lemma is_due_enabled (config : Scheduler.Config) (stats : Scheduler.Stats)
    (t : Scheduler.Time) :
  Scheduler.is_due config stats t = true ->
  Scheduler.c_enable_auto_scrape config = Some true.
Proof.
  unfold Scheduler.is_due. cbv zeta.
  destruct (Scheduler.c_enable_auto_scrape config) as [[|]|];
    [reflexivity | discriminate | discriminate].
Qed.

(** X14: a run is due exactly when the automatic run is enabled and more
    than the interval (180 minutes when not configured) has passed since
    the last recorded run (2000-01-01 when none is recorded): at exactly
    the interval it is not yet due. *)
Theorem is_due_iff (config : Scheduler.Config) (stats : Scheduler.Stats)
    (t : Scheduler.Time) :
  Scheduler.is_due config stats t = true
  <-> Scheduler.c_enable_auto_scrape config = Some true
      /\ match Scheduler.c_update_interval_minutes config with
         | Some m => m
         | None => 180
         end * 60 * 1000000
         < t - match Scheduler.s_last_auto_scrape stats with
               | Some l => l
               | None => 946684800 * 1000000
               end.
Proof.
  unfold Scheduler.is_due. cbv zeta.
  rewrite andb_true_iff, SchedulerMore.total_seconds_gt.
  unfold Scheduler.epoch_2000.
  destruct (Scheduler.c_enable_auto_scrape config) as [[|]|];
    split; intros [H1 H2]; split; try reflexivity; try discriminate;
    try exact H2.
Qed.

Lemma is_due_iff_witness :
  Scheduler.is_due config_loaded stats_loaded
    (a_day_before + 180 * 60 * 1000000) = false
  /\ Scheduler.is_due config_loaded stats_loaded
       (a_day_before + 180 * 60 * 1000000 + 1) = true.
Proof.
  split.
  - apply not_true_iff_false. intros H.
    apply (proj1 (is_due_iff config_loaded stats_loaded _)) in H.
    cbn in H. lia.
  - apply (proj2 (is_due_iff config_loaded stats_loaded _)).
    cbn. split; [reflexivity | lia].
Defined.

(** X15: an iteration that starts no run writes nothing; and no run is
    started when [config.json] cannot be read, is missing, or does not
    enable the automatic run. *)
Theorem no_run_no_write (E : Scheduler.Env) (r : Scheduler.Repo) :
  (fst (Scheduler.scheduler_iteration E (Scheduler.start r)) = None ->
   Scheduler.repo (snd (Scheduler.scheduler_iteration E (Scheduler.start r)))
   = r)
  /\ (Scheduler.github_ok E 0 = false
      \/ Scheduler.config_json r = None
      \/ (exists c, Scheduler.config_json r = Some c
                    /\ Scheduler.c_enable_auto_scrape c <> Some true) ->
      fst (Scheduler.scheduler_iteration E (Scheduler.start r)) = None).
Proof.
  unfold Scheduler.scheduler_iteration.
  rewrite !SchedulerFacts.bind_eq.
  set (s1 := snd (Scheduler.load_data_from_github E Scheduler.config_json _ _)).
  set (config := fst (Scheduler.load_data_from_github E Scheduler.config_json
                        _ _)).
  set (s2 := snd (Scheduler.load_data_from_github E Scheduler.stats_json _ s1)).
  set (stats := fst (Scheduler.load_data_from_github E Scheduler.stats_json
                       _ s1)).
  set (s3 := snd (Scheduler.read_clock E s2)).
  set (t := fst (Scheduler.read_clock E s2)).
  split.
  - destruct (Scheduler.is_due config stats t).
    + rewrite SchedulerFacts.bind_eq. discriminate.
    + intros _. reflexivity.
  - intros H.
    assert (D : Scheduler.c_enable_auto_scrape config <> Some true).
    { unfold config, Scheduler.load_data_from_github.
      cbv [Scheduler.bind Scheduler.github_op Scheduler.get_repo Scheduler.ret].
      cbn [fst snd Scheduler.repo Scheduler.github_ops Scheduler.start].
      destruct H as [H|[H|(c & H & Hc)]].
      - rewrite H. discriminate.
      - rewrite H. destruct (Scheduler.github_ok E 0); discriminate.
      - rewrite H. destruct (Scheduler.github_ok E 0); [exact Hc | discriminate]. }
    destruct (Scheduler.is_due config stats t) eqn:Due; [|reflexivity].
    apply is_due_enabled in Due. contradiction.
Qed.

Lemma no_run_no_write_witness :
  fst (Scheduler.scheduler_iteration env_offline (Scheduler.start repo_due))
  = None
  /\ Scheduler.repo
       (snd (Scheduler.scheduler_iteration env_offline
               (Scheduler.start repo_due))) = repo_due.
Proof.
  assert (N : fst (Scheduler.scheduler_iteration env_offline
                     (Scheduler.start repo_due)) = None)
    by (apply (proj2 (no_run_no_write env_offline repo_due));
        left; reflexivity).
  split; [exact N|].
  apply (proj1 (no_run_no_write env_offline repo_due) N).
Defined.

Module SchedulerRun.
Import Scheduler SchedulerFacts SchedulerMore.

(** A started run is [auto_scrape], entered with the repository as the
    iteration found it. *)
Lemma started_run_inv (E : Env) (r : Repo) (msgs : list str) (result : outcome)
    (s : Sched) :
  scheduler_iteration E (start r) = (Some (msgs, result), s) ->
  exists config stats s3,
    repo s3 = r /\ auto_scrape E config stats s3 = ((msgs, result), s).
Proof.
  intros H. unfold scheduler_iteration in H. rewrite !bind_eq in H.
  destruct (is_due _ _ _); [|discriminate].
  rewrite bind_eq in H. unfold ret in H.
  match type of H with
  | (Some (fst (auto_scrape E ?c ?st ?s3)), _) = _ =>
      exists c, st, s3; split; [reflexivity|];
      destruct (auto_scrape E c st s3) as [[msgs' result'] s']
  end.
  cbn [fst snd] in H. inversion H. reflexivity.
Qed.

Lemma news_is_logs (v : option (list Article)) (l : Logs) (r : Repo) :
  (List.length (l_logs l) <= 50)%nat -> news_is v r -> news_is v (write_logs l r).
Proof. intros _ H. exact H. Qed.

Lemma news_is_stats (v : option (list Article)) (d : Stats) (r : Repo) :
  news_is v r -> news_is v (write_stats d r).
Proof. intros H. exact H. Qed.

Lemma report_changes_news (E : Env) (updated_news : list Article) (changes : Z)
    (s : Sched) :
  news_data_json (repo (snd (report_changes E updated_news changes s)))
  = news_data_json (repo s)
  \/ (0 < changes
      /\ news_data_json (repo (snd (report_changes E updated_news changes s)))
         = Some updated_news).
Proof.
  unfold report_changes. destruct (0 <? changes) eqn:C.
  - apply Z.ltb_lt in C. rewrite bind_eq.
    destruct (save_repo_cases E (write_news updated_news) s) as [W|W].
    + right. split; [exact C|].
      apply (keeps_remote_logger E (news_is (Some updated_news))
               (news_is_logs _)).
      unfold news_is. rewrite W. reflexivity.
    + left.
      apply (keeps_remote_logger E (news_is (news_data_json (repo s)))
               (news_is_logs _)).
      unfold news_is. rewrite W. reflexivity.
  - left.
    apply (keeps_remote_logger E (news_is (news_data_json (repo s)))
             (news_is_logs _)).
    reflexivity.
Qed.

Lemma auto_scrape_news (E : Env) (config : Config) (stats : Stats) (s : Sched) :
  let s' := snd (auto_scrape E config stats s) in
  match snd (fst (auto_scrape E config stats s)) with
  | Raised _ => news_data_json (repo s') = news_data_json (repo s)
  | Returned updated_news changes =>
      news_data_json (repo s') = news_data_json (repo s)
      \/ (0 < changes /\ news_data_json (repo s') = Some updated_news)
  end.
Proof.
  cbv zeta. unfold auto_scrape. rewrite !bind_eq.
  set (v := news_data_json (repo s)).
  assert (P1 : news_is v (repo (snd (put_log_buffer [] s)))) by reflexivity.
  set (s1 := snd (put_log_buffer [] s)) in *.
  pose proof (keeps_remote_logger E (news_is v) (news_is_logs v)
                (py "Starting automatic background collection...") s1 P1) as P2.
  set (s2 := snd (remote_logger E _ s1)) in *.
  assert (P3 : news_is v (repo (snd (load_data_from_github E news_data_json
                                       [] s2)))) by exact P2.
  set (s3 := snd (load_data_from_github E news_data_json [] s2)) in *.
  destruct (pipeline E _ _ _ _ _) as [msgs result].
  rewrite !bind_eq. cbn [ret fst snd].
  pose proof (keeps_log_all E (news_is v) (news_is_logs v) msgs s3 P3) as P4.
  set (s4 := snd (log_all E msgs s3)) in *.
  destruct result as [e|updated_news changes].
  - exact (keeps_on_error E (news_is v) (news_is_logs v) e s4 P4).
  - unfold after_run. rewrite !bind_eq.
    destruct (report_changes_news E updated_news changes s4) as [R|[C R]].
    + left.
      apply (keeps_finish_run E (news_is v) (news_is_logs v)).
      apply (keeps_update_stats E (news_is v) (news_is_stats v)).
      unfold news_is. rewrite R. exact P4.
    + right. split; [exact C|].
      apply (keeps_finish_run E (news_is (Some updated_news)) (news_is_logs _)).
      apply (keeps_update_stats E (news_is (Some updated_news))
               (news_is_stats _)).
      exact R.
Qed.




Lemma remote_logger_buffer (E : Env) (msg : str) (s : Sched) :
  log_buffer (snd (remote_logger E msg s))
  = log_buffer s ++ [(strftime_log E (now E (clock_reads s)), msg)]
  /\ (github_ops s <= github_ops (snd (remote_logger E msg s))
      <= S (github_ops s))%nat.
Proof.
  unfold remote_logger, save_logs_to_github, save_data_to_github.
  cbv [bind read_clock get_log_buffer put_log_buffer github_op get_repo
       put_repo ret].
  cbn [fst snd log_buffer clock_reads github_ops repo].
  destruct (_ || _ || _); [|cbn; split; [reflexivity | lia]].
  cbn [fst snd log_buffer clock_reads github_ops repo].
  destruct (github_ok E (github_ops s)); cbn; split; try reflexivity; lia.
Qed.

End SchedulerRun.

(** X16: a started run writes [news_data.json] only when the pipeline
    returned with a positive change count, and then writes exactly the
    collection the pipeline returned; a pipeline that raised, or that
    reported no change, leaves the file as it was. *)
Theorem news_written_only_on_changes (E : Scheduler.Env) (r : Scheduler.Repo)
    (msgs : list str) (result : Scheduler.outcome) (s : Scheduler.Sched) :
  Scheduler.scheduler_iteration E (Scheduler.start r)
    = (Some (msgs, result), s) ->
  match result with
  | Scheduler.Raised _ =>
      Scheduler.news_data_json (Scheduler.repo s) = Scheduler.news_data_json r
  | Scheduler.Returned updated_news changes =>
      Scheduler.news_data_json (Scheduler.repo s) = Scheduler.news_data_json r
      \/ (0 < changes
          /\ Scheduler.news_data_json (Scheduler.repo s) = Some updated_news)
  end.
Proof.
  intros H. apply SchedulerRun.started_run_inv in H.
  destruct H as (config & stats & s3 & Hr & Ha).
  pose proof (SchedulerRun.auto_scrape_news E config stats s3) as P.
  cbv zeta in P. rewrite Ha, Hr in P. exact P.
Qed.

Lemma news_written_only_on_changes_witness :
  Scheduler.news_data_json
    (Scheduler.repo
       (snd (Scheduler.scheduler_iteration env_raising
               (Scheduler.start repo_due))))
  = Scheduler.news_data_json repo_due.
Proof.
  assert (Hrun : Scheduler.scheduler_iteration env_raising
                   (Scheduler.start repo_due)
                 = (Some ([py "Initializing..."], Scheduler.Raised (py "'link'")),
                    snd (Scheduler.scheduler_iteration env_raising
                           (Scheduler.start repo_due))))
    by (vm_compute; reflexivity).
  exact (news_written_only_on_changes env_raising repo_due _ _ _ Hrun).
Defined.



(** X18: the log buffer loses nothing and keeps the order: after the
    messages of a run were logged, the buffer holds the earlier lines
    followed by these messages, one line each; and the flushes are
    batched, at most one write per message. *)
Theorem log_buffer_keeps_messages (E : Scheduler.Env) (msgs : list str)
    (s : Scheduler.Sched) :
  List.map snd (Scheduler.log_buffer (snd (Scheduler.log_all E msgs s)))
  = List.map snd (Scheduler.log_buffer s) ++ msgs
  /\ (Scheduler.github_ops (snd (Scheduler.log_all E msgs s))
      <= Scheduler.github_ops s + List.length msgs)%nat.
Proof.
  revert s; induction msgs as [|msg msgs IH]; intros s.
  - cbn. rewrite app_nil_r. split; [reflexivity | lia].
  - cbn [Scheduler.log_all]. rewrite SchedulerFacts.bind_eq.
    destruct (SchedulerRun.remote_logger_buffer E msg s) as [B G].
    destruct (IH (snd (Scheduler.remote_logger E msg s))) as [IH1 IH2].
    rewrite IH1, B, map_app, <- app_assoc. cbn [List.map snd List.length app].
    split; [reflexivity | lia].
Qed.

(** X19: whatever happens in an iteration, the log file it leaves is the
    one it found or one of at most 50 lines. *)
Theorem log_file_bounded (E : Scheduler.Env) (r : Scheduler.Repo) :
  logs_bounded r
    (Scheduler.repo (snd (Scheduler.scheduler_iteration E (Scheduler.start r)))).
Proof.
  apply (SchedulerMore.keeps_scheduler_iteration E (logs_bounded r)).
  - intros l r' Hl _. right. exists l. split; [reflexivity | exact Hl].
  - intros d r' H. exact H.
  - intros d r' H. exact H.
  - left. reflexivity.
Qed.

(* ================================================================= *)
(** ** The page script *)

Module AppFacts.
Import Scheduler App.

Lemma assoc_get_set_same {A} (k : str) (v : A) (d : list (str * A)) :
  assoc_get k (assoc_set k v d) = Some v.
Proof.
  induction d as [|[k' v'] d IH]; simpl.
  - rewrite eqb_refl; reflexivity.
  - destruct (eqb k k') eqn:E; simpl; rewrite E; [reflexivity | exact IH].
Qed.

Lemma assoc_get_set_other {A} (k k' : str) (v : A) (d : list (str * A)) :
  k <> k' -> assoc_get k (assoc_set k' v d) = assoc_get k d.
Proof.
  intros N. induction d as [|[k0 v0] d IH]; simpl.
  - apply eqb_neq in N. rewrite N. reflexivity.
  - destruct (eqb k' k0) eqn:E; simpl.
    + apply eqb_eq in E. subst k0. apply eqb_neq in N. rewrite N. reflexivity.
    + rewrite IH. reflexivity.
Qed.

Lemma has_key_assoc_get {A} (k : str) (d : list (str * A)) :
  has_key k d = false <-> assoc_get k d = None.
Proof.
  induction d as [|[k' v'] d IH]; simpl; [tauto|].
  destruct (eqb k k'); simpl; [split; discriminate | exact IH].
Qed.

(** The day's count after a visit. *)
Lemma visit_count (today : str) (visits : list (str * Z)) :
  let visits1 :=
    if has_key today visits then visits else assoc_set today 0 visits in
  match assoc_get today visits1 with Some c => c | None => 0 end
  = match assoc_get today visits with Some c => c | None => 0 end.
Proof.
  cbv zeta. destruct (has_key today visits) eqn:H; [reflexivity|].
  apply has_key_assoc_get in H. rewrite H, assoc_get_set_same. reflexivity.
Qed.

Lemma existsb_eqb_In (x : str) (l : list str) :
  existsb (eqb x) l = true <-> In x l.
Proof.
  rewrite existsb_exists. split.
  - intros (y & Hy & E). apply eqb_eq in E. subst. exact Hy.
  - intros H. exists x. split; [exact H | apply eqb_refl].
Qed.

End AppFacts.

(** X20: [update_stats_visit] adds exactly one to the count of the day
    (starting from 0 when the day is new) and leaves every other day,
    the last run time and the scrape counts as they are; when the
    statistics have no ["daily_visits"], it raises and writes nothing. *)
Theorem update_stats_visit_counts (E : Scheduler.Env) (stats : Scheduler.Stats)
    (s : Scheduler.Sched) :
  let today := Scheduler.date_isoformat E (Scheduler.now E (Scheduler.clock_reads s)) in
  (forall visits, Scheduler.s_daily_visits stats = Some visits ->
     exists stats' visits',
       fst (App.update_stats_visit E stats s) = Some stats'
       /\ Scheduler.s_daily_visits stats' = Some visits'
       /\ App.assoc_get today visits'
          = Some (match App.assoc_get today visits with
                  | Some c => c
                  | None => 0
                  end + 1)
       /\ (forall day, day <> today ->
             App.assoc_get day visits' = App.assoc_get day visits)
       /\ Scheduler.s_last_auto_scrape stats'
          = Scheduler.s_last_auto_scrape stats
       /\ Scheduler.s_scraped_count stats' = Scheduler.s_scraped_count stats)
  /\ (Scheduler.s_daily_visits stats = None ->
      fst (App.update_stats_visit E stats s) = None
      /\ Scheduler.repo (snd (App.update_stats_visit E stats s))
         = Scheduler.repo s).
Proof.
  cbv zeta. unfold App.update_stats_visit.
  rewrite SchedulerFacts.bind_eq.
  cbn [Scheduler.read_clock fst snd].
  split.
  - intros visits Hv. rewrite Hv. rewrite SchedulerFacts.bind_eq.
    cbn [Scheduler.ret fst].
    eexists. eexists. split; [reflexivity|]. split; [reflexivity|].
    cbn [Scheduler.s_last_auto_scrape Scheduler.s_scraped_count].
    split; [|split; [|split; reflexivity]].
    + rewrite AppFacts.assoc_get_set_same.
      rewrite (AppFacts.visit_count _ visits). reflexivity.
    + intros day Hd. rewrite AppFacts.assoc_get_set_other by exact Hd.
      destruct (Scheduler.has_key _ visits); [reflexivity|].
      apply AppFacts.assoc_get_set_other, Hd.
  - intros Hv. rewrite Hv. split; reflexivity.
Qed.

Lemma update_stats_visit_counts_witness :
  exists stats' visits',
    fst (App.update_stats_visit env_ok stats_loaded
           (Scheduler.start repo_after_run)) = Some stats'
    /\ Scheduler.s_daily_visits stats' = Some visits'
    /\ App.assoc_get (py "2024-03-05") visits' = Some (0 + 1)
    /\ (forall day, day <> py "2024-03-05" ->
          App.assoc_get day visits'
          = App.assoc_get day [(py "2024-03-04", 12)])
    /\ Scheduler.s_last_auto_scrape stats'
       = Scheduler.s_last_auto_scrape stats_loaded
    /\ Scheduler.s_scraped_count stats'
       = Scheduler.s_scraped_count stats_loaded.
Proof.
  exact (proj1 (update_stats_visit_counts env_ok stats_loaded
                  (Scheduler.start repo_after_run))
           [(py "2024-03-04", 12)] eq_refl).
Defined.

(** X21: [update_stats_visit] writes back the statistics the page loaded:
    when the write goes through, [stats.json] is the updated copy of that
    snapshot, so its [last_auto_scrape] is the snapshot's, whatever the
    file held before the write. *)
Theorem update_stats_visit_writes_snapshot (E : Scheduler.Env)
    (stats : Scheduler.Stats) (s : Scheduler.Sched) :
  Scheduler.s_daily_visits stats <> None ->
  Scheduler.github_ok E (Scheduler.github_ops s) = true ->
  Scheduler.stats_json (Scheduler.repo (snd (App.update_stats_visit E stats s)))
  = fst (App.update_stats_visit E stats s)
  /\ Scheduler.persisted_last_auto_scrape
       (Scheduler.repo (snd (App.update_stats_visit E stats s)))
     = Scheduler.s_last_auto_scrape stats.
Proof.
  intros Hv Hok. unfold App.update_stats_visit.
  rewrite SchedulerFacts.bind_eq. cbn [Scheduler.read_clock fst snd].
  destruct (Scheduler.s_daily_visits stats) as [visits|]; [|contradiction].
  rewrite SchedulerFacts.bind_eq. cbn [Scheduler.ret fst snd].
  unfold Scheduler.persisted_last_auto_scrape.
  rewrite SchedulerMore.save_ok_repo by exact Hok.
  split; reflexivity.
Qed.

Lemma update_stats_visit_writes_snapshot_witness :
  Scheduler.persisted_last_auto_scrape repo_after_run
    = Some (clock_from_run_time 0)
  /\ Scheduler.persisted_last_auto_scrape
       (Scheduler.repo
          (snd (App.update_stats_visit env_ok stats_loaded
                  (Scheduler.start repo_after_run))))
     = Some a_day_before.
Proof.
  split; [reflexivity|].
  apply (proj2 (update_stats_visit_writes_snapshot env_ok stats_loaded
                  (Scheduler.start repo_after_run)
                  ltac:(discriminate) eq_refl)).
Defined.

(** X22: "Refresh News Now" touches neither [stats.json] nor [logs.json]
    nor [config.json]; it writes [news_data.json] only when the pipeline
    returned with a positive change count, and then, if the write goes
    through, the file is the collection the pipeline computed from the
    page's snapshot, whatever the file held. *)
Theorem refresh_news_now_writes (E : Scheduler.Env) (config : Scheduler.Config)
    (news_data : list Article) (s : Scheduler.Sched) :
  let res := App.refresh_news_now E config news_data s in
  let r' := Scheduler.repo (snd res) in
  Scheduler.stats_json r' = Scheduler.stats_json (Scheduler.repo s)
  /\ Scheduler.logs_json r' = Scheduler.logs_json (Scheduler.repo s)
  /\ Scheduler.config_json r' = Scheduler.config_json (Scheduler.repo s)
  /\ match snd (fst res) with
     | Scheduler.Raised _ =>
         Scheduler.news_data_json r'
         = Scheduler.news_data_json (Scheduler.repo s)
     | Scheduler.Returned updated_news changes =>
         (changes <= 0 ->
          Scheduler.news_data_json r'
          = Scheduler.news_data_json (Scheduler.repo s))
         /\ (0 < changes ->
             Scheduler.github_ok E (Scheduler.github_ops s) = true ->
             Scheduler.news_data_json r' = Some updated_news)
         /\ (Scheduler.news_data_json r'
             = Scheduler.news_data_json (Scheduler.repo s)
             \/ Scheduler.news_data_json r' = Some updated_news)
     end.
Proof.
  cbv zeta. unfold App.refresh_news_now.
  destruct (Scheduler.pipeline E _ _ _ _ _) as [msgs result].
  rewrite SchedulerFacts.bind_eq. cbn [Scheduler.ret fst snd].
  destruct result as [e|updated_news changes].
  - repeat split.
  - destruct (0 <? changes) eqn:C.
    + apply Z.ltb_lt in C. rewrite SchedulerFacts.bind_eq.
      cbn [Scheduler.ret snd].
      destruct (SchedulerMore.save_repo_cases E
                  (Scheduler.write_news updated_news) s) as [W|W].
      * rewrite W. cbn. repeat split; try reflexivity; try lia.
        right; reflexivity.
      * pose proof (SchedulerMore.save_ok_repo E
                      (Scheduler.write_news updated_news) s) as Ok.
        rewrite W in *. repeat split; try reflexivity; try lia.
        -- intros _ Hok. rewrite (Ok Hok). reflexivity.
        -- left; reflexivity.
    + apply Z.ltb_ge in C. cbn [Scheduler.ret snd].
      repeat split; try reflexivity; try lia. left; reflexivity.
Qed.

Lemma refresh_news_now_writes_witness :
  Scheduler.news_data_json
    (Scheduler.repo
       (snd (App.refresh_news_now env_ok config_loaded []
               (Scheduler.start repo_after_run))))
  = Some (fst (process_news_data world_boundary [feed_url] []
                 (py "gpt-4o-mini") 3 None)).
Proof.
  pose proof (refresh_news_now_writes env_ok config_loaded []
                (Scheduler.start repo_after_run)) as H.
  cbv zeta in H. destruct H as (_ & _ & _ & H).
  assert (R : snd (fst (App.refresh_news_now env_ok config_loaded []
                          (Scheduler.start repo_after_run)))
              = Scheduler.Returned
                  (fst (process_news_data world_boundary [feed_url] []
                          (py "gpt-4o-mini") 3 None)) 2)
    by (vm_compute; reflexivity).
  rewrite R in H. destruct H as (_ & H & _).
  apply H; [lia | reflexivity].
Defined.

(** X23: deleting the selected articles removes exactly those whose
    identifier is selected, and what stays is still sorted by timestamp,
    most recent first, and still has distinct links. *)
Theorem delete_keeps_collection_invariants (news_data : list Article)
    (selected_ids : list str) :
  (forall item, In item (App.new_news_list news_data selected_ids)
                <-> In item news_data /\ ~ In (a_id item) selected_ids)
  /\ (StronglySorted timestamp_desc news_data ->
      StronglySorted timestamp_desc (App.new_news_list news_data selected_ids))
  /\ (NoDup (List.map a_link news_data) ->
      NoDup (List.map a_link (App.new_news_list news_data selected_ids))).
Proof.
  unfold App.new_news_list. split; [|split].
  - intros item. rewrite filter_In, negb_true_iff, <- not_true_iff_false,
      AppFacts.existsb_eqb_In. tauto.
  - induction 1 as [|x l Hs IH Hx]; simpl; [constructor|].
    destruct (negb _); [|exact IH].
    constructor; [exact IH|].
    rewrite Forall_forall in *. intros y Hy. apply filter_In in Hy.
    apply Hx, Hy.
  - induction news_data as [|x l IH]; simpl; [constructor|].
    intros Hn. inversion Hn as [|? ? Hx Hl]; subst.
    destruct (negb _); [|apply IH, Hl].
    simpl. constructor; [|apply IH, Hl].
    intros Hin. apply Hx. apply in_map_iff in Hin.
    destruct Hin as (y & Hy & Hin). apply filter_In in Hin.
    apply in_map_iff. exists y. tauto.
Qed.

Lemma delete_keeps_collection_invariants_witness :
  StronglySorted timestamp_desc
    (App.new_news_list two_articles [a_id article_first_seen])
  /\ NoDup (List.map a_link
              (App.new_news_list two_articles [a_id article_first_seen])).
Proof.
  split.
  - apply (proj1 (proj2 (delete_keeps_collection_invariants two_articles
                           [a_id article_first_seen]))).
    repeat constructor.
  - apply (proj2 (proj2 (delete_keeps_collection_invariants two_articles
                           [a_id article_first_seen]))).
    repeat constructor; cbn; intuition discriminate.
Defined.

(** X24: "Add URL" changes the feed list only by appending a URL that is
    not empty and not yet listed, so a list of distinct, non-empty URLs
    stays one; a click with an empty or listed URL changes nothing. *)
Theorem add_url_keeps_feeds_distinct (current_urls : list str) (new_url : str) :
  (forall urls', App.add_url current_urls new_url = Some urls' ->
     urls' = current_urls ++ [new_url]
     /\ (NoDup current_urls -> NoDup urls')
     /\ (Forall (fun u => truthy u = true) current_urls ->
         Forall (fun u => truthy u = true) urls'))
  /\ (App.add_url current_urls new_url = None
      <-> new_url = [] \/ In new_url current_urls).
Proof.
  unfold App.add_url.
  destruct (truthy new_url) eqn:T;
    destruct (existsb (eqb new_url) current_urls) eqn:X; cbn [andb negb].
  - split; [discriminate|].
    apply AppFacts.existsb_eqb_In in X. tauto.
  - apply not_true_iff_false in X. rewrite AppFacts.existsb_eqb_In in X.
    split.
    + intros urls' H. inversion H; subst. split; [reflexivity|]. split.
      * intros Hn. apply NoDup_rev in Hn.
        rewrite <- (rev_involutive (_ ++ _)). apply NoDup_rev.
        rewrite rev_app_distr. simpl. constructor; [|exact Hn].
        rewrite <- in_rev. exact X.
      * intros Hf. apply Forall_app. split; [exact Hf|].
        constructor; [exact T | constructor].
    + split; [discriminate|]. intros [->|H]; [discriminate | contradiction].
  - split; [discriminate|]. destruct new_url; [|discriminate]. tauto.
  - split; [discriminate|]. destruct new_url; [|discriminate]. tauto.
Qed.

Lemma add_url_keeps_feeds_distinct_witness :
  App.add_url [feed_url] feed_url = None
  /\ NoDup [feed_url; py "https://example.com/other.xml"].
Proof.
  split.
  - apply (proj2 (add_url_keeps_feeds_distinct [feed_url] feed_url)).
    right; left; reflexivity.
  - apply (proj1 (add_url_keeps_feeds_distinct [feed_url]
                    (py "https://example.com/other.xml"))
             [feed_url; py "https://example.com/other.xml"] eq_refl).
    repeat constructor. intros [].
Defined.
